(** * fix_timestamp.py: shifting the cue timings of a WebVTT file

    A shallow embedding of [src/fix_timestamp.py] and the properties its
    specification states about it.

    - A Python [str] is a list of Unicode code points.
    - [re], [int], [str.split], [timedelta] and [float] are modelled as far
      as the program uses them: the backtracking matcher on the regular
      expression [TIME_RE], CPython's conversion of a string to an integer,
      the range [timedelta] enforces ([OverflowError] outside it), and
      binary64 arithmetic with round-to-nearest-even.
    - A raised exception is a value of the sum type [result]. *)

From Stdlib Require Import String Ascii.
From Stdlib Require Import ZArith NArith List Bool Lia.
From Stdlib Require Import QArith Qabs Qpower Lqa.
Import ListNotations.
Close Scope Q_scope.

(** ** Python strings *)

Definition char := N.
Definition str := list char.

(** An ASCII literal as a Python string. *)
Definition py (s : string) : str := map N_of_ascii (list_ascii_of_string s).

Definition LF : char := 10%N.
Definition COLON : char := 58%N.
Definition PERIOD : char := 46%N.
Definition HYPHEN : char := 45%N.
Definition GT : char := 62%N.
Definition UNDERSCORE : char := 95%N.

(** The zero digits of the runs of ten decimal digits (category Nd) of the
    Unicode character database, version 14.0. *)
Definition decimal_zeros : list N :=
  [48; 1632; 1776; 1984; 2406; 2534; 2662; 2790; 2918; 3046; 3174; 3302;
   3430; 3558; 3664; 3792; 3872; 4160; 4240; 6112; 6160; 6470; 6608; 6784;
   6800; 6992; 7088; 7232; 7248; 42528; 43216; 43264; 43472; 43504; 43600;
   44016; 65296; 66720; 68912; 69734; 69872; 69942; 70096; 70384; 70736;
   70864; 71248; 71360; 71472; 71904; 72016; 72784; 73040; 73120; 92768;
   92864; 93008; 120782; 120792; 120802; 120812; 120822; 123200; 123632;
   125264; 130032]%N.

Definition in_run (c z : N) : bool := ((z <=? c) && (c <? z + 10))%N.

(** The decimal value of a code point, if it is a decimal digit. *)
Definition Py_UNICODE_TODECIMAL (c : char) : option N :=
  match find (in_run c) decimal_zeros with
  | Some z => Some (c - z)%N
  | None => None
  end.

Definition Py_UNICODE_ISDECIMAL (c : char) : bool :=
  match Py_UNICODE_TODECIMAL c with Some _ => true | None => false end.

Definition whitespace_table : list N :=
  [9; 10; 11; 12; 13; 28; 29; 30; 31; 32; 133; 160; 5760; 8192; 8193; 8194;
   8195; 8196; 8197; 8198; 8199; 8200; 8201; 8202; 8232; 8233; 8239; 8287;
   12288]%N.

Definition Py_UNICODE_ISSPACE (c : char) : bool :=
  existsb (N.eqb c) whitespace_table.

(** The C-locale whitespace test of CPython's number parser. *)
Definition Py_ISSPACE (c : char) : bool :=
  (((9 <=? c) && (c <=? 13)) || (c =? 32))%N.

(** ** Exceptions *)

Inductive exn : Type :=
| ValueError (msg : str)
| OverflowError.

Inductive result (A : Type) : Type :=
| Ok (a : A)
| Raise (e : exn).

Arguments Ok {A} a.
Arguments Raise {A} e.

Definition bind {A B : Type} (r : result A) (f : A -> result B) : result B :=
  match r with
  | Ok a => f a
  | Raise e => Raise e
  end.

Notation "x <- r ;; k" := (bind r (fun x => k))
  (at level 61, r at next level, right associativity).

(** ** Regular expressions: the fragment of [re] that [TIME_RE] uses *)

Inductive cclass : Type :=
| Digit   (* \d *)
| Space   (* \s *)
| Dot.    (* .  *)

Definition in_class (k : cclass) (c : char) : bool :=
  match k with
  | Digit => Py_UNICODE_ISDECIMAL c
  | Space => Py_UNICODE_ISSPACE c
  | Dot => negb (c =? LF)%N
  end.

Inductive gname : Type := G1 | Gstart | Gend | Grest.

Definition gname_eqb (a b : gname) : bool :=
  match a, b with
  | G1, G1 | Gstart, Gstart | Gend, Gend | Grest, Grest => true
  | _, _ => false
  end.

Inductive regex : Type :=
| Lit (c : char)
| Cls (k : cclass)
| Cat (r1 r2 : regex)
| Opt (r : regex)              (* r?   greedy *)
| Star (k : cclass)            (* k*   greedy *)
| Rep (n : nat) (r : regex)    (* r{n} *)
| Grp (g : gname) (r : regex)  (* capturing group *)
| Bol                          (* ^ *)
| Eol.                         (* $ *)

(** The groups captured so far, most recent first. *)
Definition groups := list (gname * str).

Definition cont := str -> groups -> option groups.

(** Greedy repetition of a character class: the longest run first, then
    shorter ones while the continuation fails. *)
Fixpoint star (p : char -> bool) (s : str) (m : groups) (k : cont)
  : option groups :=
  match s with
  | c :: s' =>
      if p c then
        match star p s' m k with
        | Some r => Some r
        | None => k s m
        end
      else k s m
  | [] => k [] m
  end.

(** [run w r s m k]: match [r] at the suffix [s] of the subject [w], then
    continue with [k]; [None] when every alternative fails. *)
Fixpoint run (w : str) (r : regex) (s : str) (m : groups) (k : cont)
  {struct r} : option groups :=
  match r with
  | Lit c =>
      match s with
      | x :: s' => if (x =? c)%N then k s' m else None
      | [] => None
      end
  | Cls cl =>
      match s with
      | x :: s' => if in_class cl x then k s' m else None
      | [] => None
      end
  | Cat r1 r2 => run w r1 s m (fun s' m' => run w r2 s' m' k)
  | Opt r1 =>
      match run w r1 s m k with
      | Some x => Some x
      | None => k s m
      end
  | Star cl => star (in_class cl) s m k
  | Rep n r1 =>
      (fix rep (n : nat) (s : str) (m : groups) (k : cont) : option groups :=
         match n with
         | O => k s m
         | S n' => run w r1 s m (fun s' m' => rep n' s' m' k)
         end) n s m k
  | Grp g r1 =>
      run w r1 s m
        (fun s' m' => k s' ((g, firstn (length s - length s') s) :: m'))
  | Bol => if (length s =? length w)%nat then k s m else None
  | Eol =>
      match s with
      | [] => k s m
      | [c] => if (c =? LF)%N then k s m else None
      | _ => None
      end
  end.

(** [r.match(line)]: anchored at the start, the end is free. *)
Definition re_match (r : regex) (line : str) : option groups :=
  run line r line [] (fun _ m => Some m).

Fixpoint lookup_group (m : groups) (g : gname) : option str :=
  match m with
  | [] => None
  | (g', s) :: m' => if gname_eqb g g' then Some s else lookup_group m' g
  end.

(** [m.group(g)]; every group of [TIME_RE] takes part in a match
    (see [TIME_RE_groups]), so the default is never used. *)
Definition group (m : groups) (g : gname) : str :=
  match lookup_group m g with Some s => s | None => [] end.

Fixpoint Cats (rs : list regex) (last : regex) : regex :=
  match rs with
  | [] => last
  | r :: rs' => Cat r (Cats rs' last)
  end.

Definition d2 : regex := Rep 2 (Cls Digit).
Definition d3 : regex := Rep 3 (Cls Digit).

(** [(?:\d{2}:)?\d{2}:\d{2}\.\d{3}] *)
Definition TIMESTAMP_RE : regex :=
  Cats [Opt (Cat d2 (Lit COLON)); d2; Lit COLON; d2; Lit PERIOD] d3.

(** The pattern of a cue timing line: [^], group 1 around [\s*], the group
    [start] around a time stamp, [\s*-->\s*], the group [end] around a time
    stamp, the group [rest] around [.*], and [$]. *)
Definition TIME_RE : regex :=
  Cats [Bol; Grp G1 (Star Space); Grp Gstart TIMESTAMP_RE; Star Space;
        Lit HYPHEN; Lit HYPHEN; Lit GT; Star Space; Grp Gend TIMESTAMP_RE;
        Grp Grest (Star Dot)] Eol.

(** ** [int(s)] on a string, as CPython converts it *)

(** CPython first rewrites the string: code points below 127 stay, any other
    Unicode whitespace becomes a space and any other decimal digit its ASCII
    digit; at the first code point that is neither, the copy ends with a
    question mark. *)
Fixpoint transform_decimal_and_space (s : str) : str :=
  match s with
  | [] => []
  | c :: s' =>
      if (c <? 127)%N then c :: transform_decimal_and_space s'
      else if Py_UNICODE_ISSPACE c then 32%N :: transform_decimal_and_space s'
      else
        match Py_UNICODE_TODECIMAL c with
        | Some d => (48 + d)%N :: transform_decimal_and_space s'
        | None => [63%N]
        end
  end.

Definition ascii_digit (c : char) : option Z :=
  if ((48 <=? c) && (c <=? 57))%N then Some (Z.of_N c - 48)%Z else None.

Fixpoint drop_while (p : char -> bool) (s : str) : str :=
  match s with
  | c :: s' => if p c then drop_while p s' else s
  | [] => []
  end.

Fixpoint take_while (p : char -> bool) (s : str) : str :=
  match s with
  | c :: s' => if p c then c :: take_while p s' else []
  | [] => []
  end.

(** The digits after the first one: a digit, or one underscore followed by
    a digit.  Returns the value, the number of digits and what is left. *)
Fixpoint scan_digits (s : str) (acc : Z) (n : N) : option (Z * N * str) :=
  match s with
  | [] => Some (acc, n, [])
  | c :: s' =>
      match ascii_digit c with
      | Some d => scan_digits s' (10 * acc + d)%Z (n + 1)%N
      | None =>
          if (c =? UNDERSCORE)%N then
            match s' with
            | c' :: s'' =>
                match ascii_digit c' with
                | Some d => scan_digits s'' (10 * acc + d)%Z (n + 1)%N
                | None => None
                end
            | [] => None
            end
          else Some (acc, n, s)
      end
  end.

(** The largest number of digits [int] converts (the interpreter's default
    limit). *)
Definition int_max_str_digits : N := 4300%N.

(** [PyLong_FromString] in base 10: whitespace, an optional sign, digits with
    single underscores between them, whitespace, end of string. *)
Definition long_from_string (s : str) : option Z :=
  let s1 := drop_while Py_ISSPACE s in
  let '(neg, s2) :=
    match s1 with
    | c :: s' =>
        if (c =? 43)%N then (false, s')
        else if (c =? 45)%N then (true, s')
        else (false, s1)
    | [] => (false, s1)
    end in
  match s2 with
  | c :: s3 =>
      match ascii_digit c with
      | Some d =>
          match scan_digits s3 d 1%N with
          | Some (v, n, tl) =>
              match drop_while Py_ISSPACE tl with
              | [] =>
                  if (n <=? int_max_str_digits)%N
                  then Some (if neg then (- v)%Z else v)
                  else None
              | _ :: _ => None
              end
          | None => None
          end
      | None => None
      end
  | [] => None
  end.

(** [int(s)]; [None] stands for the [ValueError] it raises. *)
Definition int_of_str (s : str) : option Z :=
  long_from_string (transform_decimal_and_space s).

(** ** [s.split(sep)] with a one-character separator *)

Fixpoint split (sep : char) (s : str) : list str :=
  match s with
  | [] => [[]]
  | c :: s' =>
      if (c =? sep)%N then [] :: split sep s'
      else
        match split sep s' with
        | h :: t => (c :: h) :: t
        | [] => [[c]]
        end
  end.

(** ** [datetime.timedelta] *)

Definition MAX_DELTA_DAYS : Z := 999999999.
Definition US_PER_DAY : Z := 86400000000.

(** A duration is a whole number of microseconds whose day count has a
    magnitude of at most [MAX_DELTA_DAYS]. *)
Definition td_in_range (u : Z) : bool :=
  ((- MAX_DELTA_DAYS * US_PER_DAY <=? u)
   && (u <? (MAX_DELTA_DAYS + 1) * US_PER_DAY))%Z.

Record timedelta : Type := mk_timedelta {
  td_us : Z;
  td_ok : td_in_range td_us = true
}.

(** Normalisation at the end of every constructor and of addition:
    [OverflowError] outside the range. *)
Definition new_delta (u : Z) : result timedelta :=
  match bool_dec (td_in_range u) true with
  | left H => Ok (mk_timedelta u H)
  | right _ => Raise OverflowError
  end.

(** [timedelta(0)] *)
Definition timedelta_zero : timedelta := @mk_timedelta 0 eq_refl.

(** [timedelta(hours=hh, minutes=mm, seconds=ss, milliseconds=millis)] on
    integers. *)
Definition timedelta_hmsm (hh mm ss millis : Z) : result timedelta :=
  new_delta (hh * 3600000000 + mm * 60000000 + ss * 1000000 + millis * 1000)%Z.

(** [a + b] *)
Definition td_add (a b : timedelta) : result timedelta :=
  new_delta (td_us a + td_us b)%Z.

(** ** [float]: binary64, round to nearest, ties to even

    A finite float is represented by the rational number it denotes; every
    operation is the exact one followed by [fl], the rounding to 53
    significant bits.  Overflow and subnormal numbers are left out: the
    magnitudes this program reaches lie between 2^-20 and 2^57
    ([floats_are_normal]). *)

(** Nearest integer, ties to even. *)
Definition rne (q : Q) : Z :=
  let n := Qnum q in
  let d := Zpos (Qden q) in
  let f := (n / d)%Z in
  let r := (n mod d)%Z in
  if (2 * r <? d)%Z then f
  else if (d <? 2 * r)%Z then (f + 1)%Z
  else if Z.even f then f else (f + 1)%Z.

(** [ilog2 a] is the integer [e] with [2^e <= a < 2^(e+1)], for [0 < a]. *)
Definition ilog2 (a : Q) : Z :=
  let e0 := (Z.log2 (Qnum a) - Z.log2 (Zpos (Qden a)))%Z in
  if Qle_bool (2 ^ e0)%Q a then e0 else (e0 - 1)%Z.

(** Rounding to 53 significant bits. *)
Definition fl (q : Q) : Q :=
  if (Qnum q =? 0)%Z then 0%Q
  else
    let ulp := (2 ^ (ilog2 (Qabs q) - 52))%Q in
    (inject_Z (rne (q / ulp)) * ulp)%Q.

(** [a / b] on integers (true division, correctly rounded). *)
Definition int_true_divide (a : Z) (b : positive) : Q := fl (a # b)%Q.

(** [x * y] on floats. *)
Definition float_mul (x y : Q) : Q := fl (x * y)%Q.

(** [x < 0] *)
Definition float_neg (x : Q) : bool := (Qnum x <? 0)%Z.

(** [round(x)], an integer. *)
Definition py_round (x : Q) : Z := rne x.

(** [td.total_seconds()] *)
Definition total_seconds (td : timedelta) : Q :=
  int_true_divide (td_us td) 1000000.

(** ** The program *)

Definition invalid_time_format (s : str) : str :=
  py "Invalid time format '" ++ s
    ++ py "'. Expected HH:MM:SS.mmm or MM:SS.mmm".

Definition int_result (s : str) : result Z :=
  match int_of_str s with
  | Some z => Ok z
  | None => Raise (ValueError [])
  end.

(** The body of the [try] block of [parse_hhmmss_mmm].  The handler discards
    the exception it catches, so that the messages of the exceptions raised
    here are left empty. *)
Definition parse_body (s : str) : result timedelta :=
  match split PERIOD s with
  | [hms; ms] =>
      hmsv <-
        match split COLON hms with
        | [h; m; sec] =>
            hh <- int_result h ;; mm <- int_result m ;;
            ss <- int_result sec ;; Ok (hh, mm, ss)
        | [m; sec] =>
            mm <- int_result m ;; ss <- int_result sec ;; Ok (0%Z, mm, ss)
        | _ => Raise (ValueError [])
        end ;;
      let '(hh, mm, ss) := hmsv in
      millis <- int_result ms ;;
      timedelta_hmsm hh mm ss millis
  | _ => Raise (ValueError [])
  end.

(** Every exception of the body is replaced by the [ValueError] that carries
    the text. *)
Definition parse_hhmmss_mmm (s : str) : result timedelta :=
  match parse_body s with
  | Ok td => Ok td
  | Raise _ => Raise (ValueError (invalid_time_format s))
  end.

(** The decimal digits of a natural number, most significant first. *)
Fixpoint digits_fuel (fuel : nat) (n : Z) (acc : str) : str :=
  match fuel with
  | O => acc
  | S fuel' =>
      let acc' := (48 + Z.to_N (n mod 10))%N :: acc in
      if (n <? 10)%Z then acc' else digits_fuel fuel' (n / 10)%Z acc'
  end.

Definition digits (n : Z) : str :=
  digits_fuel (S (Z.to_nat (Z.log2 n))) n [].

(** [format(z, "0<w>d")]: zero padding to the width [w], after the sign. *)
Definition format_0d (w : nat) (z : Z) : str :=
  if (z <? 0)%Z then
    let ds := digits (- z) in
    HYPHEN :: repeat 48%N (w - 1 - length ds) ++ ds
  else
    let ds := digits z in
    repeat 48%N (w - length ds) ++ ds.

(** [int(round(td.total_seconds() * 1000))] *)
Definition total_ms (td : timedelta) : Z :=
  py_round (float_mul (total_seconds td) 1000%Q).

Definition format_hhmmss_mmm (td : timedelta) : str :=
  let total_ms := total_ms td in
  let total_ms := if (total_ms <? 0)%Z then 0%Z else total_ms in
  let ms := (total_ms mod 1000)%Z in
  let total_seconds := (total_ms / 1000)%Z in
  let ss := (total_seconds mod 60)%Z in
  let total_minutes := (total_seconds / 60)%Z in
  let mm := (total_minutes mod 60)%Z in
  let hh := (total_minutes / 60)%Z in
  format_0d 2 hh ++ [COLON] ++ format_0d 2 mm ++ [COLON] ++ format_0d 2 ss
    ++ [PERIOD] ++ format_0d 3 ms.

(** The clamp of [shift_line]: [timedelta(0)] when [total_seconds() < 0]. *)
Definition clamp (td : timedelta) : timedelta :=
  if float_neg (total_seconds td) then timedelta_zero else td.

(** The two time stamps of a matched line, shifted and clamped. *)
Definition shifted (m : groups) (shift : timedelta)
  : result (timedelta * timedelta) :=
  start_td <- parse_hhmmss_mmm (group m Gstart) ;;
  end_td <- parse_hhmmss_mmm (group m Gend) ;;
  new_start <- td_add start_td shift ;;
  new_end <- td_add end_td shift ;;
  Ok (clamp new_start, clamp new_end).

Definition shift_line (line : str) (shift : timedelta) : result str :=
  match re_match TIME_RE line with
  | None => Ok line
  | Some m =>
      new <- shifted m shift ;;
      let '(new_start, new_end) := new in
      Ok (group m G1 ++ format_hhmmss_mmm new_start ++ py " --> "
            ++ format_hhmmss_mmm new_end ++ group m Grest ++ [LF])
  end.

(** ** The match of [TIME_RE], computed directly

    [TIME_RE] leaves the backtracking matcher no choice; [time_match] is the
    one way it can succeed ([re_match_time_match]). *)

Definition not_lf (c : char) : bool := negb (c =? LF)%N.

(** HH:MM:SS.mmm *)
Definition long_stamp (s : str) : bool :=
  match s with
  | [a; b; c1; c; d; c2; e; f; p; g; h; i] =>
      Py_UNICODE_ISDECIMAL a && Py_UNICODE_ISDECIMAL b && (c1 =? COLON)%N
      && Py_UNICODE_ISDECIMAL c && Py_UNICODE_ISDECIMAL d && (c2 =? COLON)%N
      && Py_UNICODE_ISDECIMAL e && Py_UNICODE_ISDECIMAL f && (p =? PERIOD)%N
      && Py_UNICODE_ISDECIMAL g && Py_UNICODE_ISDECIMAL h
      && Py_UNICODE_ISDECIMAL i
  | _ => false
  end.

(** MM:SS.mmm *)
Definition short_stamp (s : str) : bool :=
  match s with
  | [c; d; c2; e; f; p; g; h; i] =>
      Py_UNICODE_ISDECIMAL c && Py_UNICODE_ISDECIMAL d && (c2 =? COLON)%N
      && Py_UNICODE_ISDECIMAL e && Py_UNICODE_ISDECIMAL f && (p =? PERIOD)%N
      && Py_UNICODE_ISDECIMAL g && Py_UNICODE_ISDECIMAL h
      && Py_UNICODE_ISDECIMAL i
  | _ => false
  end.

Definition is_timestamp (s : str) : bool := long_stamp s || short_stamp s.

(** [\d{2}:] at the head of [s]. *)
Definition hours_prefix (s : str) : bool :=
  match s with
  | a :: b :: c :: _ =>
      Py_UNICODE_ISDECIMAL a && Py_UNICODE_ISDECIMAL b && (c =? COLON)%N
  | _ => false
  end.

(** The length of the time stamp at the head of [s]. *)
Definition stamp_length (s : str) : option nat :=
  if long_stamp (firstn 12 s) then Some 12%nat
  else if short_stamp (firstn 9 s) then Some 9%nat
  else None.

Record capture : Type := mk_capture {
  c_ws : str;
  c_start : str;
  c_end : str;
  c_rest : str
}.

Definition capture_groups (c : capture) : groups :=
  [(Grest, c_rest c); (Gend, c_end c); (Gstart, c_start c); (G1, c_ws c)].

Definition time_match (line : str) : option capture :=
  let s1 := drop_while Py_UNICODE_ISSPACE line in
  match stamp_length s1 with
  | None => None
  | Some n1 =>
      match drop_while Py_UNICODE_ISSPACE (skipn n1 s1) with
      | h1 :: h2 :: g :: s4 =>
          if ((h1 =? HYPHEN) && (h2 =? HYPHEN) && (g =? GT))%N then
            let s5 := drop_while Py_UNICODE_ISSPACE s4 in
            match stamp_length s5 with
            | None => None
            | Some n2 =>
                let s6 := skipn n2 s5 in
                let c := mk_capture (take_while Py_UNICODE_ISSPACE line)
                           (firstn n1 s1) (firstn n2 s5)
                           (take_while not_lf s6) in
                match drop_while not_lf s6 with
                | [] => Some c
                | [_] => Some c
                | _ => None
                end
            end
          else None
      | _ => None
      end
  end.

(** What stops a run: the head of the string, if there is one, is outside
    the class. *)
Definition stops (p : char -> bool) (s : str) : Prop :=
  match s with
  | c :: _ => p c = false
  | [] => True
  end.

(** ** The specification's Timing Line, in its own words

    Optional leading whitespace, a time stamp in one of the two forms,
    optional whitespace, the arrow, optional whitespace, a second time
    stamp, and any remaining text up to the end of the line. *)

Definition all_space (s : str) : Prop :=
  forallb Py_UNICODE_ISSPACE s = true.

Definition ARROW : str := [HYPHEN; HYPHEN; GT].

Definition end_of_line (eol : str) : Prop := eol = [] \/ eol = [LF].

Definition decomposes (line ws start sp1 sp2 end_ rest eol : str) : Prop :=
  line = ws ++ start ++ sp1 ++ ARROW ++ sp2 ++ end_ ++ rest ++ eol
  /\ all_space ws /\ is_timestamp start = true
  /\ all_space sp1 /\ all_space sp2 /\ is_timestamp end_ = true
  /\ ~ In LF rest /\ end_of_line eol.

Definition timing_line (line : str) : Prop :=
  exists ws start sp1 sp2 end_ rest eol,
    decomposes line ws start sp1 sp2 end_ rest eol.

(** A run of decimal digits. *)
Definition all_decimal (s : str) : Prop :=
  forallb Py_UNICODE_ISDECIMAL s = true.

(** One step of reading a decimal number from the left. *)
Definition decimal_step (acc : Z) (c : char) : Z :=
  (10 * acc
   + match Py_UNICODE_TODECIMAL c with Some d => Z.of_N d | None => 0 end)%Z.

(** The value of a run of decimal digits. *)
Definition decimal_value (s : str) : Z := fold_left decimal_step s 0%Z.

(** The duration a time stamp denotes, in microseconds. *)
Definition stamp_us (s : str) : Z :=
  match s with
  | [a; b; _; c; d; _; e; f; _; g; h; i] =>
      (decimal_value [a; b] * 3600000000 + decimal_value [c; d] * 60000000
       + decimal_value [e; f] * 1000000 + decimal_value [g; h; i] * 1000)%Z
  | [c; d; _; e; f; _; g; h; i] =>
      (decimal_value [c; d] * 60000000 + decimal_value [e; f] * 1000000
       + decimal_value [g; h; i] * 1000)%Z
  | _ => 0%Z
  end.

(** The largest duration a time stamp of a matched line denotes:
    99:99:99.999. *)
Definition MAX_STAMP_US : Z := 362439999000.

(** A shift that keeps every time stamp of a matched line inside the range
    of [timedelta]. *)
Definition safe_shift (shift : timedelta) : Prop :=
  (td_us shift + MAX_STAMP_US < (MAX_DELTA_DAYS + 1) * US_PER_DAY)%Z.

(** [timedelta.max] *)
Definition timedelta_max : timedelta :=
  @mk_timedelta 86399999999999999999 eq_refl.

(** A string that ends with exactly one line feed. *)
Definition ends_with_one_newline (s : str) : Prop :=
  exists body, s = body ++ [LF] /\ forall body', body <> body' ++ [LF].


(** HH:MM:SS or MM:SS, the part of a time stamp before the period. *)
Definition is_time_of_day (s : str) : bool :=
  match s with
  | [a; b; c1; c; d; c2; e; f] =>
      Py_UNICODE_ISDECIMAL a && Py_UNICODE_ISDECIMAL b && (c1 =? COLON)%N
      && Py_UNICODE_ISDECIMAL c && Py_UNICODE_ISDECIMAL d && (c2 =? COLON)%N
      && Py_UNICODE_ISDECIMAL e && Py_UNICODE_ISDECIMAL f
  | [c; d; c2; e; f] =>
      Py_UNICODE_ISDECIMAL c && Py_UNICODE_ISDECIMAL d && (c2 =? COLON)%N
      && Py_UNICODE_ISDECIMAL e && Py_UNICODE_ISDECIMAL f
  | _ => false
  end.

(** The duration the part before the period denotes, in microseconds. *)
Definition time_of_day_us (s : str) : Z :=
  match s with
  | [a; b; _; c; d; _; e; f] =>
      (decimal_value [a; b] * 3600000000 + decimal_value [c; d] * 60000000
       + decimal_value [e; f] * 1000000)%Z
  | [c; d; _; e; f] =>
      (decimal_value [c; d] * 60000000 + decimal_value [e; f] * 1000000)%Z
  | _ => 0%Z
  end.

(** Half a unit in the last place of a float, relative to its magnitude:
    [2^-53]. *)
Definition half_ulp : Q := (1 # 9007199254740992)%Q.

(** [int(round(td.total_seconds() * 1000))] as a function of the
    microseconds of [td]. *)
Definition ms_of_us (u : Z) : Z :=
  py_round (float_mul (int_true_divide u 1000000) 1000%Q).

(** The largest number of milliseconds up to which [total_ms] is shown to
    be exact: [2^51 - 1]. *)
Definition EXACT_MS : Z := 2251799813685247.

(** The text [format_hhmmss_mmm] prints for a total of [total_ms]
    milliseconds that is not negative. *)
Definition format_ms (total_ms : Z) : str :=
  let ms := (total_ms mod 1000)%Z in
  let total_seconds := (total_ms / 1000)%Z in
  let ss := (total_seconds mod 60)%Z in
  let total_minutes := (total_seconds / 60)%Z in
  let mm := (total_minutes mod 60)%Z in
  let hh := (total_minutes / 60)%Z in
  format_0d 2 hh ++ [COLON] ++ format_0d 2 mm ++ [COLON] ++ format_0d 2 ss
    ++ [PERIOD] ++ format_0d 3 ms.

(** ** The contract of Parse, in the specification's words

    The text is split at its last period into a time-of-day part and a
    milliseconds part; the time-of-day part splits at the colons into 3 or
    2 fields; every field parses as a non-negative integer. *)

Definition not_period (c : char) : bool := negb (c =? PERIOD)%N.

Definition split_last_period (s : str) : option (str * str) :=
  let r := rev s in
  match drop_while not_period r with
  | [] => None
  | _ :: before => Some (rev before, rev (take_while not_period r))
  end.

Definition nonneg_int_field (f : str) : bool :=
  match int_of_str f with
  | Some z => (0 <=? z)%Z
  | None => false
  end.

Definition spec_well_formed (s : str) : bool :=
  match split_last_period s with
  | None => false
  | Some (hms, ms) =>
      let fields := split COLON hms in
      ((length fields =? 2)%nat || (length fields =? 3)%nat)
      && forallb nonneg_int_field fields && nonneg_int_field ms
  end.

(** ** What the code reads

    The hours, minutes, seconds and milliseconds that [parse_hhmmss_mmm]
    converts: the text has exactly two parts around a period, the first has
    3 or 2 fields around colons, and [int] accepts every field. *)
Definition fields_of (s : str) : option (Z * Z * Z * Z) :=
  match split PERIOD s with
  | [hms; ms] =>
      match split COLON hms with
      | [h; m; sec] =>
          match int_of_str h, int_of_str m, int_of_str sec, int_of_str ms with
          | Some hh, Some mm, Some ss, Some millis => Some (hh, mm, ss, millis)
          | _, _, _, _ => None
          end
      | [m; sec] =>
          match int_of_str m, int_of_str sec, int_of_str ms with
          | Some mm, Some ss, Some millis => Some (0%Z, mm, ss, millis)
          | _, _, _ => None
          end
      | _ => None
      end
  | _ => None
  end.

(** hours x 3600 + minutes x 60 + seconds seconds, plus milliseconds, in
    microseconds. *)
Definition fields_us (f : Z * Z * Z * Z) : Z :=
  let '(hh, mm, ss, millis) := f in
  (hh * 3600000000 + mm * 60000000 + ss * 1000000 + millis * 1000)%Z.

(** The code points a decimal integer literal is made of. *)
Definition literal_char (c : char) : bool :=
  Py_ISSPACE c
  || match ascii_digit c with Some _ => true | None => false end
  || (c =? 43)%N || (c =? 45)%N || (c =? UNDERSCORE)%N.

(** ** The shift of a run: [compute_shift]

    The rest of the program: how the shift is computed from the parsed
    command line, and how it is applied to the lines of the file. *)

(** A float given on the command line: a finite one is the rational number
    it denotes. *)
Inductive pyfloat : Type :=
| Finite (q : Q)
| Infinity (negative : bool)
| NaN.

(** The microseconds of [timedelta(seconds=x)] for a finite float [x]: the
    integral part exactly, the fractional part times 10^6 as a float,
    rounded to the nearest integer, ties to even.  (A product too small
    for 53 significant bits is far below one half: it rounds to zero
    however many bits it keeps.) *)
Definition seconds_us (q : Q) : Z :=
  let intpart := Z.quot (Qnum q) (Zpos (Qden q)) in
  let fracpart := (q - inject_Z intpart)%Q in
  let leftover :=
    if (Qnum fracpart =? 0)%Z then 0%Z
    else py_round (float_mul 1000000%Q fracpart) in
  (intpart * 1000000 + leftover)%Z.

(** [timedelta(seconds=x)] for a float [x]. *)
Definition timedelta_seconds (x : pyfloat) : result timedelta :=
  match x with
  | NaN => Raise (ValueError (py "cannot convert float NaN to integer"))
  | Infinity _ => Raise OverflowError
  | Finite q => new_delta (seconds_us q)
  end.

(** [-a] *)
Definition td_neg (a : timedelta) : result timedelta :=
  new_delta (- td_us a)%Z.

(** The attributes of [args] that [compute_shift] reads. *)
Record namespace : Type := mk_namespace {
  seconds : option pyfloat;
  offset : option str;
  subtract : bool
}.

Definition compute_shift (args : namespace) : result timedelta :=
  shift <-
    match seconds args with
    | Some x => timedelta_seconds x
    | None =>
        match offset args with
        | Some s => parse_hhmmss_mmm s
        | None => timedelta_hmsm 0 22 58 0
        end
    end ;;
  if subtract args then td_neg shift else Ok shift.

(** [[shift_line(line, shift) for line in lines]] in [main]. *)
Fixpoint new_lines (lines : list str) (shift : timedelta)
  : result (list str) :=
  match lines with
  | [] => Ok []
  | line :: lines' =>
      l <- shift_line line shift ;;
      ls <- new_lines lines' shift ;;
      Ok (l :: ls)
  end.

(** ** Notions the further properties are stated with *)

Definition is_ascii_digit (c : char) : bool := ((48 <=? c) && (c <=? 57))%N.

(** A time stamp as [format_hhmmss_mmm] prints it below 100 hours: the long
    form in ASCII digits, minutes and seconds below 60. *)
Definition canonical_stamp (s : str) : bool :=
  match s with
  | [a; b; c1; c; d; c2; e; f; p; g; h; i] =>
      forallb is_ascii_digit [a; b; c; d; e; f; g; h; i]
      && (c1 =? COLON)%N && (c2 =? COLON)%N && (p =? PERIOD)%N
      && (decimal_value [c; d] <? 60)%Z && (decimal_value [e; f] <? 60)%Z
  | _ => false
  end.

(** 100 hours, in milliseconds: from here on the hours take three
    digits. *)
Definition HUNDRED_HOURS_MS : Z := 360000000.

(** The largest duration whose negation is a duration: 999999999 days. *)
Definition MAX_NEGATABLE_US : Z := 86399999913600000000.

Definition with_subtract (b : bool) (args : namespace) : namespace :=
  mk_namespace (seconds args) (offset args) b.

(** The ASCII digit of a number below ten. *)
Definition digit_char (d : Z) : char := (48 + Z.to_N d)%N.

(** The shift [a] takes both time stamps of the line, if it is a timing
    line, to durations from zero to below 100 hours. *)
Definition within_100_hours (a : timedelta) (line : str) : Prop :=
  match re_match TIME_RE line with
  | None => True
  | Some m =>
      (0 <= stamp_us (group m Gstart) + td_us a < 1000 * HUNDRED_HOURS_MS)%Z
      /\ (0 <= stamp_us (group m Gend) + td_us a < 1000 * HUNDRED_HOURS_MS)%Z
  end.

(** [abs(a)]: the negation when the days are negative, the duration itself
    otherwise. *)
Definition td_abs (a : timedelta) : result timedelta :=
  if (td_us a <? 0)%Z then td_neg a else Ok a.

(** The duration in the summary that [main] prints:
    [format_hhmmss_mmm(abs(shift))]. *)
Definition summary_duration (shift : timedelta) : result str :=
  d <- td_abs shift ;; Ok (format_hhmmss_mmm d).

(** * Properties *)

(** ** Code points *)

Lemma space_in_table (c : char) :
  Py_UNICODE_ISSPACE c = true -> In c whitespace_table.
Proof.
  unfold Py_UNICODE_ISSPACE. rewrite existsb_exists.
  intros [x [Hin Heq]]. apply N.eqb_eq in Heq. now subst.
Qed.

Lemma space_not_decimal (c : char) :
  Py_UNICODE_ISSPACE c = true -> Py_UNICODE_ISDECIMAL c = false.
Proof.
  intros H. apply space_in_table in H.
  assert (T : forallb (fun x => negb (Py_UNICODE_ISDECIMAL x)) whitespace_table
              = true) by (vm_compute; reflexivity).
  rewrite forallb_forall in T. apply T in H.
  now apply negb_true_iff in H.
Qed.

Lemma decimal_not_space (c : char) :
  Py_UNICODE_ISDECIMAL c = true -> Py_UNICODE_ISSPACE c = false.
Proof.
  intros H. destruct (Py_UNICODE_ISSPACE c) eqn:E; [|reflexivity].
  apply space_not_decimal in E. congruence.
Qed.

(** A decimal digit lies in one of the runs of the table. *)
Lemma todecimal_run (c : char) (d : N) :
  Py_UNICODE_TODECIMAL c = Some d ->
  exists z, In z decimal_zeros /\ (z <= c)%N /\ (c < z + 10)%N /\ d = (c - z)%N.
Proof.
  unfold Py_UNICODE_TODECIMAL.
  destruct (find (in_run c) decimal_zeros) as [z|] eqn:F; [|discriminate].
  intros [= <-]. apply find_some in F. destruct F as [Hin Hrun].
  unfold in_run in Hrun. apply andb_true_iff in Hrun.
  destruct Hrun as [H1 H2]. apply N.leb_le in H1. apply N.ltb_lt in H2.
  exists z. repeat split; assumption.
Qed.

Lemma todecimal_lt_10 (c : char) (d : N) :
  Py_UNICODE_TODECIMAL c = Some d -> (d < 10)%N.
Proof.
  intros H. apply todecimal_run in H. destruct H as [z [_ [H1 [H2 ->]]]]. lia.
Qed.

Lemma todecimal_ascii (c : char) (d : N) :
  Py_UNICODE_TODECIMAL c = Some d -> (c < 127)%N -> c = (48 + d)%N.
Proof.
  intros H Hc. apply todecimal_run in H.
  destruct H as [z [Hin [H1 [H2 ->]]]].
  assert (T : forallb (fun z => (127 <=? z)%N || (z =? 48)%N) decimal_zeros
              = true) by (vm_compute; reflexivity).
  rewrite forallb_forall in T. apply T in Hin.
  apply orb_true_iff in Hin. destruct Hin as [Hin|Hin].
  - apply N.leb_le in Hin. lia.
  - apply N.eqb_eq in Hin. lia.
Qed.

Lemma isdecimal_todecimal (c : char) :
  Py_UNICODE_ISDECIMAL c = true -> exists d, Py_UNICODE_TODECIMAL c = Some d.
Proof.
  unfold Py_UNICODE_ISDECIMAL.
  destruct (Py_UNICODE_TODECIMAL c) as [d|]; [eauto|discriminate].
Qed.

(** ** Prefixes *)

Lemma take_drop_while (p : char -> bool) (s : str) :
  take_while p s ++ drop_while p s = s.
Proof.
  induction s as [|c s IH]; simpl; [reflexivity|].
  destruct (p c); simpl; [now rewrite IH|reflexivity].
Qed.

Lemma take_while_all (p : char -> bool) (s : str) :
  forallb p (take_while p s) = true.
Proof.
  induction s as [|c s IH]; simpl; [reflexivity|].
  destruct (p c) eqn:E; simpl; [now rewrite E|reflexivity].
Qed.

Lemma drop_while_length (p : char -> bool) (s : str) :
  (length (drop_while p s) <= length s)%nat.
Proof.
  induction s as [|c s IH]; simpl; [lia|]. destruct (p c); simpl; lia.
Qed.

Lemma firstn_drop_while (p : char -> bool) (s : str) :
  firstn (length s - length (drop_while p s)) s = take_while p s.
Proof.
  induction s as [|c s IH]; [reflexivity|].
  cbn [take_while drop_while]. destruct (p c) eqn:E.
  - pose proof (drop_while_length p s) as L.
    cbn [length]. rewrite Nat.sub_succ_l by exact L.
    cbn [firstn]. now rewrite IH.
  - cbn [length]. now rewrite Nat.sub_diag.
Qed.

Lemma drop_while_stops (p : char -> bool) (s : str) :
  stops p (drop_while p s).
Proof.
  induction s as [|c s IH]; simpl; [exact I|].
  destruct (p c) eqn:E; simpl; assumption.
Qed.

Lemma drop_while_app (p : char -> bool) (a s : str) :
  forallb p a = true -> stops p s -> drop_while p (a ++ s) = s.
Proof.
  intros Ha Hs. induction a as [|c a IH]; simpl in *.
  - destruct s as [|x s]; simpl in *; [reflexivity|now rewrite Hs].
  - apply andb_true_iff in Ha. destruct Ha as [Hc Ha]. rewrite Hc. auto.
Qed.

Lemma take_while_app (p : char -> bool) (a s : str) :
  forallb p a = true -> stops p s -> take_while p (a ++ s) = a.
Proof.
  intros Ha Hs. induction a as [|c a IH]; simpl in *.
  - destruct s as [|x s]; simpl in *; [reflexivity|now rewrite Hs].
  - apply andb_true_iff in Ha. destruct Ha as [Hc Ha]. rewrite Hc.
    now rewrite IH.
Qed.

Lemma not_lf_all (s : str) : forallb not_lf s = true <-> ~ In LF s.
Proof.
  induction s as [|c s IH]; simpl.
  - tauto.
  - rewrite andb_true_iff, IH. unfold not_lf. rewrite negb_true_iff, N.eqb_neq.
    intuition congruence.
Qed.

(** ** The backtracking matcher on [TIME_RE] *)

(** A greedy run whose continuation refuses every string that starts inside
    the class ends at the first code point outside it. *)
Lemma star_skip (p : char -> bool) (k : cont) :
  (forall c s m, p c = true -> k (c :: s) m = None) ->
  forall s m, star p s m k = k (drop_while p s) m.
Proof.
  intros Hk s m. induction s as [|c s IH]; simpl; [reflexivity|].
  destruct (p c) eqn:E; [|reflexivity].
  rewrite IH. destruct (k (drop_while p s) m) eqn:K; [reflexivity|].
  now apply Hk.
Qed.

Lemma stamp_length_head (c : char) (s : str) :
  Py_UNICODE_ISDECIMAL c = false -> stamp_length (c :: s) = None.
Proof.
  intros H. unfold stamp_length.
  assert (L : long_stamp (firstn 12 (c :: s)) = false).
  { simpl. destruct s as [|? [|? [|? [|? [|? [|? [|? [|? [|? [|? [|? ?]]]]]]]]]]];
      simpl; try reflexivity. now rewrite H. }
  assert (S9 : short_stamp (firstn 9 (c :: s)) = false).
  { simpl. destruct s as [|? [|? [|? [|? [|? [|? [|? [|? ?]]]]]]]];
      simpl; try reflexivity. now rewrite H. }
  now rewrite L, S9.
Qed.

Lemma stamp_length_nil : stamp_length [] = None.
Proof. reflexivity. Qed.

Ltac split_tests :=
  repeat
    (match goal with
     | |- context [Py_UNICODE_ISDECIMAL ?c] =>
         destruct (Py_UNICODE_ISDECIMAL c) eqn:?
     | |- context [(?c =? ?d)%N] => destruct (c =? d)%N eqn:?
     end; cbn [andb orb negb]);
  try reflexivity.

Lemma run_minutes (w s : str) (m : groups) (k : cont) :
  run w (Cats [d2; Lit COLON; d2; Lit PERIOD] d3) s m k
  = if short_stamp (firstn 9 s) then k (skipn 9 s) m else None.
Proof.
  destruct s as [|c0 [|c1 [|c2 [|c3 [|c4 [|c5 [|c6 [|c7 [|c8 s]]]]]]]]];
    cbn [run Cats d2 d3 in_class firstn skipn short_stamp];
    split_tests.
Qed.

Lemma run_hours (w s : str) (m : groups) (k : cont) :
  run w (Cat d2 (Lit COLON)) s m k
  = if hours_prefix s then k (skipn 3 s) m else None.
Proof.
  destruct s as [|c0 [|c1 [|c2 s]]];
    cbn [run d2 in_class skipn hours_prefix]; split_tests.
Qed.

Lemma long_stamp_split (s : str) :
  long_stamp (firstn 12 s)
  = hours_prefix s && short_stamp (firstn 9 (skipn 3 s)).
Proof.
  destruct s as [|c0 [|c1 [|c2 s]]]; try reflexivity.
  destruct s as [|c3 [|c4 [|c5 [|c6 [|c7 [|c8 [|c9 [|c10 [|c11 s]]]]]]]]];
    cbn [firstn skipn long_stamp short_stamp hours_prefix];
    try (rewrite !andb_false_r; reflexivity).
  rewrite <- !andb_assoc.
  destruct s; reflexivity.
Qed.

Lemma long_not_short (s : str) :
  long_stamp (firstn 12 s) = true -> short_stamp (firstn 9 s) = false.
Proof.
  destruct s as [|c0 [|c1 [|c2 [|c3 [|c4 [|c5 [|c6 [|c7 [|c8 s]]]]]]]]];
    try reflexivity.
  destruct s as [|c9 [|c10 [|c11 s]]]; try discriminate.
  cbn [firstn long_stamp short_stamp]. intros H.
  repeat (apply andb_true_iff in H; let H' := fresh in destruct H as [H H']).
  match goal with
  | H : (c5 =? COLON)%N = true |- _ => apply N.eqb_eq in H; subst c5
  end.
  unfold COLON, PERIOD. cbn [N.eqb Pos.eqb].
  rewrite !andb_false_r. reflexivity.
Qed.

Lemma skipn_skipn_3_9 (s : str) : skipn 9 (skipn 3 s) = skipn 12 s.
Proof.
  destruct s as [|c0 [|c1 [|c2 s]]]; reflexivity.
Qed.

Lemma run_stamp (w s : str) (m : groups) (k : cont) :
  run w TIMESTAMP_RE s m k
  = match stamp_length s with
    | Some n => k (skipn n s) m
    | None => None
    end.
Proof.
  change (run w TIMESTAMP_RE s m k)
    with (match
             run w (Cat d2 (Lit COLON)) s m
               (fun s' m' =>
                  run w (Cats [d2; Lit COLON; d2; Lit PERIOD] d3) s' m' k)
           with
           | Some x => Some x
           | None => run w (Cats [d2; Lit COLON; d2; Lit PERIOD] d3) s m k
           end).
  rewrite run_hours, !run_minutes. unfold stamp_length.
  rewrite long_stamp_split.
  destruct (hours_prefix s) eqn:Hh; cbn [andb].
  - rewrite skipn_skipn_3_9.
    destruct (short_stamp (firstn 9 (skipn 3 s))) eqn:Hs.
    + assert (L : long_stamp (firstn 12 s) = true)
        by (rewrite long_stamp_split, Hh, Hs; reflexivity).
      rewrite (long_not_short _ L).
      destruct (k (skipn 12 s) m); reflexivity.
    + destruct (short_stamp (firstn 9 s)); reflexivity.
  - destruct (short_stamp (firstn 9 s)); reflexivity.
Qed.
Lemma stamp_length_firstn (s : str) (n : nat) :
  stamp_length s = Some n -> (n <= length s)%nat.
Proof.
  unfold stamp_length.
  destruct (long_stamp (firstn 12 s)) eqn:L.
  - intros [= <-].
    destruct s as [|? [|? [|? [|? [|? [|? [|? [|? [|? [|? [|? [|? ?]]]]]]]]]]]];
      try discriminate. simpl. lia.
  - destruct (short_stamp (firstn 9 s)) eqn:S9; [|discriminate].
    intros [= <-].
    destruct s as [|? [|? [|? [|? [|? [|? [|? [|? [|? ?]]]]]]]]];
      try discriminate. simpl. lia.
Qed.

Lemma firstn_length_skipn (s : str) (n : nat) :
  (n <= length s)%nat -> firstn (length s - length (skipn n s)) s = firstn n s.
Proof.
  intros H. rewrite length_skipn. f_equal. lia.
Qed.

Lemma re_match_time_match (line : str) :
  re_match TIME_RE line = option_map capture_groups (time_match line).
Proof.
  unfold re_match, TIME_RE, time_match. cbn [Cats].
  cbn [run]. rewrite Nat.eqb_refl.
  change (in_class Space) with Py_UNICODE_ISSPACE.
  change (in_class Dot) with not_lf.
  rewrite star_skip.
  2:{ intros c s m Hc. rewrite run_stamp, stamp_length_head; [reflexivity|].
      now apply space_not_decimal. }
  rewrite run_stamp.
  destruct (stamp_length (drop_while Py_UNICODE_ISSPACE line)) as [n1|] eqn:E1;
    [|reflexivity].
  rewrite star_skip.
  2:{ intros c s m Hc. destruct (c =? HYPHEN)%N eqn:Eh; [|reflexivity].
      apply N.eqb_eq in Eh. subst c. discriminate Hc. }
  rewrite firstn_drop_while.
  rewrite (firstn_length_skipn _ _ (stamp_length_firstn _ _ E1)).
  destruct (drop_while Py_UNICODE_ISSPACE
              (skipn n1 (drop_while Py_UNICODE_ISSPACE line)))
    as [|h1 [|h2 [|g s4]]]; try reflexivity.
  - destruct (h1 =? HYPHEN)%N; reflexivity.
  - destruct (h1 =? HYPHEN)%N; [|reflexivity].
    destruct (h2 =? HYPHEN)%N; reflexivity.
  - destruct (h1 =? HYPHEN)%N; [|reflexivity].
    destruct (h2 =? HYPHEN)%N; [|reflexivity].
    destruct (g =? GT)%N; [|reflexivity]. cbn [andb].
    rewrite star_skip.
    2:{ intros c s m Hc. rewrite run_stamp, stamp_length_head; [reflexivity|].
        now apply space_not_decimal. }
    rewrite run_stamp.
    destruct (stamp_length (drop_while Py_UNICODE_ISSPACE s4)) as [n2|] eqn:E2;
      [|reflexivity].
    rewrite (firstn_length_skipn _ _ (stamp_length_firstn _ _ E2)).
    rewrite star_skip.
    2:{ intros c s m Hc. destruct s; [|reflexivity].
        apply negb_true_iff in Hc. now rewrite Hc. }
    rewrite firstn_drop_while.
    pose proof (drop_while_stops not_lf
                  (skipn n2 (drop_while Py_UNICODE_ISSPACE s4))) as St.
    destruct (drop_while not_lf (skipn n2 (drop_while Py_UNICODE_ISSPACE s4)))
      as [|c [|c' tl]]; try reflexivity.
    cbn [stops] in St. unfold not_lf in St. apply negb_false_iff in St.
    now rewrite St.
Qed.

(** ** The match and the specification's Timing Line *)

Lemma stamp_length_sound (s : str) (n : nat) :
  stamp_length s = Some n ->
  is_timestamp (firstn n s) = true /\ length (firstn n s) = n.
Proof.
  intros H. pose proof (stamp_length_firstn _ _ H) as L.
  split; [|now apply firstn_length_le].
  unfold stamp_length in H. unfold is_timestamp.
  destruct (long_stamp (firstn 12 s)) eqn:E12.
  - injection H as <-. now rewrite E12.
  - destruct (short_stamp (firstn 9 s)) eqn:E9; [|discriminate].
    injection H as <-. rewrite E9. apply orb_true_r.
Qed.

Lemma time_match_sound (line : str) (c : capture) :
  time_match line = Some c ->
  exists sp1 sp2 eol,
    decomposes line (c_ws c) (c_start c) sp1 sp2 (c_end c) (c_rest c) eol.
Proof.
  unfold time_match.
  destruct (stamp_length (drop_while Py_UNICODE_ISSPACE line)) as [n1|] eqn:E1;
    [|discriminate].
  destruct (drop_while Py_UNICODE_ISSPACE
              (skipn n1 (drop_while Py_UNICODE_ISSPACE line)))
    as [|h1 [|h2 [|g s4]]] eqn:E3; try discriminate.
  destruct ((h1 =? HYPHEN)%N && (h2 =? HYPHEN)%N && (g =? GT)%N) eqn:Ea;
    [|discriminate].
  destruct (stamp_length (drop_while Py_UNICODE_ISSPACE s4)) as [n2|] eqn:E2;
    [|discriminate].
  intros H.
  assert (Hc : c = mk_capture (take_while Py_UNICODE_ISSPACE line)
                  (firstn n1 (drop_while Py_UNICODE_ISSPACE line))
                  (firstn n2 (drop_while Py_UNICODE_ISSPACE s4))
                  (take_while not_lf
                     (skipn n2 (drop_while Py_UNICODE_ISSPACE s4)))
               /\ end_of_line
                    (drop_while not_lf
                       (skipn n2 (drop_while Py_UNICODE_ISSPACE s4)))).
  { pose proof (drop_while_stops not_lf
                  (skipn n2 (drop_while Py_UNICODE_ISSPACE s4))) as St.
    destruct (drop_while not_lf (skipn n2 (drop_while Py_UNICODE_ISSPACE s4)))
      as [|x [|x' tl]]; try discriminate; injection H as <-; split;
      try reflexivity.
    - now left.
    - right. cbn [stops] in St. unfold not_lf in St.
      apply negb_false_iff, N.eqb_eq in St. now subst x. }
  clear H. destruct Hc as [-> Heol]. cbn [c_ws c_start c_end c_rest].
  apply andb_true_iff in Ea. destruct Ea as [Ea Eg].
  apply andb_true_iff in Ea. destruct Ea as [Eh1 Eh2].
  apply N.eqb_eq in Eh1, Eh2, Eg. subst h1 h2 g.
  exists (take_while Py_UNICODE_ISSPACE
            (skipn n1 (drop_while Py_UNICODE_ISSPACE line))),
    (take_while Py_UNICODE_ISSPACE s4),
    (drop_while not_lf (skipn n2 (drop_while Py_UNICODE_ISSPACE s4))).
  unfold decomposes. repeat split.
  - rewrite (take_drop_while not_lf), (firstn_skipn n2).
    rewrite (take_drop_while Py_UNICODE_ISSPACE s4).
    change (ARROW ++ s4) with (HYPHEN :: HYPHEN :: GT :: s4).
    rewrite <- E3.
    rewrite (take_drop_while Py_UNICODE_ISSPACE), (firstn_skipn n1).
    now rewrite (take_drop_while Py_UNICODE_ISSPACE).
  - apply take_while_all.
  - now apply stamp_length_sound.
  - apply take_while_all.
  - apply take_while_all.
  - now apply stamp_length_sound.
  - apply not_lf_all, take_while_all.
  - exact Heol.
Qed.


Lemma long_stamp_length (s : str) : long_stamp s = true -> length s = 12%nat.
Proof.
  destruct s as [|? [|? [|? [|? [|? [|? [|? [|? [|? [|? [|? [|? [|? ?]]]]]]]]]]]]];
    try discriminate. reflexivity.
Qed.

Lemma short_stamp_length (s : str) : short_stamp s = true -> length s = 9%nat.
Proof.
  destruct s as [|? [|? [|? [|? [|? [|? [|? [|? [|? [|? ?]]]]]]]]]];
    try discriminate. reflexivity.
Qed.

Lemma stamp_length_app (t s : str) :
  is_timestamp t = true -> stamp_length (t ++ s) = Some (length t).
Proof.
  unfold is_timestamp, stamp_length. intros H.
  apply orb_true_iff in H. destruct H as [H|H].
  - pose proof (long_stamp_length _ H) as L.
    rewrite <- L at 1. rewrite firstn_app, Nat.sub_diag, firstn_all.
    cbn [firstn]. rewrite app_nil_r, H. now rewrite L.
  - pose proof (short_stamp_length _ H) as L.
    assert (E9 : firstn 9 (t ++ s) = t).
    { rewrite <- L at 1. rewrite firstn_app, Nat.sub_diag, firstn_all.
      cbn [firstn]. apply app_nil_r. }
    assert (E12 : long_stamp (firstn 12 (t ++ s)) = false).
    { destruct (long_stamp (firstn 12 (t ++ s))) eqn:E; [|reflexivity].
      apply long_not_short in E. rewrite E9 in E. congruence. }
    now rewrite E12, E9, H, L.
Qed.

Lemma timestamp_head (t : str) :
  is_timestamp t = true ->
  exists c t', t = c :: t' /\ Py_UNICODE_ISDECIMAL c = true.
Proof.
  unfold is_timestamp. intros H. apply orb_true_iff in H.
  destruct t as [|c t']; [destruct H; discriminate|].
  exists c, t'. split; [reflexivity|].
  destruct H as [H|H].
  - destruct t' as [|? [|? [|? [|? [|? [|? [|? [|? [|? [|? [|? [|? ?]]]]]]]]]]]];
      try discriminate. cbn [long_stamp] in H.
    destruct (Py_UNICODE_ISDECIMAL c); [reflexivity|discriminate].
  - destruct t' as [|? [|? [|? [|? [|? [|? [|? [|? [|? ?]]]]]]]]];
      try discriminate. cbn [short_stamp] in H.
    destruct (Py_UNICODE_ISDECIMAL c); [reflexivity|discriminate].
Qed.

Lemma timestamp_stops (t s : str) :
  is_timestamp t = true -> stops Py_UNICODE_ISSPACE (t ++ s).
Proof.
  intros H. destruct (timestamp_head _ H) as [c [t' [-> Hc]]].
  cbn. now apply decimal_not_space.
Qed.

Lemma time_match_complete (line ws start sp1 sp2 end_ rest eol : str) :
  decomposes line ws start sp1 sp2 end_ rest eol ->
  time_match line = Some (mk_capture ws start end_ rest).
Proof.
  intros [-> [Hws [Hst [Hsp1 [Hsp2 [Hen [Hrest Heol]]]]]]].
  unfold time_match.
  rewrite (drop_while_app _ _ _ Hws (timestamp_stops _ _ Hst)).
  rewrite (take_while_app _ _ _ Hws (timestamp_stops _ _ Hst)).
  rewrite (stamp_length_app _ _ Hst).
  rewrite skipn_app, Nat.sub_diag, skipn_all. cbn [skipn app].
  rewrite firstn_app, Nat.sub_diag, firstn_all. cbn [firstn].
  rewrite app_nil_r.
  rewrite (drop_while_app _ sp1 (ARROW ++ sp2 ++ end_ ++ rest ++ eol) Hsp1)
    by reflexivity.
  cbn [ARROW app]. rewrite !N.eqb_refl. cbn [andb].
  rewrite (drop_while_app _ _ _ Hsp2 (timestamp_stops _ _ Hen)).
  rewrite (stamp_length_app _ _ Hen).
  rewrite skipn_app, Nat.sub_diag, skipn_all. cbn [skipn app].
  rewrite firstn_app, Nat.sub_diag, firstn_all. cbn [firstn].
  rewrite app_nil_r.
  apply not_lf_all in Hrest.
  assert (St : stops not_lf eol) by (destruct Heol as [->| ->]; reflexivity).
  rewrite (drop_while_app _ _ _ Hrest St), (take_while_app _ _ _ Hrest St).
  destruct Heol as [->| ->]; reflexivity.
Qed.

(** [TIME_RE] matches exactly the specification's Timing Lines, and its
    groups are the parts of the line. *)
Lemma time_re_matches (line : str) :
  re_match TIME_RE line <> None <-> timing_line line.
Proof.
  rewrite re_match_time_match. split.
  - destruct (time_match line) as [c|] eqn:E; [|intros H; now elim H].
    intros _. destruct (time_match_sound _ _ E) as [sp1 [sp2 [eol D]]].
    now exists (c_ws c), (c_start c), sp1, sp2, (c_end c), (c_rest c), eol.
  - intros [ws [start [sp1 [sp2 [end_ [rest [eol D]]]]]]].
    now rewrite (time_match_complete _ _ _ _ _ _ _ _ D).
Qed.

Lemma groups_of_capture (c : capture) :
  group (capture_groups c) G1 = c_ws c
  /\ group (capture_groups c) Gstart = c_start c
  /\ group (capture_groups c) Gend = c_end c
  /\ group (capture_groups c) Grest = c_rest c.
Proof. repeat split. Qed.

(** Every group of [TIME_RE] takes part in a match. *)
Lemma TIME_RE_groups (line : str) (m : groups) (g : gname) :
  re_match TIME_RE line = Some m -> lookup_group m g <> None.
Proof.
  rewrite re_match_time_match.
  destruct (time_match line) as [c|]; [|discriminate].
  intros [= <-]. destruct g; discriminate.
Qed.

(** ** Durations *)

Lemma timedelta_eq (a b : timedelta) : td_us a = td_us b -> a = b.
Proof.
  destruct a as [u Hu], b as [v Hv]. cbn. intros ->.
  f_equal. apply Eqdep_dec.UIP_dec. apply bool_dec.
Qed.

Lemma new_delta_ok (u : Z) :
  td_in_range u = true -> exists t, new_delta u = Ok t /\ td_us t = u.
Proof.
  intros H. unfold new_delta.
  destruct (bool_dec (td_in_range u) true) as [E|E]; [|contradiction].
  eexists; split; reflexivity.
Qed.

Lemma new_delta_raise (u : Z) :
  td_in_range u = false -> new_delta u = Raise OverflowError.
Proof.
  intros H. unfold new_delta.
  destruct (bool_dec (td_in_range u) true) as [E|E]; [congruence|reflexivity].
Qed.

Lemma new_delta_inv (u : Z) (t : timedelta) :
  new_delta u = Ok t -> td_us t = u /\ td_in_range u = true.
Proof.
  unfold new_delta.
  destruct (bool_dec (td_in_range u) true) as [E|E]; [|discriminate].
  intros [= <-]. split; [reflexivity|exact E].
Qed.

Lemma new_delta_cases (u : Z) :
  (exists t, new_delta u = Ok t /\ td_us t = u /\ td_in_range u = true)
  \/ (new_delta u = Raise OverflowError /\ td_in_range u = false).
Proof.
  destruct (td_in_range u) eqn:E.
  - left. destruct (new_delta_ok u E) as [t [H1 H2]]. eauto.
  - right. split; [now apply new_delta_raise|reflexivity].
Qed.

Lemma td_in_range_iff (u : Z) :
  td_in_range u = true
  <-> (-86399999913600000000 <= u <= 86399999999999999999)%Z.
Proof.
  unfold td_in_range, MAX_DELTA_DAYS, US_PER_DAY.
  rewrite andb_true_iff, Z.leb_le, Z.ltb_lt. lia.
Qed.

Lemma td_range (t : timedelta) :
  (-86399999913600000000 <= td_us t <= 86399999999999999999)%Z.
Proof. apply td_in_range_iff, td_ok. Qed.

(** ** [split] *)

Lemma split_no_sep (sep : char) (s : str) :
  ~ In sep s -> split sep s = [s].
Proof.
  induction s as [|c s IH]; intros H; cbn [split]; [reflexivity|].
  destruct (c =? sep)%N eqn:E.
  - apply N.eqb_eq in E. subst c. elim H. now left.
  - rewrite IH; [reflexivity|]. intros Hin. apply H. now right.
Qed.

Lemma split_nonempty (sep : char) (s : str) : split sep s <> [].
Proof.
  destruct s as [|c s]; cbn [split]; [discriminate|].
  destruct (c =? sep)%N; [discriminate|].
  destruct (split sep s); discriminate.
Qed.

Lemma split_app (sep : char) (a b : str) :
  ~ In sep a -> split sep (a ++ sep :: b) = a :: split sep b.
Proof.
  induction a as [|c a IH]; intros H; cbn [split app].
  - now rewrite N.eqb_refl.
  - destruct (c =? sep)%N eqn:E.
    + apply N.eqb_eq in E. subst c. elim H. now left.
    + rewrite IH; [reflexivity|]. intros Hin. apply H. now right.
Qed.


(** ** [int] on a run of decimal digits *)

Lemma digit_cases (d : N) :
  (d < 10)%N ->
  d = 0%N \/ d = 1%N \/ d = 2%N \/ d = 3%N \/ d = 4%N \/ d = 5%N \/ d = 6%N
  \/ d = 7%N \/ d = 8%N \/ d = 9%N.
Proof. lia. Qed.

Ltac digit_case d H :=
  destruct (digit_cases d H)
    as [->|[->|[->|[->|[->|[->|[->|[->|[->| ->]]]]]]]]].

(** The rewriting step of [int] on a decimal digit: its ASCII digit. *)
Lemma transform_decimal_head (c : char) (s : str) (d : N) :
  Py_UNICODE_TODECIMAL c = Some d ->
  transform_decimal_and_space (c :: s)
  = (48 + d)%N :: transform_decimal_and_space s.
Proof.
  intros H. cbn [transform_decimal_and_space].
  destruct (c <? 127)%N eqn:E.
  - apply N.ltb_lt in E. now rewrite <- (todecimal_ascii c d H E).
  - rewrite decimal_not_space, H; [reflexivity|].
    unfold Py_UNICODE_ISDECIMAL. now rewrite H.
Qed.

Lemma ascii_digit_of (d : N) :
  (d < 10)%N -> ascii_digit (48 + d)%N = Some (Z.of_N d).
Proof. intros H. digit_case d H; reflexivity. Qed.

Lemma scan_digits_decimal (s : str) :
  all_decimal s ->
  forall (acc : Z) (n : N),
    scan_digits (transform_decimal_and_space s) acc n
    = Some (fold_left decimal_step s acc, (n + N.of_nat (length s))%N, []).
Proof.
  unfold all_decimal. induction s as [|c s IH]; intros H acc n.
  - cbn. now rewrite N.add_0_r.
  - cbn [forallb] in H. apply andb_true_iff in H. destruct H as [Hc Hs].
    destruct (isdecimal_todecimal c Hc) as [d Hd].
    rewrite (transform_decimal_head c s d Hd). cbn [scan_digits].
    rewrite (ascii_digit_of d (todecimal_lt_10 c d Hd)).
    rewrite (IH Hs). cbn [fold_left length].
    assert (E : decimal_step acc c = (10 * acc + Z.of_N d)%Z)
      by (unfold decimal_step; now rewrite Hd).
    rewrite E. do 3 f_equal. lia.
Qed.

Lemma int_of_str_decimal (s : str) :
  s <> [] -> all_decimal s ->
  (N.of_nat (length s) <= int_max_str_digits)%N ->
  int_of_str s = Some (decimal_value s).
Proof.
  destruct s as [|c s]; [congruence|]. intros _ H L.
  assert (Hc : Py_UNICODE_ISDECIMAL c = true /\ all_decimal s).
  { unfold all_decimal in *. cbn [forallb] in H.
    now apply andb_true_iff in H. }
  destruct Hc as [Hc Hs]. destruct (isdecimal_todecimal c Hc) as [d Hd].
  pose proof (todecimal_lt_10 c d Hd) as D.
  unfold int_of_str. rewrite (transform_decimal_head c s d Hd).
  unfold long_from_string.
  assert (E : drop_while Py_ISSPACE
                ((48 + d)%N :: transform_decimal_and_space s)
              = (48 + d)%N :: transform_decimal_and_space s)
    by (digit_case d D; reflexivity).
  rewrite E.
  assert (E43 : ((48 + d) =? 43)%N = false) by (digit_case d D; reflexivity).
  assert (E45 : ((48 + d) =? 45)%N = false) by (digit_case d D; reflexivity).
  rewrite E43, E45, (ascii_digit_of d D), (scan_digits_decimal s Hs).
  cbn [drop_while].
  assert (Ln : (1 + N.of_nat (length s) <=? int_max_str_digits)%N = true).
  { apply N.leb_le. cbn [length] in L. lia. }
  rewrite Ln. unfold decimal_value. cbn [fold_left].
  assert (E0 : decimal_step 0 c = Z.of_N d)
    by (unfold decimal_step; now rewrite Hd).
  now rewrite E0.
Qed.

Lemma decimal_step_bounds (acc : Z) (c : char) :
  (0 <= acc)%Z ->
  (10 * acc <= decimal_step acc c <= 10 * acc + 9)%Z.
Proof.
  intros H. unfold decimal_step.
  destruct (Py_UNICODE_TODECIMAL c) as [d|] eqn:E; [|lia].
  apply todecimal_lt_10 in E. lia.
Qed.

Lemma decimal_value_2 (a b : char) : (0 <= decimal_value [a; b] <= 99)%Z.
Proof.
  unfold decimal_value. cbn [fold_left].
  pose proof (decimal_step_bounds 0 a).
  pose proof (decimal_step_bounds (decimal_step 0 a) b). lia.
Qed.

Lemma decimal_value_3 (a b c : char) :
  (0 <= decimal_value [a; b; c] <= 999)%Z.
Proof.
  unfold decimal_value. cbn [fold_left].
  pose proof (decimal_step_bounds 0 a).
  pose proof (decimal_step_bounds (decimal_step 0 a) b).
  pose proof (decimal_step_bounds (decimal_step (decimal_step 0 a) b) c). lia.
Qed.

Lemma decimal_not_colon (c : char) :
  Py_UNICODE_ISDECIMAL c = true -> c <> COLON.
Proof. intros H ->. discriminate H. Qed.

Lemma decimal_not_period (c : char) :
  Py_UNICODE_ISDECIMAL c = true -> c <> PERIOD.
Proof. intros H ->. discriminate H. Qed.

(** ** [parse_hhmmss_mmm] on time stamps *)

Lemma all_decimal_not_in (c : char) (s : str) :
  Py_UNICODE_ISDECIMAL c = false -> all_decimal s -> ~ In c s.
Proof.
  unfold all_decimal. intros Hc Hs Hin.
  rewrite forallb_forall in Hs. apply Hs in Hin. congruence.
Qed.

Lemma int_result_decimal (s : str) :
  s <> [] -> all_decimal s -> (length s <= 3)%nat ->
  int_result s = Ok (decimal_value s).
Proof.
  intros Hn Hd Hl. unfold int_result.
  rewrite int_of_str_decimal; [reflexivity|assumption..|].
  unfold int_max_str_digits. lia.
Qed.

Ltac split_and H :=
  repeat (apply andb_true_iff in H;
          let H' := fresh "T" in destruct H as [H H']).

Ltac eqb_subst :=
  repeat match goal with
    | H : (?x =? _)%N = true |- _ => apply N.eqb_eq in H; subst x
    end.

Ltac decimals :=
  unfold all_decimal; cbn [forallb];
  repeat match goal with
    | H : Py_UNICODE_ISDECIMAL _ = true |- _ => rewrite H
    end; reflexivity.

Lemma time_of_day_bounds (hms : str) :
  (0 <= time_of_day_us hms <= 362439000000)%Z.
Proof.
  unfold time_of_day_us.
  destruct hms as [|a [|b [|c1 [|c [|d [|c2 [|e [|f [|x hms]]]]]]]]];
    try lia.
  - pose proof (decimal_value_2 a b). pose proof (decimal_value_2 c d). lia.
  - pose proof (decimal_value_2 a b). pose proof (decimal_value_2 c d).
    pose proof (decimal_value_2 e f). lia.
Qed.

Lemma split_time_of_day (hms : str) :
  is_time_of_day hms = true ->
  ~ In PERIOD hms
  /\ exists hmsv,
       match split COLON hms with
       | [h; m; sec] =>
           hh <- int_result h ;; mm <- int_result m ;;
           ss <- int_result sec ;; Ok (hh, mm, ss)
       | [m; sec] =>
           mm <- int_result m ;; ss <- int_result sec ;; Ok (0%Z, mm, ss)
       | _ => Raise (ValueError [])
       end = Ok hmsv
       /\ (let '(hh, mm, ss) := hmsv in
           hh * 3600000000 + mm * 60000000 + ss * 1000000)%Z
          = time_of_day_us hms.
Proof.
  intros H.
  destruct hms as [|a [|b [|c1 [|c [|d [|c2 [|e [|f [|x hms]]]]]]]]];
    try discriminate; cbn [is_time_of_day] in H; split_and H.
  - (* MM:SS *)
    eqb_subst. split.
    + cbn [In]. intros [E|[E|[E|[E|[E|[]]]]]]; try discriminate E;
        subst; discriminate.
    + change [a; b; COLON; c; d] with ([a; b] ++ COLON :: [c; d]).
      rewrite split_app, split_no_sep
        by (apply all_decimal_not_in; [reflexivity|decimals]).
      rewrite !int_result_decimal by (try discriminate; try decimals; cbn; lia).
      cbn [bind]. eexists. split; [reflexivity|]. cbn [time_of_day_us app].
      lia.
  - (* HH:MM:SS *)
    eqb_subst. split.
    + cbn [In]. intros [E|[E|[E|[E|[E|[E|[E|[E|[]]]]]]]]]; try discriminate E;
        subst; discriminate.
    + change [a; b; COLON; c; d; COLON; e; f]
        with ([a; b] ++ COLON :: [c; d] ++ COLON :: [e; f]).
      rewrite !split_app, split_no_sep
        by (apply all_decimal_not_in; [reflexivity|decimals]).
      rewrite !int_result_decimal by (try discriminate; try decimals; cbn; lia).
      cbn [bind]. eexists. split; [reflexivity|]. cbn [time_of_day_us app].
      lia.
Qed.

(** The fractional field is read as a count of milliseconds, whatever its
    width. *)
Lemma parse_fraction (hms frac : str) :
  is_time_of_day hms = true -> all_decimal frac ->
  (1 <= length frac <= 3)%nat ->
  exists td,
    parse_hhmmss_mmm (hms ++ PERIOD :: frac) = Ok td
    /\ td_us td = (time_of_day_us hms + 1000 * decimal_value frac)%Z.
Proof.
  intros Hh Hf Hl.
  destruct (split_time_of_day hms Hh) as [Hp [[[hh mm] ss] [Hs Hv]]].
  assert (Hfv : (0 <= decimal_value frac <= 999)%Z).
  { destruct frac as [|g [|h [|i [|x frac]]]]; cbn [length] in Hl; try lia.
    - unfold decimal_value. cbn [fold_left].
      pose proof (decimal_step_bounds 0 g). lia.
    - pose proof (decimal_value_2 g h). lia.
    - apply decimal_value_3. }
  pose proof (time_of_day_bounds hms) as Hb.
  destruct (new_delta_ok (time_of_day_us hms + 1000 * decimal_value frac)%Z)
    as [td [Hn Hu]].
  { apply td_in_range_iff. lia. }
  exists td. split; [|exact Hu].
  unfold parse_hhmmss_mmm, parse_body.
  rewrite (split_app PERIOD hms frac Hp).
  rewrite (split_no_sep PERIOD frac)
    by (apply all_decimal_not_in; [reflexivity|assumption]).
  rewrite Hs. cbn [bind].
  rewrite int_result_decimal; [|destruct frac; [cbn in Hl; lia|discriminate]
                               |assumption|lia].
  cbn [bind]. unfold timedelta_hmsm.
  replace (hh * 3600000000 + mm * 60000000 + ss * 1000000
           + decimal_value frac * 1000)%Z
    with (time_of_day_us hms + 1000 * decimal_value frac)%Z by lia.
  now rewrite Hn.
Qed.

Lemma timestamp_parts (t : str) :
  is_timestamp t = true ->
  exists hms g h i,
    t = hms ++ PERIOD :: [g; h; i] /\ is_time_of_day hms = true
    /\ all_decimal [g; h; i]
    /\ stamp_us t = (time_of_day_us hms + 1000 * decimal_value [g; h; i])%Z.
Proof.
  unfold is_timestamp. intros H. apply orb_true_iff in H. destruct H as [H|H].
  - destruct t as [|a [|b [|c1 [|c [|d [|c2 [|e [|f [|p [|g [|h [|i [|x t]]]]]]]]]]]]];
      try discriminate. cbn [long_stamp] in H. split_and H.
    eqb_subst.
    exists [a; b; COLON; c; d; COLON; e; f], g, h, i. repeat split.
    + cbn [is_time_of_day]. rewrite !N.eqb_refl.
      repeat match goal with
        | H : Py_UNICODE_ISDECIMAL _ = true |- _ => rewrite H; clear H
        end. reflexivity.
    + decimals.
    + cbn [stamp_us time_of_day_us]. lia.
  - destruct t as [|c [|d [|c2 [|e [|f [|p [|g [|h [|i [|x t]]]]]]]]]];
      try discriminate. cbn [short_stamp] in H. split_and H.
    eqb_subst.
    exists [c; d; COLON; e; f], g, h, i. repeat split.
    + cbn [is_time_of_day]. rewrite !N.eqb_refl.
      repeat match goal with
        | H : Py_UNICODE_ISDECIMAL _ = true |- _ => rewrite H; clear H
        end. reflexivity.
    + decimals.
    + cbn [stamp_us time_of_day_us]. lia.
Qed.

(** A time stamp that [TIME_RE] accepts always parses. *)
Lemma parse_stamp (t : str) :
  is_timestamp t = true ->
  exists td,
    parse_hhmmss_mmm t = Ok td /\ td_us td = stamp_us t
    /\ (0 <= stamp_us t <= MAX_STAMP_US)%Z.
Proof.
  intros H. destruct (timestamp_parts t H) as [hms [g [h [i [-> [Hh [Hd Hv]]]]]]].
  destruct (parse_fraction hms [g; h; i] Hh Hd) as [td [Hp Hu]];
    [cbn; lia|].
  exists td. split; [exact Hp|]. split; [congruence|].
  rewrite Hv. pose proof (time_of_day_bounds hms).
  pose proof (decimal_value_3 g h i). unfold MAX_STAMP_US. lia.
Qed.

(** ** Rounding *)

Lemma rne_floor_or_next (q : Q) :
  let n := Qnum q in
  let d := Zpos (Qden q) in
  (rne q = n / d /\ 2 * (n mod d) <= d)%Z
  \/ (rne q = n / d + 1 /\ d <= 2 * (n mod d))%Z.
Proof.
  unfold rne. cbv zeta.
  destruct (2 * (Qnum q mod Zpos (Qden q)) <? Zpos (Qden q))%Z eqn:E1.
  - left. apply Z.ltb_lt in E1. split; [reflexivity|lia].
  - apply Z.ltb_ge in E1.
    destruct (Zpos (Qden q) <? 2 * (Qnum q mod Zpos (Qden q)))%Z eqn:E2.
    + right. split; [reflexivity|lia].
    + apply Z.ltb_ge in E2.
      destruct (Z.even (Qnum q / Zpos (Qden q))).
      * left. split; [reflexivity|lia].
      * right. split; [reflexivity|lia].
Qed.

(** [rne q] is within one half of [q]. *)
Lemma rne_bounds (q : Q) :
  (q - (1 # 2) <= inject_Z (rne q))%Q /\ (inject_Z (rne q) <= q + (1 # 2))%Q.
Proof.
  destruct q as [n d]. pose proof (rne_floor_or_next (n # d)) as H.
  cbn [Qnum Qden] in H.
  pose proof (Z.div_mod n (Zpos d) ltac:(lia)) as Hdm.
  pose proof (Z.mod_pos_bound n (Zpos d) ltac:(lia)) as Hr.
  unfold Qle, Qminus, Qplus, Qopp, inject_Z. cbn [Qnum Qden].
  destruct H as [[-> H]|[-> H]]; split; nia.
Qed.

(** An integer closer than one half to [q] is [rne q]. *)
Lemma rne_unique (q : Q) (z : Z) :
  (inject_Z z - (1 # 2) < q)%Q -> (q < inject_Z z + (1 # 2))%Q -> rne q = z.
Proof.
  destruct q as [n d]. pose proof (rne_floor_or_next (n # d)) as H.
  cbn [Qnum Qden] in H.
  pose proof (Z.div_mod n (Zpos d) ltac:(lia)) as Hdm.
  pose proof (Z.mod_pos_bound n (Zpos d) ltac:(lia)) as Hr.
  unfold Qlt, Qminus, Qplus, Qopp, inject_Z. cbn [Qnum Qden].
  intros H1 H2.
  assert (Hz : (z = n / Zpos d \/ z = n / Zpos d + 1)%Z) by nia.
  destruct H as [[-> H]|[-> H]]; destruct Hz as [-> | ->]; nia.
Qed.

Section Float.
Local Open Scope Q_scope.

Lemma Qnum_pos (q : Q) : 0 < q <-> (0 < Qnum q)%Z.
Proof. unfold Qlt. cbn. lia. Qed.

Lemma Qnum_neg (q : Q) : q < 0 <-> (Qnum q < 0)%Z.
Proof. unfold Qlt. cbn. lia. Qed.

Lemma Qnum_zero (q : Q) : q == 0 <-> Qnum q = 0%Z.
Proof. unfold Qeq. cbn. lia. Qed.

Lemma two_power_pos (e : Z) : 0 < 2 ^ e.
Proof. apply Qpower_0_lt. reflexivity. Qed.

Lemma two_power_add (a b : Z) : 2 ^ (a + b) == 2 ^ a * 2 ^ b.
Proof. apply Qpower_plus. discriminate. Qed.

Lemma ratio_le (A B N D : Q) :
  0 <= A -> A <= N -> 0 < D -> D <= B -> A / B <= N / D.
Proof.
  intros HA HAN HD HDB.
  apply Qle_shift_div_l; [exact HD|].
  assert (HB : 0 < B) by lra.
  setoid_replace (A / B * D) with (A * D / B) by (field; lra).
  apply Qle_shift_div_r; [exact HB|]. nra.
Qed.

Lemma ratio_lt (A B N D : Q) :
  0 < N -> N < A -> 0 < B -> B <= D -> N / D < A / B.
Proof.
  intros HN HNA HB HBD.
  assert (HD : 0 < D) by lra.
  apply Qlt_shift_div_r; [exact HD|].
  setoid_replace (A / B * D) with (A * D / B) by (field; lra).
  apply Qlt_shift_div_l; [exact HB|]. nra.
Qed.

(** [ilog2] is the binary exponent. *)
Lemma ilog2_spec (a : Q) :
  0 < a -> 2 ^ ilog2 a <= a /\ a < 2 ^ (ilog2 a + 1).
Proof.
  intros Ha. destruct a as [n d]. apply Qnum_pos in Ha. cbn [Qnum] in Ha.
  unfold ilog2. cbn [Qnum Qden].
  destruct (Z.log2_spec n Ha) as [Ln Un].
  destruct (Z.log2_spec (Zpos d) ltac:(lia)) as [Ld Ud].
  pose proof (Z.log2_nonneg n) as Pn.
  pose proof (Z.log2_nonneg (Zpos d)) as Pd.
  rewrite Zle_Qle in Ln, Ld. rewrite Zlt_Qlt in Un, Ud.
  rewrite Zpower_Qpower in Ln, Ld, Un, Ud by lia.
  change (inject_Z 2) with 2 in *.
  assert (Hn : 0 < inject_Z n) by (rewrite <- (Zlt_Qlt 0); exact Ha).
  assert (Hd : 0 < inject_Z (Zpos d)) by (rewrite <- (Zlt_Qlt 0); lia).
  pose proof (two_power_pos (Z.log2 n)) as P1.
  pose proof (two_power_pos (Z.log2 (Zpos d))) as P2.
  pose proof (two_power_pos (Z.succ (Z.log2 (Zpos d)))) as P3.
  destruct (Qle_bool (2 ^ (Z.log2 n - Z.log2 (Zpos d))) (n # d)) eqn:E.
  - apply Qle_bool_iff in E. split; [exact E|].
    replace (Z.log2 n - Z.log2 (Zpos d) + 1)%Z
      with (Z.succ (Z.log2 n) - Z.log2 (Zpos d))%Z by lia.
    rewrite Qpower_minus by discriminate. rewrite (Qmake_Qdiv n d).
    apply ratio_lt; lra.
  - split.
    + replace (Z.log2 n - Z.log2 (Zpos d) - 1)%Z
        with (Z.log2 n - Z.succ (Z.log2 (Zpos d)))%Z by lia.
      rewrite Qpower_minus by discriminate. rewrite (Qmake_Qdiv n d).
      apply ratio_le; lra.
    + replace (Z.log2 n - Z.log2 (Zpos d) - 1 + 1)%Z
        with (Z.log2 n - Z.log2 (Zpos d))%Z by lia.
      apply Qnot_le_lt. intros C. apply Qle_bool_iff in C. congruence.
Qed.

(** The relative error of rounding. *)
Lemma fl_near (q : Q) :
  q - Qabs q * half_ulp <= fl q /\ fl q <= q + Qabs q * half_ulp.
Proof.
  unfold fl. destruct (Qnum q =? 0)%Z eqn:E0.
  - apply Z.eqb_eq, Qnum_zero in E0. pose proof (Qabs_nonneg q).
    unfold half_ulp. split; nra.
  - apply Z.eqb_neq in E0.
    assert (Ha : 0 < Qabs q).
    { pose proof (Qabs_nonneg q) as H. apply Qle_lteq in H.
      destruct H as [H|H]; [exact H|]. symmetry in H.
      elim E0. apply Qnum_zero. destruct q as [[|p|p] d]; try discriminate H.
      reflexivity. }
    destruct (ilog2_spec (Qabs q) Ha) as [Lo _].
    set (P := 2 ^ (ilog2 (Qabs q) - 52)) in *.
    assert (HP : 0 < P) by apply two_power_pos.
    assert (HP52 : 4503599627370496 * P <= Qabs q).
    { replace (ilog2 (Qabs q)) with (52 + (ilog2 (Qabs q) - 52))%Z in Lo by lia.
      rewrite two_power_add in Lo. fold P in Lo.
      change (2 ^ 52) with (4503599627370496 # 1) in Lo. exact Lo. }
    destruct (rne_bounds (q / P)) as [B1 B2].
    set (m := inject_Z (rne (q / P))) in *.
    assert (Hy : q / P * P == q) by (field; lra).
    unfold half_ulp. split; nra.
Qed.

Lemma fl_bounds_pos (q : Q) :
  0 < q -> q * (1 - half_ulp) <= fl q /\ fl q <= q * (1 + half_ulp).
Proof.
  intros H. destruct (fl_near q) as [H1 H2].
  pose proof (Qabs_pos q ltac:(lra)) as Ha. unfold half_ulp in *.
  split; lra.
Qed.

Lemma fl_bounds_neg (q : Q) :
  q < 0 -> q * (1 + half_ulp) <= fl q /\ fl q <= q * (1 - half_ulp).
Proof.
  intros H. destruct (fl_near q) as [H1 H2].
  pose proof (Qabs_neg q ltac:(lra)) as Ha. unfold half_ulp in *.
  split; lra.
Qed.

Lemma fl_zero (q : Q) : q == 0 -> fl q == 0.
Proof.
  intros H. destruct (fl_near q) as [H1 H2].
  pose proof (Qabs_pos q ltac:(lra)) as Ha. unfold half_ulp in *. lra.
Qed.

Lemma us_as_seconds (u : Z) : (u # 1000000) * 1000000 == inject_Z u.
Proof. unfold Qeq, Qmult, inject_Z. cbn [Qnum Qden]. lia. Qed.

(** [total_seconds() < 0] tests the sign of the duration. *)
Lemma float_neg_total_seconds (t : timedelta) :
  float_neg (total_seconds t) = (td_us t <? 0)%Z.
Proof.
  unfold float_neg, total_seconds, int_true_divide.
  pose proof (us_as_seconds (td_us t)) as Hs.
  destruct (td_us t <? 0)%Z eqn:E.
  - apply Z.ltb_lt in E. apply Z.ltb_lt, Qnum_neg.
    rewrite Zlt_Qlt in E. change (inject_Z 0) with 0 in E.
    destruct (fl_bounds_neg (td_us t # 1000000) ltac:(lra)) as [_ H].
    unfold half_ulp in H. lra.
  - apply Z.ltb_ge in E. apply Z.ltb_ge.
    rewrite Zle_Qle in E. change (inject_Z 0) with 0 in E.
    assert (H : 0 <= fl (td_us t # 1000000)).
    { destruct (Qlt_le_dec 0 (td_us t # 1000000)) as [P|P].
      - destruct (fl_bounds_pos _ P) as [H _]. unfold half_ulp in H. lra.
      - rewrite fl_zero; lra. }
    unfold Qle in H. cbn in H. lia.
Qed.

Lemma total_ms_ms_of_us (t : timedelta) : total_ms t = ms_of_us (td_us t).
Proof. reflexivity. Qed.

(** The float that [round] receives, for a positive duration. *)
Lemma ms_float_pos (u : Z) :
  (0 < u)%Z ->
  let y := float_mul (int_true_divide u 1000000) 1000 in
  inject_Z u * (1 # 1000) * (1 - half_ulp) * (1 - half_ulp) <= y
  /\ y <= inject_Z u * (1 # 1000) * (1 + half_ulp) * (1 + half_ulp).
Proof.
  intros Hu. cbv zeta. unfold float_mul, int_true_divide.
  pose proof (us_as_seconds u) as Hs.
  rewrite Zlt_Qlt in Hu. change (inject_Z 0) with 0 in Hu.
  destruct (fl_bounds_pos (u # 1000000) ltac:(lra)) as [A1 A2].
  set (x := fl (u # 1000000)) in *.
  assert (Hx : 0 < x * 1000) by (unfold half_ulp in *; lra).
  destruct (fl_bounds_pos (x * 1000) Hx) as [B1 B2].
  unfold half_ulp in *. split; lra.
Qed.

Lemma ms_float_neg (u : Z) :
  (u < 0)%Z -> float_mul (int_true_divide u 1000000) 1000 < 0.
Proof.
  intros Hu. unfold float_mul, int_true_divide.
  pose proof (us_as_seconds u) as Hs.
  rewrite Zlt_Qlt in Hu. change (inject_Z 0) with 0 in Hu.
  destruct (fl_bounds_neg (u # 1000000) ltac:(lra)) as [A1 A2].
  set (x := fl (u # 1000000)) in *.
  assert (Hx : x * 1000 < 0) by (unfold half_ulp in *; lra).
  destruct (fl_bounds_neg (x * 1000) Hx) as [B1 B2].
  unfold half_ulp in *. lra.
Qed.

Lemma ms_of_us_zero : ms_of_us 0 = 0%Z.
Proof. reflexivity. Qed.

(** A negative duration never rounds to a positive number of
    milliseconds. *)
Lemma ms_of_us_neg (u : Z) : (u < 0)%Z -> (ms_of_us u <= 0)%Z.
Proof.
  intros Hu. unfold ms_of_us, py_round.
  pose proof (ms_float_neg u Hu) as Hy.
  destruct (rne_bounds (float_mul (int_true_divide u 1000000) 1000))
    as [_ H].
  assert (L : inject_Z (rne (float_mul (int_true_divide u 1000000) 1000)) < 1)
    by lra.
  change 1 with (inject_Z 1) in L. rewrite <- Zlt_Qlt in L. lia.
Qed.

Lemma ms_of_us_nonneg (u : Z) : (0 <= u)%Z -> (0 <= ms_of_us u)%Z.
Proof.
  intros Hu. destruct (Z.eq_dec u 0) as [->|Hn]; [rewrite ms_of_us_zero; lia|].
  unfold ms_of_us, py_round.
  destruct (ms_float_pos u ltac:(lia)) as [Hy _]. cbv zeta in Hy.
  destruct (rne_bounds (float_mul (int_true_divide u 1000000) 1000))
    as [H _].
  assert (P : 0 < inject_Z u)
    by (change 0 with (inject_Z 0); rewrite <- Zlt_Qlt; lia).
  assert (L : inject_Z (-1) < 
              inject_Z (rne (float_mul (int_true_divide u 1000000) 1000))).
  { change (inject_Z (-1)) with (-1 # 1). unfold half_ulp in *. lra. }
  rewrite <- Zlt_Qlt in L. lia.
Qed.

(** Up to [EXACT_MS] milliseconds, the two roundings of
    [total_seconds() * 1000] stay within one half of the exact value. *)
Lemma ms_of_us_exact (ms : Z) :
  (0 <= ms <= EXACT_MS)%Z -> ms_of_us (1000 * ms) = ms.
Proof.
  intros [H0 H1]. destruct (Z.eq_dec ms 0) as [->|Hn]; [reflexivity|].
  unfold ms_of_us, py_round.
  destruct (ms_float_pos (1000 * ms) ltac:(lia)) as [A B]. cbv zeta in A, B.
  set (y := float_mul (int_true_divide (1000 * ms) 1000000) 1000) in *.
  assert (E : inject_Z (1000 * ms) == 1000 * inject_Z ms)
    by (rewrite inject_Z_mult; reflexivity).
  assert (P : 0 < inject_Z ms)
    by (change 0 with (inject_Z 0); rewrite <- Zlt_Qlt; lia).
  assert (U : inject_Z ms <= inject_Z EXACT_MS) by (rewrite <- Zle_Qle; lia).
  change (inject_Z EXACT_MS) with (2251799813685247 # 1) in U.
  unfold half_ulp in *.
  apply rne_unique; lra.
Qed.

(** Below that bound a duration rounds to at most [EXACT_MS]
    milliseconds. *)
Lemma ms_of_us_upper (u : Z) :
  (u <= 1000 * EXACT_MS)%Z -> (ms_of_us u <= EXACT_MS)%Z.
Proof.
  intros H. destruct (Z_lt_le_dec u 0) as [Hn|Hp].
  { pose proof (ms_of_us_neg u Hn). unfold EXACT_MS. lia. }
  destruct (Z.eq_dec u 0) as [->|Hz]; [rewrite ms_of_us_zero; discriminate|].
  unfold ms_of_us, py_round.
  destruct (ms_float_pos u ltac:(lia)) as [_ B]. cbv zeta in B.
  set (y := float_mul (int_true_divide u 1000000) 1000) in *.
  destruct (rne_bounds y) as [_ R].
  assert (P : 0 < inject_Z u)
    by (change 0 with (inject_Z 0); rewrite <- Zlt_Qlt; lia).
  assert (U : inject_Z u <= inject_Z (1000 * EXACT_MS))
    by (rewrite <- Zle_Qle; lia).
  change (inject_Z (1000 * EXACT_MS)) with (2251799813685247000 # 1) in U.
  assert (L : inject_Z (rne y) < inject_Z (EXACT_MS + 1)).
  { change (inject_Z (EXACT_MS + 1)) with (2251799813685248 # 1).
    unfold half_ulp in *. lra. }
  rewrite <- Zlt_Qlt in L. lia.
Qed.
End Float.

Section FloatRange.
Local Open Scope Q_scope.

Lemma ilog2_between (a : Q) (lo hi : Z) :
  0 < a -> 2 ^ lo <= a -> a < 2 ^ hi -> (lo <= ilog2 a < hi)%Z.
Proof.
  intros Ha Hlo Hhi. destruct (ilog2_spec a Ha) as [L U].
  split.
  - destruct (Z_lt_le_dec (ilog2 a) lo) as [C|C]; [|exact C].
    pose proof (Qpower_le_compat_l 2 (ilog2 a + 1) lo ltac:(lia)
                  ltac:(discriminate)) as M.
    lra.
  - destruct (Z_lt_le_dec (ilog2 a) hi) as [C|C]; [exact C|].
    pose proof (Qpower_le_compat_l 2 hi (ilog2 a) C ltac:(discriminate)) as M.
    lra.
Qed.

(** The floats of [format_hhmmss_mmm] and of the clamp are normal numbers:
    their binary exponents stay far inside the range -1022 .. 1023 of the
    format, for every duration other than zero. *)
Lemma floats_are_normal (t : timedelta) :
  td_us t <> 0%Z ->
  (-20 <= ilog2 (Qabs (td_us t # 1000000)) < 47)%Z
  /\ (-10 <= ilog2 (Qabs (total_seconds t * 1000)) < 57)%Z.
Proof.
  intros Hz. unfold total_seconds, int_true_divide.
  pose proof (us_as_seconds (td_us t)) as Hs.
  pose proof (td_range t) as R. rewrite !Zle_Qle in R.
  change (inject_Z (-86399999913600000000)) with (-86399999913600000000 # 1)
    in R.
  change (inject_Z 86399999999999999999) with (86399999999999999999 # 1) in R.
  destruct (Z_lt_le_dec (td_us t) 0) as [N|P].
  - assert (N1 : inject_Z (td_us t) <= inject_Z (-1))
      by (rewrite <- Zle_Qle; lia).
    change (inject_Z (-1)) with (-1 # 1) in N1.
    destruct (fl_bounds_neg (td_us t # 1000000) ltac:(lra)) as [B1 B2].
    unfold half_ulp in *.
    pose proof (Qabs_neg (td_us t # 1000000) ltac:(lra)) as A1.
    pose proof (Qabs_neg (fl (td_us t # 1000000) * 1000) ltac:(lra)) as A2.
    split; apply ilog2_between;
      try (change (2 ^ (-20)) with (1 # 1048576));
      try (change (2 ^ 47) with (140737488355328 # 1));
      try (change (2 ^ (-10)) with (1 # 1024));
      try (change (2 ^ 57) with (144115188075855872 # 1)); lra.
  - assert (P1 : inject_Z 1 <= inject_Z (td_us t))
      by (rewrite <- Zle_Qle; lia).
    change (inject_Z 1) with 1 in P1.
    destruct (fl_bounds_pos (td_us t # 1000000) ltac:(lra)) as [B1 B2].
    unfold half_ulp in *.
    pose proof (Qabs_pos (td_us t # 1000000) ltac:(lra)) as A1.
    pose proof (Qabs_pos (fl (td_us t # 1000000) * 1000) ltac:(lra)) as A2.
    split; apply ilog2_between;
      try (change (2 ^ (-20)) with (1 # 1048576));
      try (change (2 ^ 47) with (140737488355328 # 1));
      try (change (2 ^ (-10)) with (1 # 1024));
      try (change (2 ^ 57) with (144115188075855872 # 1)); lra.
Qed.
End FloatRange.

Section FloatShape.
Local Open Scope Q_scope.

(** What [fl] returns is a float: an integer of 53 bits times a power of
    two (a mantissa of 2^53 is the next power of two). *)
Lemma fl_is_float (q : Q) :
  ~ q == 0 ->
  exists m e,
    fl q = inject_Z m * 2 ^ e
    /\ (4503599627370496 <= Z.abs m <= 9007199254740992)%Z.
Proof.
  intros Hq. unfold fl.
  assert (E0 : (Qnum q =? 0)%Z = false).
  { apply Z.eqb_neq. intros C. apply Hq. now apply Qnum_zero. }
  rewrite E0.
  exists (rne (q / 2 ^ (ilog2 (Qabs q) - 52))), (ilog2 (Qabs q) - 52)%Z.
  split; [reflexivity|].
  assert (Ha : 0 < Qabs q).
  { pose proof (Qabs_nonneg q) as H. apply Qle_lteq in H.
    destruct H as [H|H]; [exact H|]. symmetry in H. elim Hq.
    destruct q as [[|p|p] d]; try discriminate H. reflexivity. }
  destruct (ilog2_spec (Qabs q) Ha) as [Lo Up].
  set (P := 2 ^ (ilog2 (Qabs q) - 52)) in *.
  assert (HP : 0 < P) by apply two_power_pos.
  replace (ilog2 (Qabs q)) with (52 + (ilog2 (Qabs q) - 52))%Z in Lo by lia.
  replace (ilog2 (Qabs q) + 1)%Z with (53 + (ilog2 (Qabs q) - 52))%Z in Up
    by lia.
  rewrite two_power_add in Lo, Up. fold P in Lo, Up.
  change (2 ^ 52) with (4503599627370496 # 1) in Lo.
  change (2 ^ 53) with (9007199254740992 # 1) in Up.
  destruct (rne_bounds (q / P)) as [B1 B2].
  assert (Hy : q / P * P == q) by (field; lra).
  set (y := q / P) in *. set (m := rne y) in *.
  destruct (Qlt_le_dec q 0) as [N|N].
  - pose proof (Qabs_neg q ltac:(lra)) as A.
    assert (Y1 : y <= - (4503599627370496 # 1)) by nra.
    assert (Y2 : - (9007199254740992 # 1) <= y) by nra.
    assert (M1 : inject_Z m < inject_Z (-4503599627370495)).
    { change (inject_Z (-4503599627370495)) with (-4503599627370495 # 1).
      lra. }
    assert (M2 : inject_Z (-9007199254740993) < inject_Z m).
    { change (inject_Z (-9007199254740993)) with (-9007199254740993 # 1).
      lra. }
    rewrite <- Zlt_Qlt in M1, M2. lia.
  - pose proof (Qabs_pos q N) as A.
    assert (Y1 : 4503599627370496 # 1 <= y) by nra.
    assert (Y2 : y <= 9007199254740992 # 1) by nra.
    assert (M1 : inject_Z 4503599627370495 < inject_Z m).
    { change (inject_Z 4503599627370495) with (4503599627370495 # 1). lra. }
    assert (M2 : inject_Z m < inject_Z 9007199254740993).
    { change (inject_Z 9007199254740993) with (9007199254740993 # 1). lra. }
    rewrite <- Zlt_Qlt in M1, M2. lia.
Qed.
End FloatShape.

(** ** Printing numbers *)

Lemma decimal_step_digit (v d : Z) :
  (0 <= d < 10)%Z -> decimal_step v (48 + Z.to_N d)%N = (10 * v + d)%Z.
Proof.
  intros H. unfold decimal_step.
  assert (E : Py_UNICODE_TODECIMAL (48 + Z.to_N d)%N = Some (Z.to_N d)).
  { assert (C : (Z.to_N d < 10)%N) by lia.
    digit_case (Z.to_N d) C; reflexivity. }
  rewrite E. lia.
Qed.

Lemma isdecimal_digit (d : Z) :
  (0 <= d < 10)%Z -> Py_UNICODE_ISDECIMAL (48 + Z.to_N d)%N = true.
Proof.
  intros H. assert (C : (Z.to_N d < 10)%N) by lia.
  digit_case (Z.to_N d) C; reflexivity.
Qed.

Lemma all_decimal_app (a b : str) :
  all_decimal (a ++ b) <-> all_decimal a /\ all_decimal b.
Proof.
  unfold all_decimal. rewrite forallb_app. apply andb_true_iff.
Qed.

(** With enough fuel, [digits_fuel] puts the decimal digits of [n] in
    front of the accumulator. *)
Lemma digits_fuel_spec (fuel : nat) :
  forall (n : Z) (acc : str),
    (0 <= n < 10 ^ Z.of_nat fuel)%Z -> fuel <> O ->
    exists ds,
      digits_fuel fuel n acc = ds ++ acc /\ all_decimal ds /\ ds <> []
      /\ (length ds <= fuel)%nat
      /\ forall v, fold_left decimal_step ds v
                   = (v * 10 ^ Z.of_nat (length ds) + n)%Z.
Proof.
  induction fuel as [|fuel IH]; intros n acc Hn Hf; [congruence|].
  cbn [digits_fuel].
  pose proof (Z.mod_pos_bound n 10 ltac:(lia)) as Hm.
  destruct (n <? 10)%Z eqn:E.
  - apply Z.ltb_lt in E. exists [(48 + Z.to_N (n mod 10))%N].
    rewrite Z.mod_small by lia.
    repeat split.
    + unfold all_decimal. cbn [forallb]. rewrite isdecimal_digit by lia.
      reflexivity.
    + discriminate.
    + cbn. lia.
    + intros v. cbn [fold_left length]. rewrite decimal_step_digit by lia.
      change (10 ^ Z.of_nat 1)%Z with 10%Z. lia.
  - apply Z.ltb_ge in E.
    assert (Hq : (0 <= n / 10 < 10 ^ Z.of_nat fuel)%Z).
    { rewrite Nat2Z.inj_succ, Z.pow_succ_r in Hn by lia.
      split; [apply Z.div_pos; lia|].
      apply Z.div_lt_upper_bound; lia. }
    assert (Hf' : fuel <> O).
    { intros ->. change (10 ^ Z.of_nat 0)%Z with 1%Z in Hq.
      assert (1 <= n / 10)%Z by (apply Z.div_le_lower_bound; lia). lia. }
    destruct (IH (n / 10)%Z ((48 + Z.to_N (n mod 10))%N :: acc) Hq Hf')
      as [ds [E1 [E2 [E3 [E4 E5]]]]].
    exists (ds ++ [(48 + Z.to_N (n mod 10))%N]).
    repeat split.
    + rewrite E1, <- app_assoc. reflexivity.
    + apply all_decimal_app. split; [exact E2|].
      unfold all_decimal. cbn [forallb]. rewrite isdecimal_digit by lia.
      reflexivity.
    + destruct ds; discriminate.
    + rewrite length_app. cbn [length]. lia.
    + intros v. rewrite fold_left_app, E5. cbn [fold_left].
      rewrite decimal_step_digit by lia.
      rewrite length_app. cbn [length].
      rewrite Nat2Z.inj_add, Z.pow_add_r by lia.
      change (10 ^ Z.of_nat 1)%Z with 10%Z.
      pose proof (Z.div_mod n 10 ltac:(lia)). lia.
Qed.

Lemma digits_spec (n : Z) :
  (0 <= n)%Z ->
  all_decimal (digits n) /\ digits n <> []
  /\ (length (digits n) <= S (Z.to_nat (Z.log2 n)))%nat
  /\ decimal_value (digits n) = n.
Proof.
  intros Hn. unfold digits.
  assert (B : (0 <= n < 10 ^ Z.of_nat (S (Z.to_nat (Z.log2 n))))%Z).
  { split; [exact Hn|].
    pose proof (Z.log2_nonneg n) as L.
    rewrite Nat2Z.inj_succ, Z2Nat.id by exact L.
    destruct (Z.eq_dec n 0) as [->|N0].
    - cbn. lia.
    - destruct (Z.log2_spec n ltac:(lia)) as [_ U].
      eapply Z.lt_le_trans; [exact U|].
      apply Z.pow_le_mono_l. lia. }
  destruct (digits_fuel_spec (S (Z.to_nat (Z.log2 n))) n [] B ltac:(congruence))
    as [ds [E1 [E2 [E3 [E4 E5]]]]].
  rewrite E1, app_nil_r. repeat split; try assumption.
  unfold decimal_value. rewrite E5. lia.
Qed.

Lemma decimal_value_zeros (k : nat) (ds : str) :
  decimal_value (repeat 48%N k ++ ds) = decimal_value ds.
Proof.
  unfold decimal_value. rewrite fold_left_app. f_equal.
  induction k as [|k IH]; [reflexivity|]. cbn [repeat fold_left]. exact IH.
Qed.

Lemma all_decimal_zeros (k : nat) : all_decimal (repeat 48%N k).
Proof.
  unfold all_decimal. induction k as [|k IH]; [reflexivity|].
  cbn [repeat forallb]. now rewrite IH.
Qed.

(** A number that is not negative is printed as decimal digits that read
    back as the number. *)
Lemma format_0d_spec (w : nat) (z : Z) :
  (0 <= z < 2 ^ 64)%Z -> (w <= 3)%nat ->
  all_decimal (format_0d w z) /\ format_0d w z <> []
  /\ (length (format_0d w z) <= 65)%nat
  /\ decimal_value (format_0d w z) = z.
Proof.
  intros Hz Hw. unfold format_0d.
  assert (E : (z <? 0)%Z = false) by (apply Z.ltb_ge; lia). rewrite E.
  destruct (digits_spec z ltac:(lia)) as [D1 [D2 [D3 D4]]].
  assert (L : (Z.log2 z < 64)%Z).
  { destruct (Z.eq_dec z 0) as [->|N0]; [cbn; lia|].
    apply Z.log2_lt_pow2; lia. }
  repeat split.
  - apply all_decimal_app. split; [apply all_decimal_zeros|exact D1].
  - destruct (digits z); [congruence|]. destruct (repeat _ _); discriminate.
  - rewrite length_app, repeat_length.
    assert (Z.to_nat (Z.log2 z) <= 63)%nat by lia.
    unfold str, char in *. lia.
  - rewrite decimal_value_zeros. exact D4.
Qed.

Lemma int_result_format_0d (w : nat) (z : Z) :
  (0 <= z < 2 ^ 64)%Z -> (w <= 3)%nat ->
  int_result (format_0d w z) = Ok z.
Proof.
  intros Hz Hw. destruct (format_0d_spec w z Hz Hw) as [D1 [D2 [D3 D4]]].
  unfold int_result. rewrite int_of_str_decimal; try assumption.
  - now rewrite D4.
  - unfold int_max_str_digits. lia.
Qed.

(** ** Formatting and parsing again *)

Lemma not_in_app (c : char) (a b : str) :
  ~ In c a -> ~ In c b -> ~ In c (a ++ b).
Proof. intros Ha Hb H. apply in_app_or in H. tauto. Qed.

Lemma not_in_cons (c x : char) (a : str) :
  x <> c -> ~ In c a -> ~ In c (x :: a).
Proof. intros Hx Ha [H|H]; [congruence|tauto]. Qed.

(** What [parse_hhmmss_mmm] makes of three fields and a fraction that are
    runs of decimal digits. *)
Lemma parse_fields (a b c d : str) :
  all_decimal a -> all_decimal b -> all_decimal c -> all_decimal d ->
  forall hh mm ss millis,
    int_result a = Ok hh -> int_result b = Ok mm -> int_result c = Ok ss ->
    int_result d = Ok millis ->
    parse_hhmmss_mmm (a ++ [COLON] ++ b ++ [COLON] ++ c ++ [PERIOD] ++ d)
    = match timedelta_hmsm hh mm ss millis with
      | Ok td => Ok td
      | Raise _ =>
          Raise (ValueError
                   (invalid_time_format
                      (a ++ [COLON] ++ b ++ [COLON] ++ c ++ [PERIOD] ++ d)))
      end.
Proof.
  intros Ha Hb Hc Hd hh mm ss millis Ia Ib Ic Id.
  unfold parse_hhmmss_mmm, parse_body.
  pose proof (all_decimal_not_in PERIOD a eq_refl Ha) as Pa.
  pose proof (all_decimal_not_in PERIOD b eq_refl Hb) as Pb.
  pose proof (all_decimal_not_in PERIOD c eq_refl Hc) as Pc.
  pose proof (all_decimal_not_in PERIOD d eq_refl Hd) as Pd.
  pose proof (all_decimal_not_in COLON a eq_refl Ha) as Ca.
  pose proof (all_decimal_not_in COLON b eq_refl Hb) as Cb.
  pose proof (all_decimal_not_in COLON c eq_refl Hc) as Cc.
  replace (a ++ [COLON] ++ b ++ [COLON] ++ c ++ [PERIOD] ++ d)
    with ((a ++ COLON :: b ++ COLON :: c) ++ PERIOD :: d)
    by (rewrite <- !app_assoc; cbn [app]; rewrite <- !app_assoc; reflexivity).
  rewrite split_app.
  2:{ apply not_in_app; [exact Pa|]. apply not_in_cons; [discriminate|].
      apply not_in_app; [exact Pb|]. apply not_in_cons; [discriminate|].
      exact Pc. }
  rewrite (split_no_sep PERIOD d Pd).
  rewrite (split_app COLON a _ Ca), (split_app COLON b _ Cb).
  rewrite (split_no_sep COLON c Cc).
  rewrite Ia, Ib, Ic, Id. cbn [bind].
  destruct (timedelta_hmsm hh mm ss millis); reflexivity.
Qed.

Lemma format_ms_value (F : Z) :
  (F / 1000 / 60 / 60 * 3600000000 + F / 1000 / 60 mod 60 * 60000000
   + F / 1000 mod 60 * 1000000 + F mod 1000 * 1000)%Z
  = (1000 * F)%Z.
Proof.
  pose proof (Z.div_mod F 1000 ltac:(lia)).
  pose proof (Z.div_mod (F / 1000) 60 ltac:(lia)).
  pose proof (Z.div_mod (F / 1000 / 60) 60 ltac:(lia)).
  lia.
Qed.

(** The text printed for up to [EXACT_MS] milliseconds parses to exactly
    that many milliseconds. *)
Lemma parse_format_ms (F : Z) :
  (0 <= F <= EXACT_MS)%Z ->
  exists td, parse_hhmmss_mmm (format_ms F) = Ok td
             /\ td_us td = (1000 * F)%Z.
Proof.
  intros HF. unfold EXACT_MS in HF. unfold format_ms. cbv zeta.
  assert (H1 : (0 <= F / 1000 / 60 / 60 < 2 ^ 64)%Z).
  { split; [repeat apply Z.div_pos; lia|].
    repeat (apply Z.div_lt_upper_bound; [lia|]). lia. }
  pose proof (Z.mod_pos_bound (F / 1000 / 60) 60 ltac:(lia)) as H2.
  pose proof (Z.mod_pos_bound (F / 1000) 60 ltac:(lia)) as H3.
  pose proof (Z.mod_pos_bound F 1000 ltac:(lia)) as H4.
  destruct (format_0d_spec 2 (F / 1000 / 60 / 60) H1 ltac:(lia)) as [A _].
  destruct (format_0d_spec 2 (F / 1000 / 60 mod 60) ltac:(lia) ltac:(lia))
    as [B _].
  destruct (format_0d_spec 2 (F / 1000 mod 60) ltac:(lia) ltac:(lia))
    as [C _].
  destruct (format_0d_spec 3 (F mod 1000) ltac:(lia) ltac:(lia)) as [D _].
  rewrite (parse_fields _ _ _ _ A B C D
             (F / 1000 / 60 / 60) (F / 1000 / 60 mod 60) (F / 1000 mod 60)
             (F mod 1000))%Z
    by (apply int_result_format_0d; lia).
  unfold timedelta_hmsm. rewrite format_ms_value.
  destruct (new_delta_ok (1000 * F)) as [td [E U]].
  { apply td_in_range_iff. lia. }
  rewrite E. eauto.
Qed.

Lemma format_as_ms (t : timedelta) :
  format_hhmmss_mmm t = format_ms (Z.max 0 (total_ms t)).
Proof.
  unfold format_hhmmss_mmm, format_ms. cbv zeta.
  destruct (total_ms t <? 0)%Z eqn:E.
  - apply Z.ltb_lt in E. now rewrite Z.max_l by lia.
  - apply Z.ltb_ge in E. now rewrite Z.max_r by lia.
Qed.

(** ** [shift_line] *)

Lemma clamp_us (t : timedelta) : td_us (clamp t) = Z.max 0 (td_us t).
Proof.
  unfold clamp. rewrite float_neg_total_seconds.
  destruct (td_us t <? 0)%Z eqn:E.
  - apply Z.ltb_lt in E. cbn [td_us timedelta_zero]. lia.
  - apply Z.ltb_ge in E. lia.
Qed.

(** A negative duration is printed as zero. *)
Lemma format_negative (t : timedelta) :
  (td_us t < 0)%Z -> format_hhmmss_mmm t = py "00:00:00.000".
Proof.
  intros H. rewrite format_as_ms, total_ms_ms_of_us.
  pose proof (ms_of_us_neg (td_us t) H) as L.
  rewrite Z.max_l by exact L. reflexivity.
Qed.

(** Printing clamps by itself: the clamp of [shift_line] does not change
    the text. *)
Lemma format_clamp (t : timedelta) :
  format_hhmmss_mmm (clamp t) = format_hhmmss_mmm t.
Proof.
  unfold clamp. rewrite float_neg_total_seconds.
  destruct (td_us t <? 0)%Z eqn:E; [|reflexivity].
  apply Z.ltb_lt in E. rewrite (format_negative t E).
  vm_compute. reflexivity.
Qed.

Lemma td_add_cases (a b : timedelta) :
  (exists t, td_add a b = Ok t /\ td_us t = (td_us a + td_us b)%Z
             /\ td_in_range (td_us a + td_us b) = true)
  \/ (td_add a b = Raise OverflowError
      /\ td_in_range (td_us a + td_us b) = false).
Proof. apply new_delta_cases. Qed.

Lemma td_add_safe (t shift : timedelta) :
  (0 <= td_us t <= MAX_STAMP_US)%Z -> safe_shift shift ->
  exists n, td_add t shift = Ok n /\ td_us n = (td_us t + td_us shift)%Z.
Proof.
  intros Ht Hs. unfold safe_shift, MAX_STAMP_US, MAX_DELTA_DAYS, US_PER_DAY in *.
  pose proof (td_range shift) as R.
  destruct (new_delta_ok (td_us t + td_us shift)) as [n [E U]].
  { apply td_in_range_iff. lia. }
  exists n. split; assumption.
Qed.

Lemma shift_line_unmatched (line : str) (shift : timedelta) :
  time_match line = None -> shift_line line shift = Ok line.
Proof.
  intros H. unfold shift_line. now rewrite re_match_time_match, H.
Qed.

Lemma shift_line_matched (line : str) (shift : timedelta) (c : capture) :
  time_match line = Some c ->
  shift_line line shift
  = (new <- shifted (capture_groups c) shift ;;
     let '(new_start, new_end) := new in
     Ok (c_ws c ++ format_hhmmss_mmm new_start ++ py " --> "
           ++ format_hhmmss_mmm new_end ++ c_rest c ++ [LF])).
Proof.
  intros H. unfold shift_line. rewrite re_match_time_match, H. reflexivity.
Qed.

Lemma time_match_stamps (line : str) (c : capture) :
  time_match line = Some c ->
  is_timestamp (c_start c) = true /\ is_timestamp (c_end c) = true
  /\ ~ In LF (c_rest c).
Proof.
  intros H. destruct (time_match_sound line c H) as [sp1 [sp2 [eol D]]].
  unfold decomposes in D. tauto.
Qed.

(** The two time stamps of a matched line parse; what is left of
    [shifted] are the two additions. *)
Lemma shifted_matched (line : str) (c : capture) (shift : timedelta) :
  time_match line = Some c ->
  exists start_td end_td,
    parse_hhmmss_mmm (c_start c) = Ok start_td
    /\ parse_hhmmss_mmm (c_end c) = Ok end_td
    /\ td_us start_td = stamp_us (c_start c)
    /\ td_us end_td = stamp_us (c_end c)
    /\ (0 <= td_us start_td <= MAX_STAMP_US)%Z
    /\ (0 <= td_us end_td <= MAX_STAMP_US)%Z
    /\ shifted (capture_groups c) shift
       = (new_start <- td_add start_td shift ;;
          new_end <- td_add end_td shift ;;
          Ok (clamp new_start, clamp new_end)).
Proof.
  intros H. destruct (time_match_stamps line c H) as [Hs [He _]].
  destruct (parse_stamp (c_start c) Hs) as [t1 [P1 [U1 B1]]].
  destruct (parse_stamp (c_end c) He) as [t2 [P2 [U2 B2]]].
  exists t1, t2. repeat split; try assumption; try lia.
  unfold shifted.
  change (group (capture_groups c) Gstart) with (c_start c).
  change (group (capture_groups c) Gend) with (c_end c).
  rewrite P1, P2. reflexivity.
Qed.

(** [shift_line] raises nothing but the [OverflowError] of an addition. *)
Lemma shift_line_raises (line : str) (shift : timedelta) (e : exn) :
  shift_line line shift = Raise e -> e = OverflowError.
Proof.
  destruct (time_match line) as [c|] eqn:M.
  - rewrite (shift_line_matched line shift c M).
    destruct (shifted_matched line c shift M)
      as [t1 [t2 [_ [_ [_ [_ [_ [_ E]]]]]]]].
    rewrite E.
    destruct (td_add_cases t1 shift) as [[n1 [A1 _]]|[A1 _]]; rewrite A1;
      cbn [bind]; [|congruence].
    destruct (td_add_cases t2 shift) as [[n2 [A2 _]]|[A2 _]]; rewrite A2;
      cbn [bind]; congruence.
  - rewrite (shift_line_unmatched line shift M). discriminate.
Qed.

(** Within [safe_shift], [shift_line] returns. *)
Lemma shift_line_returns (line : str) (shift : timedelta) :
  safe_shift shift -> exists out, shift_line line shift = Ok out.
Proof.
  intros Hs. destruct (time_match line) as [c|] eqn:M.
  - rewrite (shift_line_matched line shift c M).
    destruct (shifted_matched line c shift M)
      as [t1 [t2 [_ [_ [_ [_ [B1 [B2 E]]]]]]]].
    rewrite E.
    destruct (td_add_safe t1 shift B1 Hs) as [n1 [A1 _]].
    destruct (td_add_safe t2 shift B2 Hs) as [n2 [A2 _]].
    rewrite A1, A2. cbn [bind]. eauto.
  - rewrite (shift_line_unmatched line shift M). eauto.
Qed.

(** ** What [int] accepts *)

Lemma scan_digits_literal (k : nat) :
  forall (s : str) (acc : Z) (n : N) (v : Z) (n' : N) (tl : str),
    (length s <= k)%nat ->
    scan_digits s acc n = Some (v, n', tl) ->
    exists pre, s = pre ++ tl /\ forallb literal_char pre = true.
Proof.
  induction k as [|k IH]; intros s acc n v n' tl Hl H.
  - destruct s; [|cbn in Hl; lia]. cbn in H. injection H as _ _ <-.
    now exists [].
  - destruct s as [|c s]; [cbn in H; injection H as _ _ <-; now exists []|].
    cbn [scan_digits] in H. cbn [length] in Hl.
    destruct (ascii_digit c) as [d|] eqn:Ec.
    + destruct (IH s _ _ v n' tl ltac:(lia) H) as [pre [-> Hp]].
      exists (c :: pre). split; [reflexivity|]. cbn [forallb].
      rewrite Hp. unfold literal_char. rewrite Ec.
      now rewrite orb_true_r.
    + destruct (c =? UNDERSCORE)%N eqn:Eu.
      * destruct s as [|c' s]; [discriminate|].
        destruct (ascii_digit c') as [d|] eqn:Ec'; [|discriminate].
        cbn [length] in Hl.
        destruct (IH s _ _ v n' tl ltac:(lia) H) as [pre [-> Hp]].
        exists (c :: c' :: pre). split; [reflexivity|]. cbn [forallb].
        rewrite Hp. unfold literal_char. rewrite Eu, Ec'.
        now rewrite !orb_true_r.
      * injection H as _ _ <-. now exists [].
Qed.

Lemma drop_while_nil (p : char -> bool) (s : str) :
  drop_while p s = [] -> forallb p s = true.
Proof.
  intros H. rewrite <- (take_drop_while p s), H, app_nil_r.
  apply take_while_all.
Qed.

Lemma forallb_weaken (p q : char -> bool) (s : str) :
  (forall c, p c = true -> q c = true) ->
  forallb p s = true -> forallb q s = true.
Proof.
  intros W. rewrite !forallb_forall. auto.
Qed.

Lemma space_literal (c : char) : Py_ISSPACE c = true -> literal_char c = true.
Proof. intros H. unfold literal_char. now rewrite H. Qed.

(** A string that [PyLong_FromString] accepts consists of whitespace, a
    sign, digits and underscores. *)
Lemma long_from_string_literal (s : str) (z : Z) :
  long_from_string s = Some z -> forallb literal_char s = true.
Proof.
  unfold long_from_string. intros H.
  rewrite <- (take_drop_while Py_ISSPACE s), forallb_app.
  rewrite (forallb_weaken _ _ _ space_literal (take_while_all Py_ISSPACE s)).
  cbn [andb].
  set (s1 := drop_while Py_ISSPACE s) in *.
  assert (K : forall s2 neg,
             match s2 with
             | [] => None
             | c :: s3 =>
                 match ascii_digit c with
                 | Some d =>
                     match scan_digits s3 d 1 with
                     | Some (v, n, tl) =>
                         match drop_while Py_ISSPACE tl with
                         | [] =>
                             if (n <=? int_max_str_digits)%N
                             then Some (if neg : bool then (- v)%Z else v)
                             else None
                         | _ :: _ => None
                         end
                     | None => None
                     end
                 | None => None
                 end
             end = Some z -> forallb literal_char s2 = true).
  { intros s2 neg G. destruct s2 as [|c s3]; [discriminate|].
    destruct (ascii_digit c) as [d|] eqn:Ec; [|discriminate].
    destruct (scan_digits s3 d 1) as [[[v n] tl]|] eqn:Es; [|discriminate].
    destruct (drop_while Py_ISSPACE tl) eqn:Et; [|discriminate].
    destruct (scan_digits_literal (length s3) s3 d 1 v n tl (le_n _) Es)
      as [pre [-> Hp]].
    cbn [forallb]. rewrite forallb_app, Hp.
    rewrite (forallb_weaken _ _ _ space_literal (drop_while_nil _ _ Et)).
    unfold literal_char. rewrite Ec. now rewrite orb_true_r. }
  destruct s1 as [|c s']; [discriminate|].
  destruct (c =? 43)%N eqn:E43.
  - cbn [forallb]. rewrite (K s' false H). unfold literal_char.
    rewrite E43. now rewrite !orb_true_r.
  - destruct (c =? 45)%N eqn:E45.
    + cbn [forallb]. rewrite (K s' true H). unfold literal_char.
      rewrite E45. now rewrite !orb_true_r.
    + exact (K (c :: s') false H).
Qed.

Lemma transform_keeps_period (s : str) :
  In PERIOD s ->
  In PERIOD (transform_decimal_and_space s)
  \/ In 63%N (transform_decimal_and_space s).
Proof.
  induction s as [|c s IH]; intros H; [destruct H|].
  cbn [transform_decimal_and_space].
  destruct H as [->|H].
  - left. cbn. now left.
  - destruct (c <? 127)%N.
    + destruct (IH H); [left|right]; now right.
    + destruct (Py_UNICODE_ISSPACE c).
      * destruct (IH H); [left|right]; now right.
      * destruct (Py_UNICODE_TODECIMAL c).
        -- destruct (IH H); [left|right]; now right.
        -- right. now left.
Qed.

(** [int] refuses every string with a period in it. *)
Lemma int_of_str_no_period (f : str) (z : Z) :
  int_of_str f = Some z -> ~ In PERIOD f.
Proof.
  unfold int_of_str. intros H Hin.
  apply long_from_string_literal in H. rewrite forallb_forall in H.
  destruct (transform_keeps_period f Hin) as [P|P]; apply H in P;
    discriminate P.
Qed.

(** ** The two ways to split at the period *)

Lemma split_last_period_spec (s hms ms : str) :
  split_last_period s = Some (hms, ms) ->
  s = hms ++ PERIOD :: ms /\ ~ In PERIOD ms.
Proof.
  unfold split_last_period.
  pose proof (take_drop_while not_period (rev s)) as E.
  pose proof (take_while_all not_period (rev s)) as A.
  pose proof (drop_while_stops not_period (rev s)) as St.
  destruct (drop_while not_period (rev s)) as [|x before]; [discriminate|].
  intros [= <- <-]. cbn [stops] in St. unfold not_period in St.
  apply negb_false_iff, N.eqb_eq in St. subst x. split.
  - apply (f_equal (@rev char)) in E.
    rewrite rev_involutive, rev_app_distr in E. cbn [rev] in E.
    rewrite <- app_assoc in E. symmetry. exact E.
  - intros Hin. apply in_rev in Hin. rewrite forallb_forall in A.
    apply A in Hin. discriminate Hin.
Qed.

Lemma split_covers (sep c : char) (s : str) :
  In c s -> c <> sep -> exists f, In f (split sep s) /\ In c f.
Proof.
  intros Hin Hc. induction s as [|x s IH]; [destruct Hin|].
  cbn [split]. destruct (x =? sep)%N eqn:E.
  - apply N.eqb_eq in E. subst x. destruct Hin as [->|Hin]; [congruence|].
    destruct (IH Hin) as [f [F1 F2]]. exists f. split; [now right|exact F2].
  - pose proof (split_nonempty sep s) as Ne.
    destruct (split sep s) as [|h t]; [congruence|].
    destruct Hin as [->|Hin].
    + exists (c :: h). split; now left.
    + destruct (IH Hin) as [f [[<-|F1] F2]].
      * exists (x :: h). split; [now left|now right].
      * exists f. split; [now right|exact F2].
Qed.

Lemma nonneg_int_field_spec (f : str) :
  nonneg_int_field f = true ->
  exists z, int_of_str f = Some z /\ (0 <= z)%Z.
Proof.
  unfold nonneg_int_field. destruct (int_of_str f) as [z|]; [|discriminate].
  intros H. apply Z.leb_le in H. eauto.
Qed.

(** What the specification calls well formed, the code reads the same
    way. *)
Lemma spec_well_formed_fields (s : str) :
  spec_well_formed s = true ->
  exists hh mm ss millis,
    fields_of s = Some (hh, mm, ss, millis)
    /\ (0 <= hh)%Z /\ (0 <= mm)%Z /\ (0 <= ss)%Z /\ (0 <= millis)%Z.
Proof.
  unfold spec_well_formed.
  destruct (split_last_period s) as [[hms ms]|] eqn:E; [|discriminate].
  destruct (split_last_period_spec s hms ms E) as [-> Hms].
  intros H. cbv zeta in H. apply andb_true_iff in H. destruct H as [H Hm].
  apply andb_true_iff in H. destruct H as [Hl Hf].
  assert (Hh : ~ In PERIOD hms).
  { intros Hin. destruct (split_covers COLON PERIOD hms Hin ltac:(discriminate))
      as [f [F1 F2]].
    rewrite forallb_forall in Hf. apply Hf in F1.
    destruct (nonneg_int_field_spec f F1) as [z [Hz _]].
    exact (int_of_str_no_period f z Hz F2). }
  destruct (nonneg_int_field_spec ms Hm) as [millis [Im Pm]].
  unfold fields_of. rewrite (split_app PERIOD hms ms Hh).
  rewrite (split_no_sep PERIOD ms Hms).
  destruct (split COLON hms) as [|a [|b [|c [|y tl]]]]; try discriminate Hl.
  - cbn [forallb] in Hf. apply andb_true_iff in Hf. destruct Hf as [Ha Hf].
    apply andb_true_iff in Hf. destruct Hf as [Hb _].
    destruct (nonneg_int_field_spec a Ha) as [mm [Ia Pa]].
    destruct (nonneg_int_field_spec b Hb) as [ss [Ib Pb]].
    rewrite Ia, Ib, Im. exists 0%Z, mm, ss, millis.
    repeat split; try assumption; lia.
  - cbn [forallb] in Hf. apply andb_true_iff in Hf. destruct Hf as [Ha Hf].
    apply andb_true_iff in Hf. destruct Hf as [Hb Hf].
    apply andb_true_iff in Hf. destruct Hf as [Hc _].
    destruct (nonneg_int_field_spec a Ha) as [hh [Ia Pa]].
    destruct (nonneg_int_field_spec b Hb) as [mm [Ib Pb]].
    destruct (nonneg_int_field_spec c Hc) as [ss [Ic Pc]].
    rewrite Ia, Ib, Ic, Im. exists hh, mm, ss, millis.
    repeat split; assumption.
Qed.

(** ** The examples of the specification *)

Example shift_forward :
  shift_line (py "00:00:05.000 --> 00:00:07.500")
    (@mk_timedelta 1378000000 eq_refl)
  = Ok (py "00:23:03.000 --> 00:23:05.500" ++ [LF]).
Proof. vm_compute. reflexivity. Qed.

Example shift_backward_clamps :
  shift_line (py "00:00:05.000 --> 00:00:07.500")
    (@mk_timedelta (-600000000) eq_refl)
  = Ok (py "00:00:00.000 --> 00:00:00.000" ++ [LF]).
Proof. vm_compute. reflexivity. Qed.

Example settings_preserved :
  shift_line (py " 00:00:01.000 --> 00:00:02.000 align:start line:0")
    timedelta_zero
  = Ok (py " 00:00:01.000 --> 00:00:02.000 align:start line:0" ++ [LF]).
Proof. vm_compute. reflexivity. Qed.

Example short_form :
  parse_hhmmss_mmm (py "01:02.500") = parse_hhmmss_mmm (py "00:01:02.500")
  /\ parse_hhmmss_mmm (py "01:02.500") = Ok (@mk_timedelta 62500000 eq_refl).
Proof. split; vm_compute; reflexivity. Qed.

(** The digits of other scripts are digits for [\d] and for [int] alike:
    a line of Arabic-Indic digits is a timing line. *)
Example arabic_indic_digits :
  shift_line
    [1632; 1632; 58; 1632; 1633; 46; 1632; 1632; 1632; 45; 45; 62;
     1632; 1632; 58; 1632; 1634; 46; 1632; 1632; 1632]%N timedelta_zero
  = Ok (py "00:00:01.000 --> 00:00:02.000" ++ [LF]).
Proof. vm_compute. reflexivity. Qed.

(** Half-way cases go through the two roundings of the floats: 501.5
    milliseconds are printed as 501, where rounding the exact value to the
    even neighbour would give 502. *)
Example float_tie :
  total_ms (@mk_timedelta 501500 eq_refl) = 501%Z
  /\ total_ms (@mk_timedelta 502500 eq_refl) = 502%Z.
Proof. split; vm_compute; reflexivity. Qed.

(** * The claims of the specification *)

(** ** Lines that are not timing lines *)

(** C3.  A line that does not match the Timing Line pattern is returned
    unchanged, terminator included, whatever the shift. *)
Theorem shift_line_identity (line : str) (shift : timedelta) :
  ~ timing_line line -> shift_line line shift = Ok line.
Proof.
  intros H. apply shift_line_unmatched.
  destruct (time_match line) as [c|] eqn:M; [|reflexivity].
  elim H. apply time_re_matches. rewrite re_match_time_match, M. discriminate.
Qed.

Lemma not_timing_line (line : str) :
  time_match line = None -> ~ timing_line line.
Proof.
  intros M H. apply time_re_matches in H.
  rewrite re_match_time_match, M in H. now apply H.
Qed.

Lemma shift_line_identity_witness :
  shift_line (py "WEBVTT") timedelta_max = Ok (py "WEBVTT")
  /\ shift_line [LF] timedelta_max = Ok [LF]
  /\ shift_line (py "Hello world" ++ [LF]) timedelta_zero
     = Ok (py "Hello world" ++ [LF]).
Proof.
  split; [|split]; apply shift_line_identity; apply not_timing_line;
    vm_compute; reflexivity.
Defined.

(** ** The pattern *)

Lemma time_match_anchored (c : char) (line : str) :
  Py_UNICODE_ISSPACE c = false -> Py_UNICODE_ISDECIMAL c = false ->
  time_match (c :: line) = None.
Proof.
  intros Hs Hd. unfold time_match. cbn [drop_while]. rewrite Hs.
  now rewrite (stamp_length_head c line Hd).
Qed.

(** C4.  A line matches [TIME_RE] if and only if it consists of optional
    whitespace, a time stamp HH:MM:SS.mmm or MM:SS.mmm, optional whitespace,
    the arrow, optional whitespace, a second time stamp and any text up to
    the end of the line.  The match is anchored at the start: after a first
    code point that is neither whitespace nor a digit nothing matches,
    whatever follows. *)
Theorem time_re_timing_line (line : str) :
  (re_match TIME_RE line <> None <-> timing_line line)
  /\ (forall c,
        Py_UNICODE_ISSPACE c = false -> Py_UNICODE_ISDECIMAL c = false ->
        re_match TIME_RE (c :: line) = None).
Proof.
  split; [apply time_re_matches|].
  intros c Hs Hd. rewrite re_match_time_match.
  now rewrite (time_match_anchored c line Hs Hd).
Qed.

Lemma time_re_timing_line_witness :
  timing_line (py " 00:00:01.000 --> 00:00:02.000 align:start line:0")
  /\ re_match TIME_RE (py "x 00:00:01.000 --> 00:00:02.000") = None.
Proof.
  split.
  - apply (time_re_timing_line
             (py " 00:00:01.000 --> 00:00:02.000 align:start line:0")).
    vm_compute. discriminate.
  - apply (time_re_timing_line (py " 00:00:01.000 --> 00:00:02.000"));
      reflexivity.
Defined.

(** ** Printing *)

(** C6.  Every negative duration is printed as 00:00:00.000: its total of
    milliseconds, rounded, is not positive, and is replaced by zero when it
    is negative. *)
Theorem format_negative_is_zero (d : timedelta) :
  (td_us d < 0)%Z ->
  (total_ms d <= 0)%Z /\ format_hhmmss_mmm d = py "00:00:00.000".
Proof.
  intros H. rewrite total_ms_ms_of_us.
  pose proof (ms_of_us_neg (td_us d) H) as L. split; [exact L|].
  unfold format_hhmmss_mmm. rewrite total_ms_ms_of_us.
  destruct (ms_of_us (td_us d) <? 0)%Z eqn:E; [reflexivity|].
  apply Z.ltb_ge in E.
  assert (Z0 : ms_of_us (td_us d) = 0%Z) by lia.
  rewrite Z0. reflexivity.
Qed.

Lemma format_negative_is_zero_witness :
  format_hhmmss_mmm (@mk_timedelta (-1) eq_refl) = py "00:00:00.000"
  /\ format_hhmmss_mmm (@mk_timedelta (-86399999913600000000) eq_refl)
     = py "00:00:00.000".
Proof.
  split.
  - apply (format_negative_is_zero (@mk_timedelta (-1) eq_refl)). cbn. lia.
  - apply (format_negative_is_zero
             (@mk_timedelta (-86399999913600000000) eq_refl)). cbn. lia.
Defined.

(** ** The fractional field *)

(** C8.  In a time stamp whose fractional field has one to three digits,
    that field is the number of milliseconds as written, not scaled by its
    width: one more zero at its end is ten times as many milliseconds. *)
Theorem parse_fraction_literal (hms frac : str) :
  is_time_of_day hms = true -> all_decimal frac ->
  (1 <= length frac <= 3)%nat ->
  exists td,
    parse_hhmmss_mmm (hms ++ PERIOD :: frac) = Ok td
    /\ td_us td = (time_of_day_us hms + 1000 * decimal_value frac)%Z
    /\ ((length frac < 3)%nat ->
        exists td',
          parse_hhmmss_mmm (hms ++ PERIOD :: frac ++ [48%N]) = Ok td'
          /\ (td_us td' - time_of_day_us hms
              = 10 * (td_us td - time_of_day_us hms))%Z).
Proof.
  intros Hh Hf Hl.
  destruct (parse_fraction hms frac Hh Hf Hl) as [td [P U]].
  exists td. split; [exact P|]. split; [exact U|].
  intros Hs.
  assert (Hf' : all_decimal (frac ++ [48%N])).
  { apply all_decimal_app. split; [exact Hf|reflexivity]. }
  destruct (parse_fraction hms (frac ++ [48%N]) Hh Hf') as [td' [P' U']].
  { rewrite length_app. cbn [length]. lia. }
  exists td'. split; [exact P'|].
  rewrite U, U'. unfold decimal_value. rewrite fold_left_app.
  cbn [fold_left]. unfold decimal_step at 1.
  change (Py_UNICODE_TODECIMAL 48%N) with (Some 0%N). cbn [Z.of_N]. lia.
Qed.

Lemma parse_fraction_literal_witness :
  (exists td, parse_hhmmss_mmm (py "00:00:00.5") = Ok td
              /\ td_us td = 5000%Z)
  /\ (exists td, parse_hhmmss_mmm (py "00:00:00.500") = Ok td
                 /\ td_us td = 500000%Z).
Proof.
  split.
  - destruct (parse_fraction_literal (py "00:00:00") (py "5"))
      as [td [P [U _]]]; [reflexivity|reflexivity|cbn; lia|].
    exists td. split; [exact P|exact U].
  - destruct (parse_fraction_literal (py "00:00:00") (py "500"))
      as [td [P [U _]]]; [reflexivity|reflexivity|cbn; lia|].
    exists td. split; [exact P|exact U].
Defined.

(** ** Timing lines *)

(** C1 as the specification states it fails at the end of the range of
    durations: a matched line, and the addition of the shift raises. *)
Lemma shift_line_overflows :
  timing_line (py "00:00:01.000 --> 00:00:02.000" ++ [LF])
  /\ shift_line (py "00:00:01.000 --> 00:00:02.000" ++ [LF]) timedelta_max
     = Raise OverflowError.
Proof.
  split.
  - apply time_re_matches. vm_compute. discriminate.
  - vm_compute. reflexivity.
Qed.

(** C1, amended.  For a Timing Line and a shift that keeps both shifted
    time stamps inside the range of durations, [shift_line] returns the
    leading whitespace of the line, the shifted start printed, the arrow
    between single spaces, the shifted end printed, the rest of the line as
    it was, and a line feed; a shifted time stamp that is negative is
    replaced by zero before it is printed. *)
Theorem shift_line_reconstructs
  (line ws start sp1 sp2 end_ rest eol : str) (shift : timedelta) :
  decomposes line ws start sp1 sp2 end_ rest eol ->
  td_in_range (stamp_us start + td_us shift) = true ->
  td_in_range (stamp_us end_ + td_us shift) = true ->
  exists start_td end_td new_start new_end,
    parse_hhmmss_mmm start = Ok start_td
    /\ parse_hhmmss_mmm end_ = Ok end_td
    /\ td_add start_td shift = Ok new_start
    /\ td_add end_td shift = Ok new_end
    /\ shift_line line shift
       = Ok (ws ++ format_hhmmss_mmm (clamp new_start) ++ py " --> "
               ++ format_hhmmss_mmm (clamp new_end) ++ rest ++ [LF])
    /\ td_us (clamp new_start) = Z.max 0 (td_us start_td + td_us shift)
    /\ td_us (clamp new_end) = Z.max 0 (td_us end_td + td_us shift).
Proof.
  intros D R1 R2.
  pose proof (time_match_complete line ws start sp1 sp2 end_ rest eol D) as M.
  destruct (shifted_matched line _ shift M)
    as [t1 [t2 [P1 [P2 [U1 [U2 [_ [_ E]]]]]]]].
  cbn [c_start c_end] in P1, P2, U1, U2.
  rewrite <- U1 in R1. rewrite <- U2 in R2.
  destruct (td_add_cases t1 shift) as [[n1 [A1 [V1 _]]]|[_ F]];
    [|congruence].
  destruct (td_add_cases t2 shift) as [[n2 [A2 [V2 _]]]|[_ F]];
    [|congruence].
  exists t1, t2, n1, n2. repeat split; try assumption.
  - rewrite (shift_line_matched line shift _ M), E, A1, A2. reflexivity.
  - rewrite clamp_us. congruence.
  - rewrite clamp_us. congruence.
Qed.

Lemma settings_line_decomposes :
  decomposes (py " 00:00:01.000   -->00:00:02.000 align:start line:0" ++ [LF])
    (py " ") (py "00:00:01.000") (py "   ") [] (py "00:00:02.000")
    (py " align:start line:0") [LF].
Proof.
  unfold decomposes, all_space, end_of_line. repeat split; try reflexivity.
  - vm_compute. intuition discriminate.
  - now right.
Qed.

Lemma shift_line_reconstructs_witness :
  exists new_start new_end,
    shift_line (py " 00:00:01.000   -->00:00:02.000 align:start line:0" ++ [LF])
      (@mk_timedelta (-1500000) eq_refl)
    = Ok (py " " ++ format_hhmmss_mmm new_start ++ py " --> "
            ++ format_hhmmss_mmm new_end ++ py " align:start line:0" ++ [LF])
    /\ td_us new_start = 0%Z /\ td_us new_end = 500000%Z.
Proof.
  destruct (shift_line_reconstructs _ _ _ _ _ _ _ _
              (@mk_timedelta (-1500000) eq_refl) settings_line_decomposes
              eq_refl eq_refl)
    as [t1 [t2 [n1 [n2 [P1 [P2 [A1 [A2 [S [C1 C2]]]]]]]]]].
  exists (clamp n1), (clamp n2). split; [exact S|].
  assert (E1 : t1 = @mk_timedelta 1000000 eq_refl).
  { assert (Q : Ok t1 = Ok (@mk_timedelta 1000000 eq_refl))
      by (rewrite <- P1; vm_compute; reflexivity).
    now injection Q. }
  assert (E2 : t2 = @mk_timedelta 2000000 eq_refl).
  { assert (Q : Ok t2 = Ok (@mk_timedelta 2000000 eq_refl))
      by (rewrite <- P2; vm_compute; reflexivity).
    now injection Q. }
  rewrite C1, C2, E1, E2. split; reflexivity.
Defined.

(** C7 as the specification states it fails in its last part:
    [shift_line] is not total. *)
Lemma shift_line_not_total :
  re_match TIME_RE (py "00:00:00.001 --> 00:00:00.002") <> None
  /\ forall out,
       shift_line (py "00:00:00.001 --> 00:00:00.002") timedelta_max
       <> Ok out.
Proof.
  split.
  - vm_compute. discriminate.
  - intros out.
    assert (E : shift_line (py "00:00:00.001 --> 00:00:00.002") timedelta_max
                = Raise OverflowError) by (vm_compute; reflexivity).
    rewrite E. discriminate.
Qed.

(** C7, amended.  The two time stamps that [TIME_RE] captures always
    parse, so that [shift_line] never raises the error of the parser; it
    returns for every line and every shift that leaves room for the largest
    time stamp below the end of the range of durations, and the only
    exception it raises beyond is the [OverflowError] of the addition. *)
Theorem shift_line_total_in_range (line : str) (shift : timedelta) :
  (forall m,
     re_match TIME_RE line = Some m ->
     exists start_td end_td,
       parse_hhmmss_mmm (group m Gstart) = Ok start_td
       /\ parse_hhmmss_mmm (group m Gend) = Ok end_td)
  /\ (forall e, shift_line line shift = Raise e -> e = OverflowError)
  /\ (safe_shift shift -> exists out, shift_line line shift = Ok out).
Proof.
  split; [|split].
  - intros m. rewrite re_match_time_match.
    destruct (time_match line) as [c|] eqn:M; [|discriminate].
    intros [= <-].
    destruct (shifted_matched line c shift M) as [t1 [t2 [P1 [P2 _]]]].
    exists t1, t2. split; assumption.
  - apply shift_line_raises.
  - apply shift_line_returns.
Qed.

Lemma shift_line_total_in_range_witness :
  (exists start_td end_td,
     parse_hhmmss_mmm (py "99:99:99.999") = Ok start_td
     /\ parse_hhmmss_mmm (py "00:01.000") = Ok end_td)
  /\ exists out,
       shift_line (py "99:99:99.999 --> 00:01.000")
         (@mk_timedelta 86399999637559999999 eq_refl) = Ok out.
Proof.
  destruct (shift_line_total_in_range (py "99:99:99.999 --> 00:01.000")
              (@mk_timedelta 86399999637559999999 eq_refl)) as [H1 [_ H3]].
  split.
  - apply (H1 [(Grest, []); (Gend, py "00:01.000");
               (Gstart, py "99:99:99.999"); (G1, [])]).
    vm_compute. reflexivity.
  - apply H3. unfold safe_shift. cbn. lia.
Defined.

(** C9.  When the parsed start of a matched line is not after its parsed
    end, the shifted and clamped start is not after the shifted and clamped
    end. *)
Theorem shifted_order_preserved
  (line : str) (m : groups) (shift start_td end_td : timedelta) :
  re_match TIME_RE line = Some m ->
  parse_hhmmss_mmm (group m Gstart) = Ok start_td ->
  parse_hhmmss_mmm (group m Gend) = Ok end_td ->
  (td_us start_td <= td_us end_td)%Z ->
  (forall new_start new_end,
     shifted m shift = Ok (new_start, new_end) ->
     (td_us new_start <= td_us new_end)%Z)
  /\ (safe_shift shift -> exists new, shifted m shift = Ok new).
Proof.
  rewrite re_match_time_match.
  destruct (time_match line) as [c|] eqn:M; [|discriminate].
  intros [= <-] P1 P2 Hle.
  destruct (shifted_matched line c shift M)
    as [t1 [t2 [Q1 [Q2 [_ [_ [B1 [B2 E]]]]]]]].
  change (group (capture_groups c) Gstart) with (c_start c) in P1.
  change (group (capture_groups c) Gend) with (c_end c) in P2.
  assert (t1 = start_td) by congruence. assert (t2 = end_td) by congruence.
  subst t1 t2. rewrite E. split.
  - intros new_start new_end.
    destruct (td_add_cases start_td shift) as [[n1 [A1 [V1 _]]]|[A1 _]];
      rewrite A1; cbn [bind]; [|discriminate].
    destruct (td_add_cases end_td shift) as [[n2 [A2 [V2 _]]]|[A2 _]];
      rewrite A2; cbn [bind]; [|discriminate].
    intros [= <- <-]. rewrite !clamp_us. lia.
  - intros Hs.
    destruct (td_add_safe start_td shift B1 Hs) as [n1 [A1 _]].
    destruct (td_add_safe end_td shift B2 Hs) as [n2 [A2 _]].
    rewrite A1, A2. cbn [bind]. eauto.
Qed.

Lemma shifted_order_preserved_witness :
  exists new_start new_end,
    shifted [(Grest, []); (Gend, py "00:00:07.500");
             (Gstart, py "00:00:05.000"); (G1, [])]
      (@mk_timedelta (-6000000) eq_refl) = Ok (new_start, new_end)
    /\ (td_us new_start <= td_us new_end)%Z.
Proof.
  destruct (shifted_order_preserved (py "00:00:05.000 --> 00:00:07.500")
              [(Grest, []); (Gend, py "00:00:07.500");
               (Gstart, py "00:00:05.000"); (G1, [])]
              (@mk_timedelta (-6000000) eq_refl)
              (@mk_timedelta 5000000 eq_refl)
              (@mk_timedelta 7500000 eq_refl)) as [H1 H2].
  - vm_compute. reflexivity.
  - vm_compute. reflexivity.
  - vm_compute. reflexivity.
  - cbn. lia.
  - destruct H2 as [[n1 n2] E]; [unfold safe_shift; cbn; lia|].
    exists n1, n2. split; [exact E|]. now apply H1.
Defined.

(** ** The end of the line *)

Lemma format_ends_with_digit (t : timedelta) :
  exists body c,
    format_hhmmss_mmm t = body ++ [c] /\ Py_UNICODE_ISDECIMAL c = true.
Proof.
  rewrite format_as_ms. unfold format_ms. cbv zeta.
  set (F := Z.max 0 (total_ms t)).
  pose proof (Z.mod_pos_bound F 1000 ltac:(lia)) as Hm.
  destruct (format_0d_spec 3 (F mod 1000) ltac:(lia) ltac:(lia))
    as [D1 [D2 _]].
  destruct (exists_last D2) as [body [c E]]. rewrite E in *.
  apply all_decimal_app in D1. destruct D1 as [_ Dc].
  unfold all_decimal in Dc. cbn [forallb] in Dc.
  rewrite andb_true_r in Dc.
  eexists _, c. split; [|exact Dc].
  rewrite !app_assoc. reflexivity.
Qed.

(** The line [shift_line] builds ends with exactly one line feed. *)
Lemma rebuilt_line_ends (ws f1 rest : str) (t : timedelta) :
  ~ In LF rest ->
  ends_with_one_newline
    (ws ++ f1 ++ py " --> " ++ format_hhmmss_mmm t ++ rest ++ [LF]).
Proof.
  intros Hr.
  exists (ws ++ f1 ++ py " --> " ++ format_hhmmss_mmm t ++ rest).
  split; [now rewrite <- !app_assoc|].
  intros body' E.
  destruct (format_ends_with_digit t) as [fb [c [Ef Dc]]].
  destruct rest as [|r0 rest'] using rev_ind.
  - rewrite app_nil_r, Ef in E. rewrite !app_assoc in E.
    apply app_inj_tail in E. destruct E as [_ E]. subst c. discriminate Dc.
  - clear IHrest'. rewrite !app_assoc in E.
    apply app_inj_tail in E. destruct E as [_ E]. subst r0.
    apply Hr, in_or_app. right. now left.
Qed.

(** C10.  The rest that [TIME_RE] captures never contains the line feed,
    and the line [shift_line] returns for a matched line ends with exactly
    one line feed, also when the line came without one. *)
Theorem shift_line_one_newline (line : str) (m : groups) :
  re_match TIME_RE line = Some m ->
  ~ In LF (group m Grest)
  /\ (forall shift out,
        shift_line line shift = Ok out -> ends_with_one_newline out)
  /\ (forall shift,
        safe_shift shift ->
        exists out, shift_line line shift = Ok out
                    /\ ends_with_one_newline out).
Proof.
  rewrite re_match_time_match.
  destruct (time_match line) as [c|] eqn:M; [|discriminate].
  intros [= <-]. destruct (time_match_stamps line c M) as [_ [_ Hr]].
  change (group (capture_groups c) Grest) with (c_rest c).
  assert (G : forall shift out,
             shift_line line shift = Ok out -> ends_with_one_newline out).
  { intros shift out. rewrite (shift_line_matched line shift c M).
    destruct (shifted (capture_groups c) shift) as [[n1 n2]|e];
      cbn [bind]; [|discriminate].
    intros [= <-]. now apply rebuilt_line_ends. }
  split; [exact Hr|]. split; [exact G|].
  intros shift Hs. destruct (shift_line_returns line shift Hs) as [out E].
  exists out. split; [exact E|]. exact (G shift out E).
Qed.

Lemma shift_line_one_newline_witness :
  shift_line (py "00:00:05.000 --> 00:00:07.500") timedelta_zero
  = Ok (py "00:00:05.000 --> 00:00:07.500" ++ [LF])
  /\ ends_with_one_newline (py "00:00:05.000 --> 00:00:07.500" ++ [LF]).
Proof.
  assert (E : shift_line (py "00:00:05.000 --> 00:00:07.500") timedelta_zero
              = Ok (py "00:00:05.000 --> 00:00:07.500" ++ [LF]))
    by (vm_compute; reflexivity).
  split; [exact E|].
  destruct (shift_line_one_newline (py "00:00:05.000 --> 00:00:07.500")
              [(Grest, []); (Gend, py "00:00:07.500");
               (Gstart, py "00:00:05.000"); (G1, [])])
    as [_ [H _]]; [vm_compute; reflexivity|].
  exact (H timedelta_zero _ E).
Defined.

(** ** Printing and parsing again *)

(** C2 as the specification states it fails for very long durations: from
    2^51 milliseconds on the text is no longer the duration to the
    millisecond, and the text of the longest durations does not parse. *)
Lemma roundtrip_fails_for_long_durations :
  (exists t,
     parse_hhmmss_mmm
       (format_hhmmss_mmm (@mk_timedelta 4485038428874391000 eq_refl))
     = Ok t
     /\ td_us t = 4485038428874390000%Z)
  /\ format_hhmmss_mmm (@mk_timedelta 86399999999999999000 eq_refl)
     = py "24000000000:00:00.000"
  /\ parse_hhmmss_mmm
       (format_hhmmss_mmm (@mk_timedelta 86399999999999999000 eq_refl))
     = Raise (ValueError (invalid_time_format (py "24000000000:00:00.000"))).
Proof.
  split; [|split].
  - eexists. split; vm_compute; reflexivity.
  - vm_compute. reflexivity.
  - vm_compute. reflexivity.
Qed.

(** C2, amended.  For every duration of at most 2^51 - 1 milliseconds the
    text that is printed parses, and printing the result gives the same
    text again; the result is the number of milliseconds that was printed:
    the duration itself when it is a whole number of milliseconds that is
    not negative, and zero when it is negative. *)
Theorem format_parse_roundtrip (d : timedelta) :
  (td_us d <= 1000 * EXACT_MS)%Z ->
  exists t,
    parse_hhmmss_mmm (format_hhmmss_mmm d) = Ok t
    /\ format_hhmmss_mmm t = format_hhmmss_mmm d
    /\ td_us t = (1000 * Z.max 0 (total_ms d))%Z
    /\ ((0 <= td_us d)%Z -> (td_us d mod 1000 = 0)%Z -> t = d)
    /\ ((td_us d < 0)%Z -> t = timedelta_zero).
Proof.
  intros H. rewrite (format_as_ms d), (total_ms_ms_of_us d).
  pose proof (ms_of_us_upper (td_us d) H) as Hu.
  set (F := Z.max 0 (ms_of_us (td_us d))).
  assert (HF : (0 <= F <= EXACT_MS)%Z) by (unfold EXACT_MS in *; lia).
  destruct (parse_format_ms F HF) as [t [P U]].
  exists t. split; [exact P|]. split; [|split; [exact U|split]].
  - rewrite (format_as_ms t), (total_ms_ms_of_us t), U.
    rewrite (ms_of_us_exact F HF). f_equal. lia.
  - intros H0 Hm. apply timedelta_eq. rewrite U. subst F.
    pose proof (Z.div_mod (td_us d) 1000 ltac:(lia)) as E.
    rewrite Hm, Z.add_0_r in E.
    assert (B : (0 <= td_us d / 1000 <= EXACT_MS)%Z).
    { split; [apply Z.div_pos; lia|].
      apply Z.div_le_upper_bound; lia. }
    rewrite E at 1. rewrite (ms_of_us_exact (td_us d / 1000) B). lia.
  - intros Hn. apply timedelta_eq. rewrite U. subst F.
    pose proof (ms_of_us_neg (td_us d) Hn). cbn [td_us timedelta_zero]. lia.
Qed.

Lemma format_parse_roundtrip_witness :
  exists t,
    parse_hhmmss_mmm (format_hhmmss_mmm (@mk_timedelta 3723004000 eq_refl))
    = Ok t
    /\ format_hhmmss_mmm t
       = format_hhmmss_mmm (@mk_timedelta 3723004000 eq_refl)
    /\ t = @mk_timedelta 3723004000 eq_refl.
Proof.
  destruct (format_parse_roundtrip (@mk_timedelta 3723004000 eq_refl))
    as [t [P [Fm [_ [W _]]]]]; [cbn; lia|].
  exists t. split; [exact P|]. split; [exact Fm|].
  apply W; [cbn; lia|reflexivity].
Defined.

(** ** The errors of the parser *)

(** C5 as the specification states it fails in both directions: a field
    with a sign is not a non-negative integer and parses all the same, and
    fields that are non-negative integers do not parse when their total
    leaves the range of durations. *)
Lemma parse_accepts_sign_rejects_overflow :
  (spec_well_formed (py "-01:00:00.000") = false
   /\ exists t, parse_hhmmss_mmm (py "-01:00:00.000") = Ok t
                /\ td_us t = (-3600000000)%Z)
  /\ (spec_well_formed (py "24000000000:00:00.000") = true
      /\ parse_hhmmss_mmm (py "24000000000:00:00.000")
         = Raise (ValueError
                    (invalid_time_format (py "24000000000:00:00.000")))).
Proof.
  split; split.
  - vm_compute. reflexivity.
  - eexists. split; vm_compute; reflexivity.
  - vm_compute. reflexivity.
  - vm_compute. reflexivity.
Qed.

Lemma int_result_of (f : str) :
  int_result f = match int_of_str f with
                 | Some z => Ok z
                 | None => Raise (ValueError [])
                 end.
Proof. reflexivity. Qed.

(** The parser in terms of the fields it reads. *)
Lemma parse_by_fields (s : str) :
  match fields_of s with
  | Some f =>
      if td_in_range (fields_us f)
      then exists t, parse_hhmmss_mmm s = Ok t /\ td_us t = fields_us f
      else parse_hhmmss_mmm s = Raise (ValueError (invalid_time_format s))
  | None => parse_hhmmss_mmm s = Raise (ValueError (invalid_time_format s))
  end.
Proof.
  unfold fields_of, parse_hhmmss_mmm, parse_body.
  destruct (split PERIOD s) as [|hms [|ms [|x tl]]]; try reflexivity.
  assert (K : forall hh mm ss millis,
             if td_in_range (fields_us (hh, mm, ss, millis))
             then exists t,
                 match timedelta_hmsm hh mm ss millis with
                 | Ok td => Ok td
                 | Raise _ => Raise (ValueError (invalid_time_format s))
                 end = Ok t /\ td_us t = fields_us (hh, mm, ss, millis)
             else match timedelta_hmsm hh mm ss millis with
                  | Ok td => Ok td
                  | Raise _ => Raise (ValueError (invalid_time_format s))
                  end = Raise (ValueError (invalid_time_format s))).
  { intros hh mm ss millis. unfold timedelta_hmsm.
    change (hh * 3600000000 + mm * 60000000 + ss * 1000000 + millis * 1000)%Z
      with (fields_us (hh, mm, ss, millis)).
    destruct (new_delta_cases (fields_us (hh, mm, ss, millis)))
      as [[t [E [U R]]]|[E R]]; rewrite E, R; eauto. }
  destruct (split COLON hms) as [|a [|b [|c [|y tl]]]]; try reflexivity.
  - rewrite !int_result_of.
    destruct (int_of_str a) as [mm|]; [|reflexivity].
    destruct (int_of_str b) as [ss|]; [|reflexivity].
    destruct (int_of_str ms) as [millis|]; [|reflexivity].
    cbn [bind]. apply K.
  - rewrite !int_result_of.
    destruct (int_of_str a) as [hh|]; [|reflexivity].
    destruct (int_of_str b) as [mm|]; [|reflexivity].
    destruct (int_of_str c) as [ss|];
      [|destruct (int_of_str ms); reflexivity].
    destruct (int_of_str ms) as [millis|]; [|reflexivity].
    cbn [bind]. apply K.
Qed.


(** C5, amended.  The parser fails, always with the error that carries the
    text, exactly when the text does not consist of two parts around one
    period, or the first part does not split at the colons into 3 or 2
    fields, or [int] refuses a field, or the total leaves the range of
    durations; otherwise it returns hours x 3600 + minutes x 60 + seconds
    seconds plus the milliseconds.  [int] accepts a sign, so that a
    negative field is read as it is written.  In particular it succeeds
    for every text that the specification calls well formed (its last
    period splits it into 3 or 2 fields and a milliseconds field that all
    parse as non-negative integers) whose total is inside that range. *)
Theorem parse_fails_exactly (s : str) :
  match fields_of s with
  | Some f =>
      if td_in_range (fields_us f)
      then exists t, parse_hhmmss_mmm s = Ok t /\ td_us t = fields_us f
      else parse_hhmmss_mmm s = Raise (ValueError (invalid_time_format s))
  | None => parse_hhmmss_mmm s = Raise (ValueError (invalid_time_format s))
  end
  /\ (spec_well_formed s = true ->
      exists f,
        fields_of s = Some f
        /\ (td_in_range (fields_us f) = true ->
            exists t, parse_hhmmss_mmm s = Ok t /\ td_us t = fields_us f)).
Proof.
  split; [apply parse_by_fields|].
  intros W.
  destruct (spec_well_formed_fields s W) as [hh [mm [ss [millis [F _]]]]].
  exists (hh, mm, ss, millis). split; [exact F|].
  intros R. pose proof (parse_by_fields s) as P. rewrite F, R in P. exact P.
Qed.

Lemma parse_fails_exactly_witness :
  (exists t, parse_hhmmss_mmm (py "01:02.500") = Ok t
             /\ td_us t = 62500000%Z)
  /\ parse_hhmmss_mmm (py "00:00:01") 
     = Raise (ValueError (invalid_time_format (py "00:00:01")))
  /\ parse_hhmmss_mmm (py "1:00:00:01.000") 
     = Raise (ValueError (invalid_time_format (py "1:00:00:01.000")))
  /\ parse_hhmmss_mmm (py "00:0x:01.000") 
     = Raise (ValueError (invalid_time_format (py "00:0x:01.000"))).
Proof.
  split; [|split; [|split]].
  - destruct (parse_fails_exactly (py "01:02.500")) as [_ H].
    destruct (H eq_refl) as [f [F P]].
    assert (E : f = (0, 1, 2, 500)%Z)
      by (assert (Q : Some f = Some (0, 1, 2, 500)%Z)
            by (rewrite <- F; vm_compute; reflexivity);
          now injection Q).
    subst f. exact (P eq_refl).
  - exact (proj1 (parse_fails_exactly (py "00:00:01"))).
  - exact (proj1 (parse_fails_exactly (py "1:00:00:01.000"))).
  - exact (proj1 (parse_fails_exactly (py "00:0x:01.000"))).
Defined.

(** * Further properties of the code *)

(** ** The digits [format_hhmmss_mmm] prints *)

Lemma below_in_seq (n : Z) (k : nat) :
  (0 <= n < Z.of_nat k)%Z -> In (Z.to_nat n) (seq 0 k).
Proof. intros H. apply in_seq. lia. Qed.

Lemma format_0d_two (n : Z) :
  (0 <= n < 100)%Z ->
  format_0d 2 n = [digit_char (n / 10); digit_char (n mod 10)].
Proof.
  intros H.
  assert (T : forallb
                (fun k =>
                   if list_eq_dec N.eq_dec (format_0d 2 (Z.of_nat k))
                        [digit_char (Z.of_nat k / 10);
                         digit_char (Z.of_nat k mod 10)]
                   then true else false) (seq 0 100) = true)
    by (vm_compute; reflexivity).
  rewrite forallb_forall in T.
  specialize (T (Z.to_nat n) (below_in_seq n 100 ltac:(lia))).
  rewrite Z2Nat.id in T by lia.
  destruct (list_eq_dec N.eq_dec (format_0d 2 n)
              [digit_char (n / 10); digit_char (n mod 10)]) as [E|E];
    [exact E|discriminate].
Qed.

Lemma format_0d_three (n : Z) :
  (0 <= n < 1000)%Z ->
  format_0d 3 n
  = [digit_char (n / 100); digit_char (n / 10 mod 10); digit_char (n mod 10)].
Proof.
  intros H.
  assert (T : forallb
                (fun k =>
                   if list_eq_dec N.eq_dec (format_0d 3 (Z.of_nat k))
                        [digit_char (Z.of_nat k / 100);
                         digit_char (Z.of_nat k / 10 mod 10);
                         digit_char (Z.of_nat k mod 10)]
                   then true else false) (seq 0 1000) = true)
    by (vm_compute; reflexivity).
  rewrite forallb_forall in T.
  specialize (T (Z.to_nat n) (below_in_seq n 1000 ltac:(lia))).
  rewrite Z2Nat.id in T by lia.
  destruct (list_eq_dec N.eq_dec (format_0d 3 n)
              [digit_char (n / 100); digit_char (n / 10 mod 10);
               digit_char (n mod 10)]) as [E|E];
    [exact E|discriminate].
Qed.

Lemma digit_char_ascii (d : Z) :
  (0 <= d < 10)%Z -> is_ascii_digit (digit_char d) = true.
Proof.
  intros H. unfold is_ascii_digit, digit_char.
  apply andb_true_iff. split; apply N.leb_le; lia.
Qed.

Lemma digit_char_decimal (d : Z) :
  (0 <= d < 10)%Z -> Py_UNICODE_ISDECIMAL (digit_char d) = true.
Proof. apply isdecimal_digit. Qed.

Lemma digit_char_not_space (d : Z) :
  (0 <= d < 10)%Z -> Py_UNICODE_ISSPACE (digit_char d) = false.
Proof. intros H. apply decimal_not_space. now apply digit_char_decimal. Qed.

Lemma decimal_value_digits2 (a b : Z) :
  (0 <= a < 10)%Z -> (0 <= b < 10)%Z ->
  decimal_value [digit_char a; digit_char b] = (10 * a + b)%Z.
Proof.
  intros Ha Hb. unfold decimal_value, digit_char. cbn [fold_left].
  rewrite !decimal_step_digit by lia. lia.
Qed.

Lemma decimal_value_digits3 (a b c : Z) :
  (0 <= a < 10)%Z -> (0 <= b < 10)%Z -> (0 <= c < 10)%Z ->
  decimal_value [digit_char a; digit_char b; digit_char c]
  = (100 * a + 10 * b + c)%Z.
Proof.
  intros Ha Hb Hc. unfold decimal_value, digit_char. cbn [fold_left].
  rewrite !decimal_step_digit by lia. lia.
Qed.

Lemma ascii_digit_decimal (c : char) :
  is_ascii_digit c = true -> Py_UNICODE_ISDECIMAL c = true.
Proof.
  unfold is_ascii_digit. intros H. apply andb_true_iff in H.
  destruct H as [H1 H2]. apply N.leb_le in H1, H2.
  replace c with (48 + Z.to_N (Z.of_N c - 48))%N by lia.
  apply isdecimal_digit. lia.
Qed.

Lemma digits_fuel_ascii (fuel : nat) :
  forall (n : Z) (acc : str),
    (0 <= n)%Z -> forallb is_ascii_digit acc = true ->
    forallb is_ascii_digit (digits_fuel fuel n acc) = true.
Proof.
  induction fuel as [|fuel IH]; intros n acc Hn Ha; [exact Ha|].
  cbn [digits_fuel].
  pose proof (Z.mod_pos_bound n 10 ltac:(lia)) as Hm.
  assert (A : forallb is_ascii_digit ((48 + Z.to_N (n mod 10))%N :: acc)
              = true).
  { cbn [forallb]. rewrite Ha.
    change (48 + Z.to_N (n mod 10))%N with (digit_char (n mod 10)).
    now rewrite digit_char_ascii. }
  destruct (n <? 10)%Z; [exact A|].
  apply IH; [apply Z.div_pos; lia|exact A].
Qed.

(** A number that is not negative is printed in ASCII digits, at least as
    many as the width. *)
Lemma format_0d_ascii (w : nat) (z : Z) :
  (0 <= z)%Z ->
  forallb is_ascii_digit (format_0d w z) = true
  /\ (w <= length (format_0d w z))%nat.
Proof.
  intros Hz. unfold format_0d.
  assert (E : (z <? 0)%Z = false) by (apply Z.ltb_ge; lia). rewrite E.
  split.
  - rewrite forallb_app. apply andb_true_iff. split.
    + induction (w - length (digits z))%nat as [|k IH]; [reflexivity|].
      cbn [repeat forallb]. now rewrite IH.
    + unfold digits. now apply digits_fuel_ascii.
  - rewrite length_app, repeat_length. unfold str, char in *. lia.
Qed.

Lemma fold_decimal_bounds (s : str) :
  forall v,
    (0 <= v)%Z ->
    (0 <= fold_left decimal_step s v < (v + 1) * 10 ^ Z.of_nat (length s))%Z.
Proof.
  induction s as [|c s IH]; intros v Hv.
  - cbn. lia.
  - cbn [fold_left length].
    pose proof (decimal_step_bounds v c Hv) as B.
    destruct (IH (decimal_step v c) ltac:(lia)) as [L U].
    split; [exact L|].
    rewrite Nat2Z.inj_succ, Z.pow_succ_r by lia.
    assert (P : (0 < 10 ^ Z.of_nat (length s))%Z)
      by (apply Z.pow_pos_nonneg; lia).
    nia.
Qed.

(** From 100 on a number takes at least three digits. *)
Lemma format_0d_long (z : Z) :
  (100 <= z < 2 ^ 64)%Z ->
  exists a b c tl,
    format_0d 2 z = a :: b :: c :: tl
    /\ forallb is_ascii_digit (a :: b :: c :: tl) = true.
Proof.
  intros Hz.
  destruct (format_0d_spec 2 z ltac:(lia) ltac:(lia)) as [_ [_ [_ V]]].
  destruct (format_0d_ascii 2 z ltac:(lia)) as [A _].
  pose proof (fold_decimal_bounds (format_0d 2 z) 0 ltac:(lia)) as B.
  fold (decimal_value (format_0d 2 z)) in B. rewrite V in B.
  destruct (format_0d 2 z) as [|a [|b [|c tl]]].
  - cbn in B. lia.
  - cbn in B. lia.
  - cbn in B. lia.
  - exists a, b, c, tl. split; [reflexivity|exact A].
Qed.

Section MsRange.
Local Open Scope Q_scope.

(** The total of milliseconds of any duration stays below 10^17. *)
Lemma ms_of_us_below (u : Z) :
  td_in_range u = true -> (ms_of_us u < 100000000000000000)%Z.
Proof.
  intros R. apply td_in_range_iff in R.
  destruct (Z_lt_le_dec u 1) as [N|P].
  - destruct (Z.eq_dec u 0) as [->|Hz]; [rewrite ms_of_us_zero; lia|].
    pose proof (ms_of_us_neg u ltac:(lia)). lia.
  - unfold ms_of_us, py_round.
    destruct (ms_float_pos u ltac:(lia)) as [_ B]. cbv zeta in B.
    set (y := float_mul (int_true_divide u 1000000) 1000) in *.
    destruct (rne_bounds y) as [_ Ry].
    assert (U : inject_Z u <= inject_Z 86399999999999999999)
      by (rewrite <- Zle_Qle; lia).
    change (inject_Z 86399999999999999999) with (86399999999999999999 # 1)
      in U.
    assert (P0 : 0 < inject_Z u)
      by (change 0 with (inject_Z 0); rewrite <- Zlt_Qlt; lia).
    assert (L : inject_Z (rne y) < inject_Z 100000000000000000).
    { change (inject_Z 100000000000000000) with (100000000000000000 # 1).
      unfold half_ulp in *. lra. }
    rewrite <- Zlt_Qlt in L. exact L.
Qed.
End MsRange.

Lemma total_ms_below (t : timedelta) :
  (total_ms t < 100000000000000000)%Z.
Proof. rewrite total_ms_ms_of_us. apply ms_of_us_below, td_ok. Qed.

(** The text for a total of milliseconds: the hours, then ten code points
    that are fixed by the minutes, seconds and milliseconds. *)
Lemma format_ms_parts (F : Z) :
  (0 <= F)%Z ->
  format_ms F
  = format_0d 2 (F / 1000 / 60 / 60)
      ++ [COLON; digit_char (F / 1000 / 60 mod 60 / 10);
          digit_char (F / 1000 / 60 mod 60 mod 10);
          COLON; digit_char (F / 1000 mod 60 / 10);
          digit_char (F / 1000 mod 60 mod 10);
          PERIOD; digit_char (F mod 1000 / 100);
          digit_char (F mod 1000 / 10 mod 10);
          digit_char (F mod 1000 mod 10)].
Proof.
  intros HF. unfold format_ms. cbv zeta.
  pose proof (Z.mod_pos_bound (F / 1000 / 60) 60 ltac:(lia)) as H2.
  pose proof (Z.mod_pos_bound (F / 1000) 60 ltac:(lia)) as H3.
  pose proof (Z.mod_pos_bound F 1000 ltac:(lia)) as H4.
  rewrite (format_0d_two (F / 1000 / 60 mod 60)) by lia.
  rewrite (format_0d_two (F / 1000 mod 60)) by lia.
  rewrite (format_0d_three (F mod 1000)) by lia.
  reflexivity.
Qed.

Lemma two_digits (n : Z) :
  (0 <= n < 100)%Z -> (0 <= n / 10 < 10)%Z /\ (0 <= n mod 10 < 10)%Z.
Proof.
  intros H. split; [|apply Z.mod_pos_bound; lia].
  split; [apply Z.div_pos; lia|apply Z.div_lt_upper_bound; lia].
Qed.

Lemma three_digits (n : Z) :
  (0 <= n < 1000)%Z ->
  (0 <= n / 100 < 10)%Z /\ (0 <= n / 10 mod 10 < 10)%Z
  /\ (0 <= n mod 10 < 10)%Z.
Proof.
  intros H. repeat split; try (apply Z.mod_pos_bound; lia).
  - apply Z.div_pos; lia.
  - apply Z.div_lt_upper_bound; lia.
Qed.

Lemma two_digits_value (n : Z) : (10 * (n / 10) + n mod 10 = n)%Z.
Proof. pose proof (Z.div_mod n 10 ltac:(lia)). lia. Qed.

Lemma three_digits_value (n : Z) :
  (100 * (n / 100) + 10 * (n / 10 mod 10) + n mod 10 = n)%Z.
Proof.
  pose proof (Z.div_mod n 10 ltac:(lia)).
  pose proof (Z.div_mod (n / 10) 10 ltac:(lia)).
  assert (E : (n / 10 / 10 = n / 100)%Z)
    by (rewrite Z.div_div by lia; reflexivity).
  lia.
Qed.

(** The parts of the text for a total of milliseconds. *)
Lemma format_ms_shape (F : Z) :
  (0 <= F < 100000000000000000)%Z ->
  exists hours m1 m2 s1 s2 f1 f2 f3,
    format_ms F
    = hours ++ [COLON; m1; m2; COLON; s1; s2; PERIOD; f1; f2; f3]
    /\ (2 <= length hours)%nat
    /\ forallb is_ascii_digit (hours ++ [m1; m2; s1; s2; f1; f2; f3]) = true
    /\ (decimal_value [m1; m2] < 60)%Z
    /\ (decimal_value [s1; s2] < 60)%Z
    /\ (decimal_value hours * 3600000 + decimal_value [m1; m2] * 60000
        + decimal_value [s1; s2] * 1000 + decimal_value [f1; f2; f3]
        = F)%Z.
Proof.
  intros HF. rewrite (format_ms_parts F) by lia.
  pose proof (Z.mod_pos_bound (F / 1000 / 60) 60 ltac:(lia)) as H2.
  pose proof (Z.mod_pos_bound (F / 1000) 60 ltac:(lia)) as H3.
  pose proof (Z.mod_pos_bound F 1000 ltac:(lia)) as H4.
  assert (H1 : (0 <= F / 1000 / 60 / 60 < 2 ^ 64)%Z).
  { split; [repeat apply Z.div_pos; lia|].
    repeat (apply Z.div_lt_upper_bound; [lia|]). lia. }
  destruct (format_0d_spec 2 (F / 1000 / 60 / 60) H1 ltac:(lia))
    as [_ [_ [_ V]]].
  destruct (format_0d_ascii 2 (F / 1000 / 60 / 60) ltac:(lia)) as [A L].
  destruct (two_digits (F / 1000 / 60 mod 60) ltac:(lia)) as [M1 M2].
  destruct (two_digits (F / 1000 mod 60) ltac:(lia)) as [S1 S2].
  destruct (three_digits (F mod 1000) ltac:(lia)) as [F1 [F2 F3]].
  eexists _, _, _, _, _, _, _, _. split; [reflexivity|].
  split; [exact L|]. split; [|split; [|split]].
  - rewrite forallb_app, A. cbn [forallb andb].
    rewrite !digit_char_ascii by assumption. reflexivity.
  - rewrite decimal_value_digits2 by assumption.
    rewrite two_digits_value. lia.
  - rewrite decimal_value_digits2 by assumption.
    rewrite two_digits_value. lia.
  - rewrite V, !decimal_value_digits2, decimal_value_digits3 by assumption.
    rewrite !two_digits_value, three_digits_value.
    pose proof (format_ms_value F). lia.
Qed.

(** X1.  Whatever the duration, [format_hhmmss_mmm] prints hours of at
    least two digits, a colon, two digits of minutes below 60, a colon, two
    digits of seconds below 60, a period and three digits of milliseconds,
    all ASCII digits, and together they are the total of milliseconds of
    the duration, or zero when that is negative. *)
Theorem format_shape (t : timedelta) :
  exists hours m1 m2 s1 s2 f1 f2 f3,
    format_hhmmss_mmm t
    = hours ++ [COLON; m1; m2; COLON; s1; s2; PERIOD; f1; f2; f3]
    /\ (2 <= length hours)%nat
    /\ forallb is_ascii_digit (hours ++ [m1; m2; s1; s2; f1; f2; f3]) = true
    /\ (decimal_value [m1; m2] < 60)%Z
    /\ (decimal_value [s1; s2] < 60)%Z
    /\ (decimal_value hours * 3600000 + decimal_value [m1; m2] * 60000
        + decimal_value [s1; s2] * 1000 + decimal_value [f1; f2; f3]
        = Z.max 0 (total_ms t))%Z.
Proof.
  rewrite format_as_ms. pose proof (total_ms_below t) as B.
  apply format_ms_shape. lia.
Qed.

(** ** Below and above 100 hours *)

Lemma hms_of_total (hh mm ss ms : Z) :
  (0 <= hh)%Z -> (0 <= mm < 60)%Z -> (0 <= ss < 60)%Z -> (0 <= ms < 1000)%Z ->
  let M := (hh * 3600000 + mm * 60000 + ss * 1000 + ms)%Z in
  (M mod 1000 = ms /\ M / 1000 mod 60 = ss /\ M / 1000 / 60 mod 60 = mm
   /\ M / 1000 / 60 / 60 = hh)%Z.
Proof.
  intros Hh Hm Hs Hms. cbv zeta.
  set (M := (hh * 3600000 + mm * 60000 + ss * 1000 + ms)%Z).
  assert (E1 : (M / 1000 = hh * 3600 + mm * 60 + ss)%Z).
  { symmetry. apply (Z.div_unique M 1000 _ ms); [lia|]. unfold M. lia. }
  assert (E2 : (M / 1000 / 60 = hh * 60 + mm)%Z).
  { rewrite E1. symmetry.
    apply (Z.div_unique _ 60 _ ss); [lia|]. lia. }
  assert (E3 : (M / 1000 / 60 / 60 = hh)%Z).
  { rewrite E2. symmetry. apply (Z.div_unique _ 60 _ mm); [lia|]. lia. }
  repeat split.
  - symmetry. apply (Z.mod_unique M 1000 (hh * 3600 + mm * 60 + ss));
      [lia|]. unfold M. lia.
  - rewrite E1. symmetry. apply (Z.mod_unique _ 60 (hh * 60 + mm)); lia.
  - rewrite E2. symmetry. apply (Z.mod_unique _ 60 hh); lia.
  - exact E3.
Qed.

Lemma digits_of_two (a b : Z) :
  (0 <= a < 10)%Z -> (0 <= b < 10)%Z ->
  ((10 * a + b) / 10 = a /\ (10 * a + b) mod 10 = b)%Z.
Proof.
  intros Ha Hb. split.
  - symmetry. apply (Z.div_unique _ 10 _ b); lia.
  - symmetry. apply (Z.mod_unique _ 10 a); lia.
Qed.

Lemma digits_of_three (a b c : Z) :
  (0 <= a < 10)%Z -> (0 <= b < 10)%Z -> (0 <= c < 10)%Z ->
  ((100 * a + 10 * b + c) / 100 = a
   /\ (100 * a + 10 * b + c) / 10 mod 10 = b
   /\ (100 * a + 10 * b + c) mod 10 = c)%Z.
Proof.
  intros Ha Hb Hc.
  assert (E : ((100 * a + 10 * b + c) / 10 = 10 * a + b)%Z).
  { symmetry. apply (Z.div_unique _ 10 _ c); lia. }
  repeat split.
  - symmetry. apply (Z.div_unique _ 100 _ (10 * b + c)); lia.
  - rewrite E. symmetry. apply (Z.mod_unique _ 10 a); lia.
  - symmetry. apply (Z.mod_unique _ 10 (10 * a + b)); lia.
Qed.

(** The text of a canonical time stamp, digit by digit. *)
Lemma canonical_digits (s : str) :
  canonical_stamp s = true ->
  exists a b c d e f g h i,
    s = [digit_char a; digit_char b; COLON; digit_char c; digit_char d;
         COLON; digit_char e; digit_char f; PERIOD; digit_char g;
         digit_char h; digit_char i]
    /\ (0 <= a < 10 /\ 0 <= b < 10 /\ 0 <= c < 10 /\ 0 <= d < 10
        /\ 0 <= e < 10 /\ 0 <= f < 10 /\ 0 <= g < 10 /\ 0 <= h < 10
        /\ 0 <= i < 10)%Z
    /\ (10 * c + d < 60)%Z /\ (10 * e + f < 60)%Z.
Proof.
  destruct s as [|a [|b [|c1 [|c [|d [|c2 [|e [|f [|p [|g [|h [|i [|x s]]]]]]]]]]]]];
    try discriminate.
  cbn [canonical_stamp forallb]. intros H.
  repeat match goal with
    | Ha : (_ && _) = true |- _ =>
        apply andb_true_iff in Ha; destruct Ha as [? ?]
    end.
  eqb_subst.
  assert (A : forall x, is_ascii_digit x = true ->
                        x = digit_char (Z.of_N x - 48)
                        /\ (0 <= Z.of_N x - 48 < 10)%Z).
  { intros x Hx. unfold is_ascii_digit in Hx. apply andb_true_iff in Hx.
    destruct Hx as [Lo Hi]. apply N.leb_le in Lo, Hi.
    unfold digit_char. split; lia. }
  repeat match goal with
    | Hd : is_ascii_digit ?x = true |- _ =>
        let E := fresh "E" in let B := fresh "B" in
        destruct (A x Hd) as [E B]; clear Hd;
        generalize dependent (Z.of_N x - 48)%Z; intros; subst x
    end.
  clear A.
  repeat match goal with
    | Hv : (decimal_value _ <? 60)%Z = true |- _ =>
        apply Z.ltb_lt in Hv; rewrite decimal_value_digits2 in Hv by assumption
    end.
  eexists _, _, _, _, _, _, _, _, _. split; [reflexivity|].
  repeat split; try lia.
Qed.

Lemma canonical_is_long (s : str) :
  canonical_stamp s = true -> long_stamp s = true.
Proof.
  intros H. destruct (canonical_digits s H)
    as [a [b [c [d [e [f [g [h [i [-> [B _]]]]]]]]]]].
  cbn [long_stamp]. rewrite !N.eqb_refl.
  rewrite !digit_char_decimal by lia. reflexivity.
Qed.

(** Below 100 hours the text is a canonical time stamp that denotes the
    total. *)
Lemma format_ms_canonical (F : Z) :
  (0 <= F < HUNDRED_HOURS_MS)%Z ->
  canonical_stamp (format_ms F) = true
  /\ stamp_us (format_ms F) = (1000 * F)%Z.
Proof.
  unfold HUNDRED_HOURS_MS. intros HF. rewrite (format_ms_parts F) by lia.
  pose proof (Z.mod_pos_bound (F / 1000 / 60) 60 ltac:(lia)) as H2.
  pose proof (Z.mod_pos_bound (F / 1000) 60 ltac:(lia)) as H3.
  pose proof (Z.mod_pos_bound F 1000 ltac:(lia)) as H4.
  assert (H1 : (0 <= F / 1000 / 60 / 60 < 100)%Z).
  { split; [repeat apply Z.div_pos; lia|].
    repeat (apply Z.div_lt_upper_bound; [lia|]). lia. }
  rewrite (format_0d_two _ H1).
  destruct (two_digits _ H1) as [A1 A2].
  destruct (two_digits (F / 1000 / 60 mod 60) ltac:(lia)) as [M1 M2].
  destruct (two_digits (F / 1000 mod 60) ltac:(lia)) as [S1 S2].
  destruct (three_digits (F mod 1000) ltac:(lia)) as [F1 [F2 F3]].
  cbn [app]. split.
  - cbn [canonical_stamp forallb]. rewrite !N.eqb_refl.
    rewrite !digit_char_ascii by assumption.
    rewrite !decimal_value_digits2 by assumption.
    rewrite !two_digits_value. cbn [andb].
    apply andb_true_iff. split; apply Z.ltb_lt; lia.
  - cbn [stamp_us].
    rewrite !decimal_value_digits2, decimal_value_digits3 by assumption.
    rewrite !two_digits_value, three_digits_value.
    pose proof (format_ms_value F). lia.
Qed.

Lemma short_stamp_third (a b c : char) (s : str) :
  short_stamp (firstn 9 (a :: b :: c :: s)) = true -> c = COLON.
Proof.
  destruct s as [|x1 [|x2 [|x3 [|x4 [|x5 [|x6 s]]]]]]; try discriminate.
  cbn [firstn short_stamp]. intros H.
  repeat (apply andb_true_iff in H;
          let H' := fresh "T" in destruct H as [H H']).
  eqb_subst. reflexivity.
Qed.

(** From 100 hours on the text does not start with a time stamp of
    [TIME_RE]: its third code point is a digit. *)
Lemma format_ms_no_stamp (F : Z) (s : str) :
  (HUNDRED_HOURS_MS <= F < 100000000000000000)%Z ->
  stamp_length (format_ms F ++ s) = None
  /\ stops Py_UNICODE_ISSPACE (format_ms F ++ s).
Proof.
  unfold HUNDRED_HOURS_MS. intros HF. rewrite (format_ms_parts F) by lia.
  assert (H1 : (100 <= F / 1000 / 60 / 60 < 2 ^ 64)%Z).
  { split.
    - repeat (apply Z.div_le_lower_bound; [lia|]). lia.
    - repeat (apply Z.div_lt_upper_bound; [lia|]). lia. }
  destruct (format_0d_long _ H1) as [a [b [c [tl [E A]]]]].
  rewrite E. cbn [app]. cbn [forallb] in A.
  apply andb_true_iff in A. destruct A as [Aa A].
  apply andb_true_iff in A. destruct A as [Ab A].
  apply andb_true_iff in A. destruct A as [Ac _].
  apply ascii_digit_decimal in Aa, Ab, Ac.
  split.
  - unfold stamp_length. rewrite long_stamp_split. cbn [hours_prefix].
    assert (Ec : (c =? COLON)%N = false).
    { apply N.eqb_neq. now apply decimal_not_colon. }
    rewrite Ec, !andb_false_r. cbn [andb].
    destruct (short_stamp (firstn 9 (a :: b :: c :: _))) eqn:S9;
      [|reflexivity].
    apply short_stamp_third in S9. apply N.eqb_neq in Ec. congruence.
  - cbn [stops]. now apply decimal_not_space.
Qed.

(** ** Parsing and printing again *)

Lemma format_whole_ms (t : timedelta) (M : Z) :
  td_us t = (1000 * M)%Z -> (0 <= M <= EXACT_MS)%Z ->
  total_ms t = M /\ format_hhmmss_mmm t = format_ms M.
Proof.
  intros U HM.
  assert (E : total_ms t = M)
    by (rewrite total_ms_ms_of_us, U; now apply ms_of_us_exact).
  split; [exact E|]. rewrite format_as_ms, E. f_equal. lia.
Qed.

(** Printing the duration a canonical time stamp denotes gives the time
    stamp. *)
Lemma format_of_canonical (s : str) (t : timedelta) :
  canonical_stamp s = true -> td_us t = stamp_us s ->
  format_hhmmss_mmm t = s.
Proof.
  intros H U.
  destruct (canonical_digits s H)
    as [a [b [c [d [e [f [g [h [i [-> [B [Hm Hs]]]]]]]]]]]].
  destruct B as [Ba [Bb [Bc [Bd [Be [Bf [Bg [Bh Bi]]]]]]]].
  cbn [stamp_us] in U.
  rewrite !decimal_value_digits2, decimal_value_digits3 in U by assumption.
  set (hh := (10 * a + b)%Z) in *. set (mm := (10 * c + d)%Z) in *.
  set (ss := (10 * e + f)%Z) in *.
  set (ms := (100 * g + 10 * h + i)%Z) in *.
  destruct (format_whole_ms t (hh * 3600000 + mm * 60000 + ss * 1000 + ms))
    as [_ Fm]; [lia|unfold EXACT_MS; lia|].
  rewrite Fm, format_ms_parts by lia.
  destruct (hms_of_total hh mm ss ms) as [E1 [E2 [E3 E4]]]; try lia.
  rewrite E1, E2, E3, E4. rewrite (format_0d_two hh) by lia.
  unfold hh, mm, ss, ms.
  destruct (digits_of_two a b Ba Bb) as [-> ->].
  destruct (digits_of_two c d Bc Bd) as [-> ->].
  destruct (digits_of_two e f Be Bf) as [-> ->].
  destruct (digits_of_three g h i Bg Bh Bi) as [-> [-> ->]].
  reflexivity.
Qed.

(** X2.  A canonical time stamp (HH:MM:SS.mmm in ASCII digits, minutes and
    seconds below 60) parses, and printing the result gives the same text
    again. *)
Theorem parse_format_canonical (s : str) :
  canonical_stamp s = true ->
  exists t,
    parse_hhmmss_mmm s = Ok t /\ td_us t = stamp_us s
    /\ format_hhmmss_mmm t = s.
Proof.
  intros H. pose proof (canonical_is_long s H) as L.
  destruct (parse_stamp s) as [t [P [U _]]];
    [unfold is_timestamp; now rewrite L|].
  exists t. split; [exact P|]. split; [exact U|].
  exact (format_of_canonical s t H U).
Qed.

Lemma parse_format_canonical_witness :
  exists t,
    parse_hhmmss_mmm (py "12:34:56.789") = Ok t
    /\ format_hhmmss_mmm t = py "12:34:56.789".
Proof.
  destruct (parse_format_canonical (py "12:34:56.789")) as [t [P [_ F]]];
    [reflexivity|].
  exists t. split; [exact P|exact F].
Defined.

(** ** The line [shift_line] builds, matched again *)

Lemma canonical_is_timestamp (s : str) :
  canonical_stamp s = true -> is_timestamp s = true.
Proof.
  intros H. unfold is_timestamp. now rewrite (canonical_is_long s H).
Qed.

Lemma rebuilt_time_match (ws A B rest : str) :
  all_space ws -> ~ In LF rest ->
  is_timestamp A = true -> is_timestamp B = true ->
  time_match (ws ++ A ++ py " --> " ++ B ++ rest ++ [LF])
  = Some (mk_capture ws A B rest).
Proof.
  intros Hw Hr HA HB.
  apply (time_match_complete _ ws A [32%N] [32%N] B rest [LF]).
  unfold decomposes. repeat split; try assumption; try reflexivity.
  now right.
Qed.

Lemma rebuilt_no_first (ws X : str) :
  all_space ws -> stamp_length X = None -> stops Py_UNICODE_ISSPACE X ->
  time_match (ws ++ X) = None.
Proof.
  intros Hw HX St. unfold time_match.
  rewrite (drop_while_app _ ws X Hw St). now rewrite HX.
Qed.

Lemma rebuilt_no_second (ws A Y : str) :
  all_space ws -> is_timestamp A = true ->
  stamp_length Y = None -> stops Py_UNICODE_ISSPACE Y ->
  time_match (ws ++ A ++ py " --> " ++ Y) = None.
Proof.
  intros Hw HA HY St. unfold time_match.
  rewrite (drop_while_app _ ws _ Hw (timestamp_stops A _ HA)).
  rewrite (stamp_length_app A _ HA).
  rewrite skipn_app, Nat.sub_diag, skipn_all. cbn [skipn app].
  rewrite (drop_while_app _ [32%N] (HYPHEN :: HYPHEN :: GT :: 32%N :: Y));
    [|reflexivity|reflexivity].
  rewrite !N.eqb_refl. cbn [andb].
  rewrite (drop_while_app _ [32%N] Y);
    [|reflexivity|exact St].
  now rewrite HY.
Qed.

(** The text printed for a duration, below and from 100 hours. *)
Lemma format_cases (t : timedelta) :
  ((total_ms t < HUNDRED_HOURS_MS)%Z ->
   canonical_stamp (format_hhmmss_mmm t) = true
   /\ stamp_us (format_hhmmss_mmm t) = (1000 * Z.max 0 (total_ms t))%Z)
  /\ ((HUNDRED_HOURS_MS <= total_ms t)%Z ->
      forall s,
        stamp_length (format_hhmmss_mmm t ++ s) = None
        /\ stops Py_UNICODE_ISSPACE (format_hhmmss_mmm t ++ s)).
Proof.
  rewrite format_as_ms. pose proof (total_ms_below t) as B.
  unfold HUNDRED_HOURS_MS. split.
  - intros H. apply format_ms_canonical. unfold HUNDRED_HOURS_MS. lia.
  - intros H s. apply format_ms_no_stamp. unfold HUNDRED_HOURS_MS. lia.
Qed.

Lemma capture_parts (line : str) (c : capture) :
  time_match line = Some c -> all_space (c_ws c) /\ ~ In LF (c_rest c).
Proof.
  intros H. destruct (time_match_sound line c H) as [sp1 [sp2 [eol D]]].
  unfold decomposes in D. tauto.
Qed.

(** Whether the line built from two printed durations matches again. *)
Lemma rebuilt_cases (ws rest : str) (n1 n2 : timedelta) :
  all_space ws -> ~ In LF rest ->
  let out := ws ++ format_hhmmss_mmm n1 ++ py " --> "
               ++ format_hhmmss_mmm n2 ++ rest ++ [LF] in
  ((total_ms n1 < HUNDRED_HOURS_MS)%Z ->
   (total_ms n2 < HUNDRED_HOURS_MS)%Z ->
   time_match out
   = Some (mk_capture ws (format_hhmmss_mmm n1) (format_hhmmss_mmm n2) rest))
  /\ ((HUNDRED_HOURS_MS <= total_ms n1 \/ HUNDRED_HOURS_MS <= total_ms n2)%Z ->
      time_match out = None).
Proof.
  intros Hw Hr. cbv zeta.
  destruct (format_cases n1) as [L1 G1]. destruct (format_cases n2) as [L2 G2].
  split.
  - intros H1 H2. destruct (L1 H1) as [C1 _]. destruct (L2 H2) as [C2 _].
    apply rebuilt_time_match; try assumption;
      now apply canonical_is_timestamp.
  - intros H.
    destruct (Z_lt_le_dec (total_ms n1) HUNDRED_HOURS_MS) as [H1|H1].
    + destruct H as [H|H]; [lia|]. destruct (L1 H1) as [C1 _].
      destruct (G2 H (rest ++ [LF])) as [S2 St2].
      apply rebuilt_no_second; try assumption.
      now apply canonical_is_timestamp.
    + destruct (G1 H1 (py " --> " ++ format_hhmmss_mmm n2 ++ rest ++ [LF]))
        as [S1 St1].
      now apply rebuilt_no_first.
Qed.



(** ** [shift_line] on a matched line, by microseconds *)

Lemma shift_line_us (line : str) (c : capture) (shift : timedelta) :
  time_match line = Some c ->
  shift_line line shift
  = (n1 <- new_delta (stamp_us (c_start c) + td_us shift)%Z ;;
     n2 <- new_delta (stamp_us (c_end c) + td_us shift)%Z ;;
     Ok (c_ws c ++ format_hhmmss_mmm n1 ++ py " --> "
           ++ format_hhmmss_mmm n2 ++ c_rest c ++ [LF])).
Proof.
  intros M. rewrite (shift_line_matched line shift c M).
  destruct (shifted_matched line c shift M)
    as [t1 [t2 [_ [_ [U1 [U2 [_ [_ E]]]]]]]].
  rewrite E. unfold td_add. rewrite U1, U2.
  destruct (new_delta (stamp_us (c_start c) + td_us shift)) as [n1|e1];
    [|reflexivity].
  destruct (new_delta (stamp_us (c_end c) + td_us shift)) as [n2|e2];
    [|reflexivity].
  cbn [bind]. now rewrite !format_clamp.
Qed.

Lemma stamp_us_ms (s : str) : exists M, stamp_us s = (1000 * M)%Z.
Proof.
  unfold stamp_us.
  do 13 (try (destruct s as [|? s]; try (exists 0%Z; reflexivity))).
  - match goal with
    | |- exists M, (?b * 60000000 + ?c * 1000000 + ?d * 1000 = _)%Z =>
        exists (b * 60000 + c * 1000 + d)%Z; lia
    end.
  - match goal with
    | |- exists M,
          (?a * 3600000000 + ?b * 60000000 + ?c * 1000000 + ?d * 1000 = _)%Z =>
        exists (a * 3600000 + b * 60000 + c * 1000 + d)%Z; lia
    end.
Qed.

(** A time stamp of a matched line denotes a whole number of milliseconds,
    which a float holds exactly. *)
Lemma stamp_whole_ms (s : str) :
  is_timestamp s = true ->
  exists M, stamp_us s = (1000 * M)%Z /\ (0 <= M <= 362439999)%Z.
Proof.
  intros H. destruct (parse_stamp s H) as [_ [_ [_ B]]].
  destruct (stamp_us_ms s) as [M E]. exists M. split; [exact E|].
  unfold MAX_STAMP_US in B. lia.
Qed.

(** The time stamp printed for a whole number of milliseconds below 100
    hours denotes that number. *)
Lemma stamp_of_format (t : timedelta) (M : Z) :
  td_us t = (1000 * M)%Z -> (0 <= M < HUNDRED_HOURS_MS)%Z ->
  canonical_stamp (format_hhmmss_mmm t) = true
  /\ stamp_us (format_hhmmss_mmm t) = td_us t.
Proof.
  intros U HM. unfold HUNDRED_HOURS_MS in HM.
  destruct (format_whole_ms t M U) as [_ F]; [unfold EXACT_MS; lia|].
  rewrite F, U. apply format_ms_canonical. unfold HUNDRED_HOURS_MS. lia.
Qed.

(** With a shift of zero a second pass over the line that [shift_line]
    returned changes nothing more. *)
Lemma shift_line_zero_twice (line : str) :
  exists out,
    shift_line line timedelta_zero = Ok out
    /\ shift_line out timedelta_zero = Ok out.
Proof.
  destruct (time_match line) as [c|] eqn:M.
  2:{ exists line. split; now apply shift_line_unmatched. }
  destruct (time_match_stamps line c M) as [Hs [He Hr]].
  destruct (capture_parts line c M) as [Hw _].
  destruct (stamp_whole_ms _ Hs) as [M1 [E1 B1]].
  destruct (stamp_whole_ms _ He) as [M2 [E2 B2]].
  rewrite (shift_line_us line c timedelta_zero M).
  cbn [td_us timedelta_zero]. rewrite !Z.add_0_r.
  destruct (new_delta_ok (stamp_us (c_start c))) as [n1 [N1 U1]];
    [apply td_in_range_iff; lia|].
  destruct (new_delta_ok (stamp_us (c_end c))) as [n2 [N2 U2]];
    [apply td_in_range_iff; lia|].
  rewrite N1, N2. cbn [bind]. eexists. split; [reflexivity|].
  destruct (format_whole_ms n1 M1) as [T1 _];
    [congruence|unfold EXACT_MS; lia|].
  destruct (format_whole_ms n2 M2) as [T2 _];
    [congruence|unfold EXACT_MS; lia|].
  destruct (rebuilt_cases (c_ws c) (c_rest c) n1 n2 Hw Hr) as [R1 R2].
  destruct (Z_lt_le_dec (total_ms n1) HUNDRED_HOURS_MS) as [L1|L1];
    [destruct (Z_lt_le_dec (total_ms n2) HUNDRED_HOURS_MS) as [L2|L2]|].
  - rewrite (shift_line_us _ _ timedelta_zero (R1 L1 L2)).
    cbn [c_ws c_start c_end c_rest td_us timedelta_zero].
    rewrite !Z.add_0_r.
    destruct (stamp_of_format n1 M1) as [_ S1]; [congruence|lia|].
    destruct (stamp_of_format n2 M2) as [_ S2]; [congruence|lia|].
    rewrite S1, S2, U1, U2, N1, N2. reflexivity.
  - apply shift_line_unmatched, R2. now right.
  - apply shift_line_unmatched, R2. now left.
Qed.

(** Two shifts of a matched line, and the one shift by their sum. *)
Lemma compose_matched
  (line : str) (c : capture) (a b ab : timedelta) (A : Z) :
  time_match line = Some c ->
  td_us a = (1000 * A)%Z ->
  (0 <= stamp_us (c_start c) + td_us a < 1000 * HUNDRED_HOURS_MS)%Z ->
  (0 <= stamp_us (c_end c) + td_us a < 1000 * HUNDRED_HOURS_MS)%Z ->
  td_us ab = (td_us a + td_us b)%Z ->
  exists mid,
    shift_line line a = Ok mid
    /\ shift_line mid b = shift_line line ab.
Proof.
  intros M. unfold HUNDRED_HOURS_MS. intros UA B1 B2 UAB.
  destruct (time_match_stamps line c M) as [Hs [He Hr]].
  destruct (capture_parts line c M) as [Hw _].
  destruct (stamp_whole_ms _ Hs) as [M1 [E1 _]].
  destruct (stamp_whole_ms _ He) as [M2 [E2 _]].
  rewrite (shift_line_us line c a M), (shift_line_us line c ab M).
  destruct (new_delta_ok (stamp_us (c_start c) + td_us a)) as [n1 [N1 U1]];
    [apply td_in_range_iff; lia|].
  destruct (new_delta_ok (stamp_us (c_end c) + td_us a)) as [n2 [N2 U2]];
    [apply td_in_range_iff; lia|].
  rewrite N1, N2. cbn [bind]. eexists. split; [reflexivity|].
  destruct (stamp_of_format n1 (M1 + A)) as [C1 S1];
    [lia|unfold HUNDRED_HOURS_MS; lia|].
  destruct (stamp_of_format n2 (M2 + A)) as [C2 S2];
    [lia|unfold HUNDRED_HOURS_MS; lia|].
  rewrite (shift_line_us _ (mk_capture (c_ws c) (format_hhmmss_mmm n1)
                              (format_hhmmss_mmm n2) (c_rest c)) b).
  2:{ apply rebuilt_time_match; try assumption;
        now apply canonical_is_timestamp. }
  cbn [c_ws c_start c_end c_rest]. rewrite S1, S2, U1, U2, UAB.
  now rewrite <- !Z.add_assoc.
Qed.

(** X4.  Shifts compose: when the first shift is a whole number of
    milliseconds and takes both time stamps of a matched line to durations
    from zero to below 100 hours, shifting by [a] and then by [b] gives
    what one shift by [a + b] gives, an [OverflowError] included. *)
Theorem shift_line_compose
  (line : str) (m : groups) (a b ab : timedelta) (A : Z) :
  re_match TIME_RE line = Some m ->
  td_us a = (1000 * A)%Z ->
  (0 <= stamp_us (group m Gstart) + td_us a < 1000 * HUNDRED_HOURS_MS)%Z ->
  (0 <= stamp_us (group m Gend) + td_us a < 1000 * HUNDRED_HOURS_MS)%Z ->
  td_us ab = (td_us a + td_us b)%Z ->
  exists mid,
    shift_line line a = Ok mid
    /\ shift_line mid b = shift_line line ab.
Proof.
  rewrite re_match_time_match.
  destruct (time_match line) as [c|] eqn:M; [|discriminate].
  intros [= <-]. now apply compose_matched.
Qed.

Lemma shift_line_compose_witness :
  exists mid,
    shift_line (py "00:10.000 --> 00:12.500 align:start")
      (@mk_timedelta (-5000000) eq_refl) = Ok mid
    /\ shift_line mid (@mk_timedelta 65250000 eq_refl)
       = shift_line (py "00:10.000 --> 00:12.500 align:start")
           (@mk_timedelta 60250000 eq_refl).
Proof.
  apply (shift_line_compose (py "00:10.000 --> 00:12.500 align:start")
           [(Grest, py " align:start"); (Gend, py "00:12.500");
            (Gstart, py "00:10.000"); (G1, [])]
           (@mk_timedelta (-5000000) eq_refl)
           (@mk_timedelta 65250000 eq_refl)
           (@mk_timedelta 60250000 eq_refl) (-5000)%Z).
  - vm_compute. reflexivity.
  - reflexivity.
  - vm_compute. split; [discriminate|reflexivity].
  - vm_compute. split; [discriminate|reflexivity].
  - reflexivity.
Defined.

(** X5.  A timing line already in the form [shift_line] writes (canonical
    time stamps, one space on each side of the arrow, one line feed at the
    end) comes back unchanged from a shift of zero. *)
Theorem shift_line_zero_canonical (ws start end_ rest : str) :
  all_space ws -> canonical_stamp start = true ->
  canonical_stamp end_ = true -> ~ In LF rest ->
  shift_line (ws ++ start ++ py " --> " ++ end_ ++ rest ++ [LF])
    timedelta_zero
  = Ok (ws ++ start ++ py " --> " ++ end_ ++ rest ++ [LF]).
Proof.
  intros Hw C1 C2 Hr.
  pose proof (canonical_is_timestamp _ C1) as T1.
  pose proof (canonical_is_timestamp _ C2) as T2.
  rewrite (shift_line_us _ _ timedelta_zero
             (rebuilt_time_match ws start end_ rest Hw Hr T1 T2)).
  cbn [c_ws c_start c_end c_rest td_us timedelta_zero]. rewrite !Z.add_0_r.
  destruct (parse_stamp start T1) as [_ [_ [_ B1]]].
  destruct (parse_stamp end_ T2) as [_ [_ [_ B2]]].
  unfold MAX_STAMP_US in *.
  destruct (new_delta_ok (stamp_us start)) as [n1 [N1 U1]];
    [apply td_in_range_iff; lia|].
  destruct (new_delta_ok (stamp_us end_)) as [n2 [N2 U2]];
    [apply td_in_range_iff; lia|].
  rewrite N1, N2. cbn [bind].
  now rewrite (format_of_canonical start n1 C1 U1),
              (format_of_canonical end_ n2 C2 U2).
Qed.

Lemma shift_line_zero_canonical_witness :
  shift_line (py "  01:02:03.004 --> 01:02:05.678 line:0" ++ [LF])
    timedelta_zero
  = Ok (py "  01:02:03.004 --> 01:02:05.678 line:0" ++ [LF]).
Proof.
  apply (shift_line_zero_canonical (py "  ") (py "01:02:03.004")
           (py "01:02:05.678") (py " line:0")).
  - reflexivity.
  - reflexivity.
  - reflexivity.
  - vm_compute. intuition discriminate.
Defined.

(** ** The two forms the parser reads *)

Lemma split_prefix (sep : char) (a s h : str) (tl : list str) :
  ~ In sep a -> split sep s = h :: tl ->
  split sep (a ++ s) = (a ++ h) :: tl.
Proof.
  intros Ha Hs. induction a as [|c a IH]; [exact Hs|].
  cbn [app split]. destruct (c =? sep)%N eqn:E.
  - apply N.eqb_eq in E. subst c. elim Ha. now left.
  - rewrite IH; [reflexivity|]. intros Hin. apply Ha. now right.
Qed.

(** X6.  A text with two fields before the period (minutes and seconds) is
    read as the same text with [00:] written in front of it: the same
    duration, and an error exactly when the other gives one. *)
Theorem parse_short_form (s hms ms m sec : str) :
  split PERIOD s = [hms; ms] -> split COLON hms = [m; sec] ->
  parse_hhmmss_mmm (py "00:" ++ s)
  = match parse_hhmmss_mmm s with
    | Ok t => Ok t
    | Raise _ => Raise (ValueError (invalid_time_format (py "00:" ++ s)))
    end.
Proof.
  intros Hp Hc. unfold parse_hhmmss_mmm, parse_body.
  rewrite (split_prefix PERIOD (py "00:") s hms [ms]);
    [|vm_compute; intuition discriminate|exact Hp].
  rewrite Hp.
  change (py "00:" ++ hms) with (py "00" ++ COLON :: hms).
  rewrite (split_app COLON (py "00") hms);
    [|vm_compute; intuition discriminate].
  rewrite Hc.
  change (int_result (py "00")) with (@Ok Z 0%Z). cbn [bind].
  destruct (int_result m) as [mm|e1]; [|reflexivity].
  destruct (int_result sec) as [ss|e2]; [|reflexivity].
  cbn [bind].
  destruct (int_result ms) as [millis|e3]; [|reflexivity].
  cbn [bind].
  destruct (timedelta_hmsm 0 mm ss millis) as [t|e4]; reflexivity.
Qed.

Lemma parse_short_form_witness :
  parse_hhmmss_mmm (py "00:" ++ py "07:30.250")
  = match parse_hhmmss_mmm (py "07:30.250") with
    | Ok t => Ok t
    | Raise _ =>
        Raise (ValueError (invalid_time_format (py "00:" ++ py "07:30.250")))
    end.
Proof.
  apply (parse_short_form (py "07:30.250") (py "07:30") (py "250")
           (py "07") (py "30")).
  - reflexivity.
  - reflexivity.
Defined.

Lemma fields_us_ms (f : Z * Z * Z * Z) : exists M, fields_us f = (1000 * M)%Z.
Proof.
  destruct f as [[[hh mm] ss] millis]. unfold fields_us.
  exists (hh * 3600000 + mm * 60000 + ss * 1000 + millis)%Z. lia.
Qed.

(** X7.  Every duration the parser returns is a whole number of
    milliseconds, and up to [EXACT_MS] milliseconds the total that
    [format_hhmmss_mmm] prints for it is that number: the float arithmetic
    in between loses nothing. *)
Theorem parse_whole_ms (s : str) (t : timedelta) :
  parse_hhmmss_mmm s = Ok t ->
  (td_us t mod 1000 = 0)%Z
  /\ ((0 <= td_us t <= 1000 * EXACT_MS)%Z ->
      (1000 * total_ms t = td_us t)%Z
      /\ format_hhmmss_mmm t = format_ms (td_us t / 1000)).
Proof.
  intros P. pose proof (parse_by_fields s) as F.
  destruct (fields_of s) as [f|]; [|congruence].
  destruct (td_in_range (fields_us f)); [|congruence].
  destruct F as [t' [P' U]]. assert (t' = t) by congruence. subst t'.
  destruct (fields_us_ms f) as [M E]. rewrite E in U.
  split.
  - rewrite U, Z.mul_comm. apply Z.mod_mul. lia.
  - intros B. destruct (format_whole_ms t M U) as [T Fm]; [lia|].
    rewrite T, Fm, U. split; [reflexivity|].
    f_equal. rewrite Z.mul_comm, Z.div_mul; lia.
Qed.

Lemma parse_whole_ms_witness :
  (td_us (@mk_timedelta 7384005000 eq_refl) mod 1000 = 0)%Z
  /\ ((0 <= td_us (@mk_timedelta 7384005000 eq_refl) <= 1000 * EXACT_MS)%Z ->
      (1000 * total_ms (@mk_timedelta 7384005000 eq_refl)
       = td_us (@mk_timedelta 7384005000 eq_refl))%Z
      /\ format_hhmmss_mmm (@mk_timedelta 7384005000 eq_refl)
         = format_ms (td_us (@mk_timedelta 7384005000 eq_refl) / 1000)).
Proof.
  apply (parse_whole_ms (py "02:03:04.5")). vm_compute. reflexivity.
Defined.

(** ** The shift of a run *)

Lemma rne_opp (q : Q) : rne (- q) = (- rne q)%Z.
Proof.
  destruct q as [n d]. unfold rne. cbn [Qopp Qnum Qden].
  pose proof (Z.mod_pos_bound n (Zpos d) ltac:(lia)) as B.
  destruct (Z.eq_dec (n mod Zpos d) 0) as [Z0|NZ].
  - rewrite Z.div_opp_l_z, Z.mod_opp_l_z, Z0 by lia.
    change (2 * 0)%Z with 0%Z.
    destruct (Z.ltb_spec 0 (Zpos d)); [reflexivity|lia].
  - rewrite Z.div_opp_l_nz, Z.mod_opp_l_nz by lia.
    destruct (Z.ltb_spec (2 * (n mod Zpos d)) (Zpos d));
      destruct (Z.ltb_spec (Zpos d) (2 * (n mod Zpos d)));
      destruct (Z.ltb_spec (2 * (Zpos d - n mod Zpos d)) (Zpos d));
      destruct (Z.ltb_spec (Zpos d) (2 * (Zpos d - n mod Zpos d)));
      try lia.
    rewrite Z.even_sub, Z.even_opp. change (Z.even 1) with false.
    destruct (Z.even (n / Zpos d)); cbn [Bool.eqb]; lia.
Qed.

Lemma Qmult_opp_r_eq (a q : Q) : (a * - q)%Q = (- (a * q))%Q.
Proof.
  destruct a as [an ad], q as [n d]. unfold Qmult, Qopp. cbn [Qnum Qden].
  f_equal. lia.
Qed.

Lemma Qmult_opp_l_eq (q a : Q) : (- q * a)%Q = (- (q * a))%Q.
Proof.
  destruct a as [an ad], q as [n d]. unfold Qmult, Qopp. cbn [Qnum Qden].
  f_equal. lia.
Qed.

Lemma Qabs_opp_eq (q : Q) : Qabs (- q) = Qabs q.
Proof.
  destruct q as [n d]. unfold Qabs, Qopp. now rewrite Z.abs_opp.
Qed.

(** Rounding to 53 bits is symmetric. *)
Lemma fl_opp (q : Q) : fl (- q) = (- fl q)%Q.
Proof.
  unfold fl. rewrite Qabs_opp_eq.
  assert (E : (Qnum (- q) =? 0)%Z = (Qnum q =? 0)%Z)
    by (destruct q as [[|n|n] d]; reflexivity).
  rewrite E. destruct (Qnum q =? 0)%Z; [reflexivity|].
  cbv zeta. unfold Qdiv.
  now rewrite Qmult_opp_l_eq, rne_opp, <- Qmult_opp_l_eq.
Qed.

Lemma seconds_us_opp (q : Q) : seconds_us (- q) = (- seconds_us q)%Z.
Proof.
  unfold seconds_us. cbv zeta. destruct q as [n d].
  cbn [Qopp Qnum Qden]. rewrite Z.quot_opp_l by lia.
  set (i := Z.quot n (Zpos d)).
  assert (F : (Qopp (n # d) - inject_Z (- i))%Q
              = (- ((n # d) - inject_Z i))%Q).
  { unfold Qminus, Qplus, Qopp, inject_Z. cbn [Qnum Qden]. f_equal. lia. }
  rewrite F. set (f := ((n # d) - inject_Z i)%Q).
  assert (E : (Qnum (- f) =? 0)%Z = (Qnum f =? 0)%Z)
    by (destruct f as [[|fn|fn] fd]; reflexivity).
  rewrite E. destruct (Qnum f =? 0)%Z; [lia|].
  unfold float_mul, py_round. rewrite Qmult_opp_r_eq, fl_opp, rne_opp. lia.
Qed.

Lemma not_in_range (u : Z) :
  td_in_range u = false ->
  (u < -86399999913600000000 \/ 86399999999999999999 < u)%Z.
Proof.
  intros H.
  destruct (Z_lt_le_dec u (-86399999913600000000)) as [L|L]; [now left|].
  destruct (Z_lt_le_dec 86399999999999999999 u) as [G|G]; [now right|].
  assert (R : td_in_range u = true) by (apply td_in_range_iff; lia).
  congruence.
Qed.

(** X8.  [--subtract] negates the shift the other options give.  The
    result is the negated duration when that shift is at most 999999999
    days; above, where [timedelta] has no negative counterpart, it is an
    [OverflowError]; and an error of the other options is passed on.  An
    offset of 23999999976 hours and one millisecond is such a shift. *)
Theorem compute_shift_subtract (args : namespace) :
  match compute_shift (with_subtract false args) with
  | Ok t =>
      if (td_us t <=? MAX_NEGATABLE_US)%Z
      then exists t',
          compute_shift (with_subtract true args) = Ok t'
          /\ td_us t' = (- td_us t)%Z
      else compute_shift (with_subtract true args) = Raise OverflowError
  | Raise e => compute_shift (with_subtract true args) = Raise e
  end
  /\ compute_shift
       (mk_namespace None (Some (py "23999999976:00:00.001")) true)
     = Raise OverflowError.
Proof.
  split; [|vm_compute; reflexivity].
  unfold compute_shift, with_subtract. cbn [seconds offset subtract].
  match goal with
  | |- match (x <- ?r ;; _) with _ => _ end => destruct r as [t|e]
  end; cbn [bind]; [|reflexivity].
  unfold td_neg, MAX_NEGATABLE_US. pose proof (td_range t) as R.
  destruct (Z.leb_spec (td_us t) 86399999913600000000) as [L|L].
  - destruct (new_delta_ok (- td_us t)) as [t' [E U]];
      [apply td_in_range_iff; lia|].
    exists t'. split; assumption.
  - apply new_delta_raise.
    destruct (td_in_range (- td_us t)) eqn:E; [|reflexivity].
    apply td_in_range_iff in E. lia.
Qed.

(** X9.  [--subtract] with [--seconds x] is [--seconds -x] without it,
    but for one case: when [x] is below -999999999 days the first is an
    [OverflowError], although the second may give a duration, which is
    then above 999999999 days. *)
Theorem compute_shift_seconds_negated (q : Q) (off : option str) :
  let back := compute_shift (mk_namespace (Some (Finite q)) off true) in
  let forth := compute_shift (mk_namespace (Some (Finite (- q))) off false) in
  back = forth
  \/ (back = Raise OverflowError
      /\ (seconds_us q < - MAX_NEGATABLE_US)%Z
      /\ exists t, forth = Ok t /\ (MAX_NEGATABLE_US < td_us t)%Z).
Proof.
  cbv zeta. unfold compute_shift. cbn [seconds offset subtract].
  unfold timedelta_seconds. rewrite seconds_us_opp.
  destruct (new_delta_cases (seconds_us q)) as [[t [E [U R]]]|[E R]];
    rewrite E; cbn [bind].
  - left. unfold td_neg. rewrite U.
    now destruct (new_delta (- seconds_us q)).
  - destruct (new_delta_cases (- seconds_us q)) as [[t [E' [U' R']]]|[E' R']];
      rewrite E'; cbn [bind]; [right|now left].
    apply not_in_range in R. apply td_in_range_iff in R'.
    unfold MAX_NEGATABLE_US.
    split; [reflexivity|]. split; [lia|]. exists t. split; [reflexivity|lia].
Qed.

(** [--seconds -86399999913600.5 --subtract] is the case set apart. *)
Example seconds_negated_apart :
  compute_shift
    (mk_namespace (Some (Finite (- (172799999827201 # 2)))) None true)
  = Raise OverflowError
  /\ exists t,
      compute_shift
        (mk_namespace (Some (Finite (172799999827201 # 2))) None false)
      = Ok t
      /\ td_us t = 86399999913600500000%Z.
Proof.
  split; [vm_compute; reflexivity|].
  destruct (new_delta_ok 86399999913600500000) as [t [E U]]; [reflexivity|].
  exists t. split; [|exact U].
  unfold compute_shift. cbn [seconds offset subtract timedelta_seconds].
  change (seconds_us (172799999827201 # 2)) with 86399999913600500000%Z.
  now rewrite E.
Qed.

(** The fractional part that [modf] splits off lies strictly between -1
    and 1. *)
Lemma fracpart_bounds (q : Q) :
  let f := (q - inject_Z (Z.quot (Qnum q) (Zpos (Qden q))))%Q in
  (- (1) < f)%Q /\ (f < 1)%Q.
Proof.
  destruct q as [n d]. cbv zeta. cbn [Qnum Qden].
  pose proof (Z.quot_rem' n (Zpos d)) as E.
  pose proof (Z.rem_bound_abs n (Zpos d) ltac:(lia)) as B.
  unfold Qlt, Qminus, Qplus, Qopp, inject_Z. cbn [Qnum Qden].
  rewrite !Pos2Z.inj_mul. split; nia.
Qed.

(** X10.  The shift that [--seconds x] gives is [x] to within half a
    microsecond (and [2^-33] of one, for the rounding of the product). *)
Theorem compute_shift_seconds_accuracy
  (q : Q) (off : option str) (t : timedelta) :
  compute_shift (mk_namespace (Some (Finite q)) off false) = Ok t ->
  (Qabs (inject_Z (td_us t) - q * 1000000) <= (1 # 2) + (1 # 8589934592))%Q.
Proof.
  unfold compute_shift. cbn [seconds offset subtract timedelta_seconds].
  destruct (new_delta (seconds_us q)) as [t'|e] eqn:E; [|discriminate].
  cbn [bind]. intros [= ->]. apply new_delta_inv in E. destruct E as [U _].
  rewrite U. unfold seconds_us. cbv zeta.
  destruct (fracpart_bounds q) as [L H]. cbv zeta in L, H.
  set (i := Z.quot (Qnum q) (Zpos (Qden q))) in *.
  set (f := (q - inject_Z i)%Q) in *.
  assert (Q' : (q == inject_Z i + f)%Q) by (unfold f; ring).
  rewrite inject_Z_plus, inject_Z_mult.
  change (inject_Z 1000000) with 1000000%Q.
  apply Qabs_Qle_condition.
  destruct (Qnum f =? 0)%Z eqn:Z0.
  - apply Z.eqb_eq, Qnum_zero in Z0.
    change (inject_Z 0) with 0%Q. rewrite Q', Z0. split; lra.
  - unfold float_mul, py_round.
    destruct (rne_bounds (fl (1000000 * f))) as [R1 R2].
    destruct (fl_near (1000000 * f)) as [F1 F2].
    assert (A : (Qabs (1000000 * f) <= 1000000)%Q)
      by (apply Qabs_Qle_condition; split; lra).
    pose proof (Qabs_nonneg (1000000 * f)) as A0.
    unfold half_ulp in F1, F2. rewrite Q'. split; lra.
Qed.

Lemma compute_shift_seconds_accuracy_witness :
  (Qabs (inject_Z (td_us (@mk_timedelta 100000 eq_refl))
         - (3602879701896397 # 36028797018963968) * 1000000)
   <= (1 # 2) + (1 # 8589934592))%Q.
Proof.
  apply (compute_shift_seconds_accuracy
           (3602879701896397 # 36028797018963968) None).
  vm_compute. reflexivity.
Defined.

(** ** The lines of a file *)

Lemma new_lines_cons (line : str) (lines : list str) (shift : timedelta) :
  new_lines (line :: lines) shift
  = (l <- shift_line line shift ;;
     ls <- new_lines lines shift ;;
     Ok (l :: ls)).
Proof. reflexivity. Qed.

(** X11.  A run with a shift of zero is idempotent on a file: it returns
    for every list of lines, and a second run over its output changes
    nothing more (the first may change a line: the spacing of the arrow,
    the short form of a time stamp, digits that are not ASCII, the end of
    the last line). *)
Theorem new_lines_zero_idempotent (lines : list str) :
  exists out,
    new_lines lines timedelta_zero = Ok out
    /\ new_lines out timedelta_zero = Ok out.
Proof.
  induction lines as [|line lines [out [E1 E2]]].
  - exists []. split; reflexivity.
  - destruct (shift_line_zero_twice line) as [o [S1 S2]].
    exists (o :: out). rewrite !new_lines_cons, S1, E1, S2, E2.
    split; reflexivity.
Qed.

(** X12.  A run that returns keeps the number of lines, and every line
    that [TIME_RE] does not match is in the output at its place,
    unchanged. *)
Theorem new_lines_keeps_other_lines
  (lines out : list str) (shift : timedelta) :
  new_lines lines shift = Ok out ->
  length out = length lines
  /\ forall (i : nat) (line : str),
       nth_error lines i = Some line ->
       re_match TIME_RE line = None ->
       nth_error out i = Some line.
Proof.
  revert out. induction lines as [|l lines IH]; intros out H.
  - injection H as <-. split; [reflexivity|]. intros [|i] line; discriminate.
  - rewrite new_lines_cons in H.
    destruct (shift_line l shift) as [o|e] eqn:S; [|discriminate].
    destruct (new_lines lines shift) as [os|e] eqn:N; [|discriminate].
    cbn [bind] in H. injection H as <-.
    destruct (IH os eq_refl) as [L K]. split; [cbn [length]; now rewrite L|].
    intros [|i] line Hn Hm; cbn [nth_error] in *.
    + injection Hn as ->. rewrite re_match_time_match in Hm.
      destruct (time_match line) eqn:M; [discriminate|].
      rewrite (shift_line_unmatched line shift M) in S. congruence.
    + now apply K.
Qed.

Lemma new_lines_keeps_other_lines_witness :
  length [py "WEBVTT" ++ [LF]; [LF];
          py "00:00:00.000 --> 00:00:01.500" ++ [LF]; py "Hello"]
  = length [py "WEBVTT" ++ [LF]; [LF];
            py "00:01.000 --> 00:02.500" ++ [LF]; py "Hello"]
  /\ forall (i : nat) (line : str),
       nth_error [py "WEBVTT" ++ [LF]; [LF];
                  py "00:01.000 --> 00:02.500" ++ [LF]; py "Hello"] i
       = Some line ->
       re_match TIME_RE line = None ->
       nth_error [py "WEBVTT" ++ [LF]; [LF];
                  py "00:00:00.000 --> 00:00:01.500" ++ [LF]; py "Hello"] i
       = Some line.
Proof.
  apply (new_lines_keeps_other_lines _ _ (@mk_timedelta (-1000000) eq_refl)).
  vm_compute. reflexivity.
Defined.

(** X13.  A run raises nothing but the [OverflowError] of an addition, and
    then on a line that [TIME_RE] matches; [main] does not catch it. *)
Theorem new_lines_raises (lines : list str) (shift : timedelta) (e : exn) :
  new_lines lines shift = Raise e ->
  e = OverflowError
  /\ exists (line : str) (m : groups),
       In line lines /\ re_match TIME_RE line = Some m
       /\ shift_line line shift = Raise OverflowError.
Proof.
  induction lines as [|l lines IH]; [discriminate|].
  rewrite new_lines_cons.
  destruct (shift_line l shift) as [o|e1] eqn:S.
  - destruct (new_lines lines shift) as [os|e2]; [discriminate|].
    cbn [bind]. intros [= <-]. destruct (IH eq_refl) as [E [line [m [I R]]]].
    split; [exact E|]. exists line, m. split; [now right|exact R].
  - cbn [bind]. intros [= <-].
    pose proof (shift_line_raises l shift e1 S) as ->.
    split; [reflexivity|].
    destruct (re_match TIME_RE l) as [m|] eqn:M.
    + exists l, m. split; [now left|]. split; [exact M|exact S].
    + rewrite re_match_time_match in M.
      destruct (time_match l) eqn:T; [discriminate|].
      rewrite (shift_line_unmatched l shift T) in S. discriminate.
Qed.

Lemma new_lines_raises_witness :
  OverflowError = OverflowError
  /\ exists (line : str) (m : groups),
       In line [py "WEBVTT"; py "00:01.000 --> 00:02.000"]
       /\ re_match TIME_RE line = Some m
       /\ shift_line line timedelta_max = Raise OverflowError.
Proof.
  apply (new_lines_raises [py "WEBVTT"; py "00:01.000 --> 00:02.000"]
           timedelta_max OverflowError).
  vm_compute. reflexivity.
Defined.

Lemma compose_any_line (line : str) (a b ab : timedelta) (A : Z) :
  td_us a = (1000 * A)%Z -> within_100_hours a line ->
  td_us ab = (td_us a + td_us b)%Z ->
  exists mid,
    shift_line line a = Ok mid /\ shift_line mid b = shift_line line ab.
Proof.
  intros UA W UAB. unfold within_100_hours in W.
  rewrite re_match_time_match in W.
  destruct (time_match line) as [c|] eqn:M.
  - destruct W as [W1 W2].
    now apply (compose_matched line c a b ab A).
  - exists line. rewrite !(shift_line_unmatched line _ M).
    split; reflexivity.
Qed.

(** X14.  Runs compose on a file: when the first shift is a whole number
    of milliseconds and takes every time stamp of every timing line to a
    duration from zero to below 100 hours, a run with [a] and then one
    with [b] over its output give what one run with [a + b] gives, an
    [OverflowError] included. *)
Theorem new_lines_compose
  (lines : list str) (a b ab : timedelta) (A : Z) :
  td_us a = (1000 * A)%Z ->
  Forall (within_100_hours a) lines ->
  td_us ab = (td_us a + td_us b)%Z ->
  exists mid,
    new_lines lines a = Ok mid
    /\ new_lines mid b = new_lines lines ab.
Proof.
  intros UA W UAB. induction W as [|line lines W _ [mid [E1 E2]]].
  - exists []. split; reflexivity.
  - destruct (compose_any_line line a b ab A UA W UAB) as [m [S1 S2]].
    exists (m :: mid). rewrite !new_lines_cons, S1, E1, S2, E2.
    split; reflexivity.
Qed.

Lemma new_lines_compose_witness :
  exists mid,
    new_lines [py "WEBVTT" ++ [LF]; py "01:00.000-->01:02.500" ++ [LF]]
      (@mk_timedelta (-30000000) eq_refl) = Ok mid
    /\ new_lines mid (@mk_timedelta 1378000000 eq_refl)
       = new_lines [py "WEBVTT" ++ [LF]; py "01:00.000-->01:02.500" ++ [LF]]
           (@mk_timedelta 1348000000 eq_refl).
Proof.
  apply (new_lines_compose
           [py "WEBVTT" ++ [LF]; py "01:00.000-->01:02.500" ++ [LF]]
           (@mk_timedelta (-30000000) eq_refl)
           (@mk_timedelta 1378000000 eq_refl)
           (@mk_timedelta 1348000000 eq_refl) (-30000)%Z).
  - reflexivity.
  - apply Forall_cons; [exact I|].
    apply Forall_cons; [|apply Forall_nil].
    vm_compute. split; split; (discriminate || reflexivity).
  - reflexivity.
Defined.

(** ** What is printed tells the milliseconds *)

Lemma app_same_length (A : Type) (l1 l2 s1 s2 : list A) :
  l1 ++ s1 = l2 ++ s2 -> length s1 = length s2 -> l1 = l2 /\ s1 = s2.
Proof.
  revert l2. induction l1 as [|x l1 IH]; intros [|y l2] E L; cbn [app] in E.
  - now split.
  - apply (f_equal (@length A)) in E. cbn [length] in E.
    rewrite length_app in E. lia.
  - apply (f_equal (@length A)) in E. cbn [length] in E.
    rewrite length_app in E. lia.
  - injection E as -> E. destruct (IH l2 E L) as [-> ->]. now split.
Qed.

(** X15.  [format_hhmmss_mmm] prints two durations the same way only if
    they are the same number of milliseconds, once rounded and a negative
    one taken as zero. *)
Theorem format_injective (t1 t2 : timedelta) :
  format_hhmmss_mmm t1 = format_hhmmss_mmm t2 ->
  Z.max 0 (total_ms t1) = Z.max 0 (total_ms t2).
Proof.
  rewrite !format_as_ms.
  pose proof (total_ms_below t1) as B1. pose proof (total_ms_below t2) as B2.
  set (F := Z.max 0 (total_ms t1)). set (G := Z.max 0 (total_ms t2)).
  intros E.
  destruct (format_ms_shape F ltac:(lia))
    as [h [m1 [m2 [s1 [s2 [f1 [f2 [f3 [E1 [_ [_ [_ [_ V1]]]]]]]]]]]]].
  destruct (format_ms_shape G ltac:(lia))
    as [h' [m1' [m2' [s1' [s2' [f1' [f2' [f3' [E2 [_ [_ [_ [_ V2]]]]]]]]]]]]].
  rewrite E1, E2 in E.
  apply app_same_length in E; [|reflexivity].
  destruct E as [-> E]. injection E as -> -> -> -> -> -> ->.
  now rewrite <- V1, <- V2.
Qed.

Lemma format_injective_witness :
  Z.max 0 (total_ms (@mk_timedelta 1500000 eq_refl))
  = Z.max 0 (total_ms (@mk_timedelta 1500400 eq_refl)).
Proof.
  apply (format_injective (@mk_timedelta 1500000 eq_refl)
           (@mk_timedelta 1500400 eq_refl)).
  vm_compute. reflexivity.
Defined.

(** ** A whole run *)

Lemma ms_of_us_opp (u : Z) : ms_of_us (- u) = (- ms_of_us u)%Z.
Proof.
  unfold ms_of_us, py_round, float_mul, int_true_divide.
  change (- u # 1000000)%Q with (- (u # 1000000))%Q.
  now rewrite fl_opp, Qmult_opp_l_eq, fl_opp, rne_opp.
Qed.

(** X16.  [abs(shift)] never raises, unlike the negation, and the summary
    shows the magnitude of the shift: the time stamp of the absolute value
    of its rounded milliseconds, the same for a shift and its opposite. *)
Theorem summary_duration_magnitude (shift : timedelta) :
  summary_duration shift = Ok (format_ms (Z.abs (total_ms shift))).
Proof.
  unfold summary_duration, td_abs, td_neg. pose proof (td_range shift) as R.
  destruct (Z.ltb_spec (td_us shift) 0) as [N|P].
  - destruct (new_delta_ok (- td_us shift)) as [d [E U]];
      [apply td_in_range_iff; lia|].
    rewrite E. cbn [bind]. rewrite format_as_ms, !total_ms_ms_of_us, U.
    rewrite ms_of_us_opp. pose proof (ms_of_us_neg (td_us shift) N).
    do 2 f_equal. lia.
  - cbn [bind]. rewrite format_as_ms, total_ms_ms_of_us.
    pose proof (ms_of_us_nonneg (td_us shift) P). do 2 f_equal. lia.
Qed.

Lemma new_lines_returns (lines : list str) (shift : timedelta) :
  safe_shift shift ->
  exists out, new_lines lines shift = Ok out /\ length out = length lines.
Proof.
  intros Hs. induction lines as [|line lines [out [E L]]].
  - exists []. split; reflexivity.
  - destruct (shift_line_returns line shift Hs) as [o S].
    exists (o :: out). rewrite new_lines_cons, S, E.
    split; [reflexivity|cbn [length]; now rewrite L].
Qed.

(** X17.  With an offset in one of the two forms of a time stamp, or with
    no offset at all, and no [--seconds], a run raises nothing, with
    [--subtract] or without: [compute_shift] returns the offset (22
    minutes 58 seconds by default) or its opposite, and every list of
    lines is shifted, line for line. *)
Theorem run_with_offset_returns
  (off : option str) (sub : bool) (lines : list str) :
  match off with Some s => is_timestamp s = true | None => True end ->
  exists shift out,
    compute_shift (mk_namespace None off sub) = Ok shift
    /\ td_us shift
       = (let u := match off with
                   | Some s => stamp_us s
                   | None => 1378000000
                   end in
          if sub then - u else u)%Z
    /\ new_lines lines shift = Ok out
    /\ length out = length lines.
Proof.
  intros H. cbv zeta.
  assert (P : exists t,
             match off with
             | Some s => parse_hhmmss_mmm s
             | None => timedelta_hmsm 0 22 58 0
             end = Ok t
             /\ td_us t = match off with
                          | Some s => stamp_us s
                          | None => 1378000000%Z
                          end
             /\ (0 <= td_us t <= MAX_STAMP_US)%Z).
  { destruct off as [s|].
    - destruct (parse_stamp s H) as [t [P [U B]]]. exists t.
      split; [exact P|]. split; [exact U|]. now rewrite U.
    - destruct (new_delta_ok 1378000000) as [t [E U]]; [reflexivity|].
      exists t. split; [exact E|]. split; [exact U|].
      rewrite U. unfold MAX_STAMP_US. lia. }
  destruct P as [t [P [U B]]]. unfold compute_shift.
  cbn [seconds offset subtract]. rewrite P. cbn [bind].
  unfold MAX_STAMP_US in B.
  assert (K : forall shift : timedelta,
             (- 362439999000 <= td_us shift <= 362439999000)%Z ->
             exists out,
               new_lines lines shift = Ok out /\ length out = length lines).
  { intros shift Hs. apply new_lines_returns.
    unfold safe_shift, MAX_STAMP_US, MAX_DELTA_DAYS, US_PER_DAY. lia. }
  destruct sub.
  - unfold td_neg. destruct (new_delta_ok (- td_us t)) as [n [E Un]];
      [apply td_in_range_iff; lia|].
    destruct (K n ltac:(lia)) as [out [N L]].
    exists n, out. rewrite E, Un, U. repeat split; assumption.
  - destruct (K t ltac:(lia)) as [out [N L]].
    exists t, out. rewrite U. repeat split; assumption.
Qed.

Lemma run_with_offset_returns_witness :
  exists shift out,
    compute_shift (mk_namespace None (Some (py "22:58.000")) true) = Ok shift
    /\ td_us shift = (- 1378000000)%Z
    /\ new_lines [py "WEBVTT" ++ [LF]; py "30:00.000 --> 30:02.000" ++ [LF]]
         shift = Ok out
    /\ length out = 2%nat.
Proof.
  apply (run_with_offset_returns (Some (py "22:58.000")) true
           [py "WEBVTT" ++ [LF]; py "30:00.000 --> 30:02.000" ++ [LF]]).
  reflexivity.
Defined.
